(** * Currency-Converter: rate resolution, caching and history log

    A shallow embedding of the client API module ([CurrencyAPI], in its two
    variants), of the server endpoints [convert.php], [symbols.php],
    [timeseries.php] and [history.php], and the properties of the
    specification that concern them.

    Conventions of the embedding
    - The numbers of the conversions and of the series are binary64 values,
      as JavaScript numbers and PHP floats are: [spec_float] of the Standard
      Library with its correctly rounded operations at precision 53.
      [history.php] only compares its numbers with zero and stores them;
      there they are exact rationals ([Q]).
    - PHP library functions whose algorithm is not part of the repository
      ([md5], [round], [floatval], the text of a float, the product of a
      text and a float) are parameters of the endpoint that calls them.
    - A reply of an endpoint is its status and the array it hands to
      [json_encode]; a cache file is the array that was encoded into it.
    - Wall-clock readings ([Date.now()], [time()], [date('c')],
      [new Date().toISOString()], the modification time a written file
      gets) are arguments of the operation that reads them.
    - A calendar date is the number of its day ([Z]); a ['Y-m-d'] string is
      order-isomorphic to it.  The date an iteration of the client's series
      loop prints (a local-time shift read in UTC) is an argument.
    - Text is a string of bytes; [toUpperCase] of JavaScript and
      [strtoupper] agree on ASCII text, which is what the statements on the
      client assume of the codes they are given.
    - The single network request an operation may issue is given by its
      outcome ([None]: the request throws); the client logs the requests it
      issues, the server endpoints tell whether the rate provider was
      contacted.
    - Draws of [Math.random()], [mt_rand()] and [uniqid()] are arguments. *)

From Stdlib Require Import ZArith QArith Lia Ascii String SpecFloat.
From stdpp Require Import gmap strings list pretty sorting.

Local Open Scope Z_scope.

(** ** Numbers *)

(** The numbers [history.php] handles. *)
Module Num.

(** [x <= 0]. *)
Definition nonpositive (x : Q) : bool := Qle_bool x 0.

End Num.

(** Binary64: JavaScript numbers and PHP floats. *)
Module Double.

Definition prec : Z := 53.
Definition emax : Z := 1024.

Definition number : Type := spec_float.

(** [+], [-], [*], [/]: the exact result rounded to nearest, ties to even. *)
Definition add : number -> number -> number := SFadd prec emax.
Definition sub : number -> number -> number := SFsub prec emax.
Definition mul : number -> number -> number := SFmul prec emax.
Definition div : number -> number -> number := SFdiv prec emax.

(** [<], [<=], [==]: false as soon as an operand is NaN. *)
Definition lt : number -> number -> bool := SFltb.
Definition le : number -> number -> bool := SFleb.
Definition eq : number -> number -> bool := SFeqb.

Definition zero : number := S754_zero false.

(** An integer literal, an integer turned into a float. *)
Definition of_int (n : Z) : number := binary_normalize prec emax n 0 false.

(** The decimal literal [n / d], [d] a power of ten: the double nearest to
    the quotient (0.85 is [lit 85 100]). *)
Definition lit (n d : Z) : number := div (of_int n) (of_int d).

(** A value a float can hold (mantissa and exponent in range). *)
Definition valid (x : number) : bool := valid_binary prec emax x.



(** JS [!x] on a number: zero and NaN are falsy. *)
Definition falsy (x : number) : bool :=
  match x with
  | S754_zero _ | S754_nan => true
  | S754_infinity _ | S754_finite _ _ _ => false
  end.

(** [x <= 0] *)
Definition nonpositive (x : number) : bool := le x zero.

(** [x > 0] *)
Definition above_zero (x : number) : Prop := lt zero x = true.

(** The float of the integer [n], with the sign [s] when [n] is zero. *)
Definition integer (s : bool) (n : Z) : number :=
  if n =? 0 then S754_zero s else of_int n.

(** [Math.round(x)]: the integer nearest to [x], the upper one of two
    equally near; an [x] that is integral, infinite or NaN is returned as it
    is, and a negative [x] that rounds to zero gives -0.  A float with a
    non-negative exponent is integral. *)
Definition Math_round (x : number) : number :=
  match x with
  | S754_finite s m e =>
      if 0 <=? e then x
      else
        let num := if s then Z.neg m else Z.pos m in
        integer s ((2 * num + 2 ^ (- e)) / 2 ^ (1 - e))
  | S754_zero _ | S754_infinity _ | S754_nan => x
  end.

(** [Math.round(x * scale) / scale], as [convert] writes it for
    [scale] 100 and 1000000. *)
Definition js_round_to (scale : number) (x : number) : number :=
  div (Math_round (mul x scale)) scale.



End Double.

(** ** Strings *)

Module Str.

Definition upper_ascii (c : ascii) : ascii :=
  let n := nat_of_ascii c in
  if ((97 <=? n)%nat && (n <=? 122)%nat)%bool then ascii_of_nat (n - 32) else c.

(** [String.prototype.toUpperCase] and [strtoupper] on ASCII text. *)
Fixpoint toUpperCase (s : string) : string :=
  match s with
  | EmptyString => EmptyString
  | String c r => String (upper_ascii c) (toUpperCase r)
  end.

(** The characters PHP [trim] strips: space, \t, \n, \r, \0, \x0B. *)
Definition is_blank (c : ascii) : bool :=
  let n := nat_of_ascii c in
  ((n =? 32) || (n =? 9) || (n =? 10) || (n =? 13) || (n =? 0) || (n =? 11))%nat.

Fixpoint ltrim (s : string) : string :=
  match s with
  | String c r => if is_blank c then ltrim r else s
  | EmptyString => EmptyString
  end.

Fixpoint rtrim (s : string) : string :=
  match s with
  | EmptyString => EmptyString
  | String c r =>
      match rtrim r with
      | EmptyString => if is_blank c then EmptyString else String c EmptyString
      | r' => String c r'
      end
  end.

Definition trim (s : string) : string := ltrim (rtrim s).

(** PHP [empty($s)] on a string: the empty string and ["0"]. *)
Definition php_empty (s : string) : bool :=
  bool_decide (s = EmptyString) || bool_decide (s = "0").

(** JS [!s] on a string. *)
Definition js_falsy (s : string) : bool := bool_decide (s = EmptyString).

(** Text of ASCII characters only. *)
Fixpoint is_ascii (s : string) : bool :=
  match s with
  | EmptyString => true
  | String c r => (nat_of_ascii c <? 128)%nat && is_ascii r
  end.

End Str.

(** ** The static tables *)

Module Table.

(** Lookup in an object literal / PHP array: first binding of the key. *)
Fixpoint assoc {A} (k : string) (l : list (string * A)) : option A :=
  match l with
  | [] => None
  | (k', v) :: r => if bool_decide (k = k') then Some v else assoc k r
  end.

(** [this.fallbackRates] of the client and [$rates] of [convert.php]:
    the two literals are the same. *)
Definition fallbackRates : list (string * Double.number) :=
  [ ("USD", Double.lit 10 10); ("EUR", Double.lit 85 100);
    ("GBP", Double.lit 73 100); ("JPY", Double.lit 1100 10);
    ("CHF", Double.lit 92 100); ("CAD", Double.lit 125 100);
    ("AUD", Double.lit 135 100); ("CNY", Double.lit 645 100);
    ("RUB", Double.lit 750 10); ("INR", Double.lit 740 10);
    ("BRL", Double.lit 52 10); ("KRW", Double.lit 11800 10);
    ("MXN", Double.lit 200 10); ("SGD", Double.lit 135 100);
    ("HKD", Double.lit 78 10); ("NOK", Double.lit 85 10);
    ("SEK", Double.lit 87 10); ("DKK", Double.lit 63 10);
    ("PLN", Double.lit 39 10); ("CZK", Double.lit 215 10) ].

Record SymbolInfo := { description : string; symbol : string }.

(** [this.fallbackSymbols] of the client (20 codes); the currency signs
    outside ASCII are written by name. *)
Definition fallbackSymbols : list (string * SymbolInfo) :=
  [ ("USD", {| description := "US Dollar"; symbol := "$" |});
    ("EUR", {| description := "Euro"; symbol := "EUR-sign" |});
    ("GBP", {| description := "British Pound"; symbol := "GBP-sign" |});
    ("JPY", {| description := "Japanese Yen"; symbol := "JPY-sign" |});
    ("CHF", {| description := "Swiss Franc"; symbol := "CHF" |});
    ("CAD", {| description := "Canadian Dollar"; symbol := "C$" |});
    ("AUD", {| description := "Australian Dollar"; symbol := "A$" |});
    ("CNY", {| description := "Chinese Yuan"; symbol := "JPY-sign" |});
    ("RUB", {| description := "Russian Ruble"; symbol := "RUB-sign" |});
    ("INR", {| description := "Indian Rupee"; symbol := "INR-sign" |});
    ("BRL", {| description := "Brazilian Real"; symbol := "R$" |});
    ("KRW", {| description := "South Korean Won"; symbol := "KRW-sign" |});
    ("MXN", {| description := "Mexican Peso"; symbol := "$" |});
    ("SGD", {| description := "Singapore Dollar"; symbol := "S$" |});
    ("HKD", {| description := "Hong Kong Dollar"; symbol := "HK$" |});
    ("NOK", {| description := "Norwegian Krone"; symbol := "kr" |});
    ("SEK", {| description := "Swedish Krona"; symbol := "kr" |});
    ("DKK", {| description := "Danish Krone"; symbol := "kr" |});
    ("PLN", {| description := "Polish Zloty"; symbol := "zl" |});
    ("CZK", {| description := "Czech Koruna"; symbol := "Kc" |}) ].

(** [$fallbackSymbols] of [symbols.php]: the same 20 and two more. *)
Definition fallbackSymbols_php : list (string * SymbolInfo) :=
  fallbackSymbols ++
  [ ("TL", {| description := "Turkish Lira"; symbol := "TRY-sign" |});
    ("UA", {| description := "Ukrainian Hryvnia"; symbol := "UAH-sign" |}) ].

(** A code is present in the static rate table. *)
Definition supported (code : string) : Prop := is_Some (assoc code fallbackRates).

End Table.

(** ** Payloads exchanged between the server endpoints and the client *)

Module Wire.
Import Double.

(** A value in the place of an amount: a number, or text (a GET parameter,
    a JSON string; the empty text when the key is missing). *)
Inductive Amount :=
| ANumber (x : number)
| AText (s : string).

(** The object [convert.php] answers with and the client's fallback
    literal; [cached] and [fallback] are optional keys. *)
Record ConvertData := {
  c_success : bool;
  c_from : string;
  c_to : string;
  c_amount : Amount;
  c_result : number;
  c_rate : number;
  c_date : string;
  c_cached : option bool;
  c_fallback : option bool
}.

Record SymbolsData := {
  s_success : bool;
  s_symbols : list (string * Table.SymbolInfo);
  s_cached : bool;
  s_timestamp : string;
  s_fallback : option bool
}.

(** The keys only [timeseries.php] writes. *)
Record SeriesMeta := {
  m_success : bool;
  m_start_date : Z;
  m_end_date : Z;
  m_days : Z;
  m_count : nat;
  m_timestamp : string
}.

(** [rates] maps a date to a rate, in insertion order. *)
Record SeriesData := {
  t_from : string;
  t_to : string;
  t_rates : list (Z * number);
  t_fallback : option bool;
  t_cached : option bool;
  t_meta : option SeriesMeta
}.

(** [o[k] = v] on an object / PHP array keyed by date: an existing key
    keeps its place, a new one goes last. *)
Fixpoint obj_set (k : Z) (v : number) (o : list (Z * number)) : list (Z * number) :=
  match o with
  | [] => [(k, v)]
  | (k', v') :: r =>
      if bool_decide (k = k') then (k, v) :: r else (k', v') :: obj_set k v r
  end.

(** Dates strictly ascending along the list. *)
Fixpoint ascending (keys : list Z) : Prop :=
  match keys with
  | [] => True
  | k :: r => match r with [] => True | k' :: _ => k < k' end /\ ascending r
  end.

End Wire.

(** ** The client module ([class CurrencyAPI], documented variant) *)

Module Client.
Import Double Wire.

Inductive js_error :=
| InvalidParameters      (* thrown by the guard of [convert] *)
| UnsupportedCurrency.   (* thrown when a code misses in [fallbackRates] *)

(** What a call hands back: the parsed body of a backend reply, or one of
    the literals built by the module. *)
Inductive js_value :=
| VSymbols (d : SymbolsData)
| VConvert (d : ConvertData)
| VSeries (d : SeriesData).

Inductive Request :=
| ReqSymbols
| ReqConvert (from to : string) (amount : number)
| ReqTimeSeries (from to : string) (days : Z).

Record CacheEntry := { data : js_value; timestamp : Z }.

(** The fields of the instance that change, and the log of the backend
    requests it has issued (newest first). *)
Record CurrencyAPI := {
  cache : gmap string CacheEntry;
  requests : list Request
}.

(** [this.cacheTimeout = 5 * 60 * 1000] *)
Definition cacheTimeout : Z := 5 * 60 * 1000.

Definition issue (r : Request) (api : CurrencyAPI) : CurrencyAPI :=
  {| cache := cache api; requests := r :: requests api |}.

Definition cache_set (k : string) (d : js_value) (t : Z) (api : CurrencyAPI) : CurrencyAPI :=
  {| cache := <[k := {| data := d; timestamp := t |}]> (cache api);
     requests := requests api |}.

(** [this.cache.has(k)] and [Date.now() - cached.timestamp < this.cacheTimeout] *)
Definition cache_fresh (k : string) (now : Z) (api : CurrencyAPI) : option js_value :=
  match cache api !! k with
  | Some e => if now - timestamp e <? cacheTimeout then Some (data e) else None
  | None => None
  end.

(** [getSymbols()]: [now] is the clock at the cache check, [later] the
    clock when the entry is stored, [iso] the text of [toISOString()]. *)
Definition getSymbols (backend : option js_value) (now later : Z) (iso : string)
    (api : CurrencyAPI) : (js_error + js_value) * CurrencyAPI :=
  let cacheKey := "symbols" in
  match cache_fresh cacheKey now api with
  | Some d => (inr d, api)
  | None =>
      let api := issue ReqSymbols api in
      match backend with
      | Some d => (inr d, cache_set cacheKey d later api)
      | None =>
          let fallbackData := VSymbols
            {| s_success := true; s_symbols := Table.fallbackSymbols;
               s_cached := false; s_timestamp := iso; s_fallback := Some true |} in
          (inr fallbackData, cache_set cacheKey fallbackData later api)
      end
  end.

(** [convert(from, to, amount)], [amount] a number. *)
Definition convert (backend : option js_value) (iso : string)
    (from to : string) (amount : number)
    (api : CurrencyAPI) : (js_error + js_value) * CurrencyAPI :=
  if Str.js_falsy from || Str.js_falsy to || falsy amount || nonpositive amount
  then (inl InvalidParameters, api)
  else
    let api := issue (ReqConvert (Str.toUpperCase from) (Str.toUpperCase to) amount) api in
    match backend with
    | Some d => (inr d, api)
    | None =>
        let fromUpper := Str.toUpperCase from in
        let toUpper := Str.toUpperCase to in
        match Table.assoc fromUpper Table.fallbackRates,
              Table.assoc toUpper Table.fallbackRates with
        | Some rf, Some rt =>
            if negb (falsy rf) && negb (falsy rt) then
              let rate := div rt rf in
              let result := mul amount rate in
              (inr (VConvert
                 {| c_success := true; c_from := fromUpper; c_to := toUpper;
                    c_amount := ANumber amount;
                    c_result := js_round_to (of_int 100) result;
                    c_rate := js_round_to (of_int 1000000) rate;
                    c_date := iso; c_cached := None; c_fallback := Some true |}),
               api)
            else (inl UnsupportedCurrency, api)
        | _, _ => (inl UnsupportedCurrency, api)
        end
    end.

(** [getTimeSeries(from, to, days = 30)].  [isoDay i] is the date the
    iteration with loop index [i] prints: [new Date()] moved back [i] days
    by [setDate(getDate() - i)], which works on the local date, and read by
    [toISOString()], which prints the UTC date.  [random i] is the draw of
    [Math.random()] in that iteration. *)
Definition default_days : Z := 30.

Fixpoint fallback_loop (isoDay : Z -> Z) (random : Z -> number) (baseRate : number)
    (n : nat) (i : Z) (rates : list (Z * number)) : list (Z * number) :=
  match n with
  | O => rates
  | S n' =>
      let dateStr := isoDay i in
      let variation := mul (sub (random i) (lit 5 10)) (lit 1 10) in
      let rate := mul baseRate (add (of_int 1) variation) in
      fallback_loop isoDay random baseRate n' (i - 1) (obj_set dateStr rate rates)
  end.

(** [for (let i = days; i >= 0; i--)]: [days + 1] rounds when
    [days >= 0], none otherwise. *)
Definition fallback_rates (isoDay : Z -> Z) (random : Z -> number) (baseRate : number)
    (days : Z) : list (Z * number) :=
  fallback_loop isoDay random baseRate (Z.to_nat (days + 1)) days [].

Definition timeseries_key (from to : string) (days : Z) : string :=
  "timeseries_" +:+ from +:+ "_" +:+ to +:+ "_" +:+ pretty days.

Definition getTimeSeries (backend : option js_value) (now later : Z)
    (isoDay : Z -> Z) (random : Z -> number) (from to : string) (days_arg : option Z)
    (api : CurrencyAPI) : (js_error + js_value) * CurrencyAPI :=
  let days := default default_days days_arg in
  let cacheKey := timeseries_key from to days in
  match cache_fresh cacheKey now api with
  | Some d => (inr d, api)
  | None =>
      let api := issue (ReqTimeSeries (Str.toUpperCase from) (Str.toUpperCase to) days) api in
      match backend with
      | Some d => (inr d, cache_set cacheKey d later api)
      | None =>
          let fromUpper := Str.toUpperCase from in
          let toUpper := Str.toUpperCase to in
          match Table.assoc fromUpper Table.fallbackRates,
                Table.assoc toUpper Table.fallbackRates with
          | Some rf, Some rt =>
              if negb (falsy rf) && negb (falsy rt) then
                let baseRate := div rt rf in
                let result := VSeries
                  {| t_from := fromUpper; t_to := toUpper;
                     t_rates := fallback_rates isoDay random baseRate days;
                     t_fallback := Some true; t_cached := None;
                     t_meta := None |} in
                (inr result, cache_set cacheKey result later api)
              else (inl UnsupportedCurrency, api)
          | _, _ => (inl UnsupportedCurrency, api)
          end
      end
  end.

(** *** History kept in [localStorage]

    [A] is the type of a record; the stored item is absent ([None]) or the
    parsed array. *)
Section History.
Context {A : Type}.

Definition getHistoryFromStorage (storage : option (list A)) : list A :=
  match storage with Some history => history | None => [] end.

(** [history.unshift(record); if (history.length > 50) history.splice(50)] *)
Definition saveHistoryToStorage (record : A) (storage : option (list A))
    : option (list A) :=
  let history := getHistoryFromStorage storage in
  let history := record :: history in
  let history :=
    if (50 <? length history)%nat then take 50 history else history in
  Some history.

Definition clearHistoryFromStorage (storage : option (list A)) : option (list A) :=
  None.

(** [getHistory()]: [backend] is the reply of [history.php], whose
    [history] key may be missing. *)
Definition getHistory (backend : option (option (list A)))
    (storage : option (list A)) : list A :=
  match backend with
  | Some (Some h) => h
  | Some None => []
  | None => getHistoryFromStorage storage
  end.

(** [saveHistory(record)]: the record goes to the backend, or to the
    local store when the request throws. *)
Definition saveHistory (backend_ok : bool) (record : A)
    (storage : option (list A)) : option (list A) :=
  if backend_ok then storage else saveHistoryToStorage record storage.

End History.

End Client.

(** ** The client module, second variant (used by the React components)

    [getSymbols], [convert] and [getTimeSeries] are those of [Client]; the
    history fallback keeps 10 records under another key. *)

Module ClientReact.

Section History.
Context {A : Type}.

(** [localHistory.unshift(conversion)] then
    [setItem(..., localHistory.slice(0, 10))] *)
Definition saveHistory (backend_ok : bool) (conversion : A)
    (storage : option (list A)) : option (list A) :=
  if backend_ok then storage
  else
    let localHistory := match storage with Some h => h | None => [] end in
    let localHistory := conversion :: localHistory in
    Some (take 10 localHistory).

End History.

End ClientReact.

(** ** The history page ([class ConversionHistory]) *)

Module HistoryView.

Definition maxRecords : nat := 10.

Section View.
Context {A : Type}.

(** [this.history.slice(0, this.maxRecords)] *)
Definition renderHistoryTable (history : list A) : list A :=
  take maxRecords history.

(** [addNewRecord(record)] *)
Definition addNewRecord (record : A) (history : list A) : list A :=
  let history := record :: history in
  if (50 <? length history)%nat then take 50 history else history.

End View.

End HistoryView.

(** ** Server endpoints *)

Module Http.

Inductive Method := GET | POST | DELETE | OPTIONS | OTHER.

(** A cache file: its decoded content and its modification time. *)
Record CacheFile (T : Type) := { content : T; mtime : Z }.
Arguments content {T} _.
Arguments mtime {T} _.

(** [file_exists($f) && (time() - filemtime($f)) < $cacheTime], then the
    content read (a file written by the endpoint is never empty). *)
Definition cache_read {T} (files : gmap string (CacheFile T)) (path : string)
    (now cacheTime : Z) : option T :=
  match files !! path with
  | Some f => if now - mtime f <? cacheTime then Some (content f) else None
  | None => None
  end.

(** [file_put_contents($f, ...)], the file getting the time [written]. *)
Definition cache_write {T} (files : gmap string (CacheFile T)) (path : string)
    (written : Z) (d : T) : gmap string (CacheFile T) :=
  <[path := {| content := d; mtime := written |}]> files.

End Http.

(** *** [convert.php] *)

Module ConvertPhp.
Import Double Wire Http.

(** What the request to the rate provider gives. *)
Inductive upstream_reply :=
| FetchFailed        (* [file_get_contents] returned [false] *)
| BadJson            (* [json_last_error() !== JSON_ERROR_NONE] *)
| ApiError           (* [success] missing or false *)
| ApiOk (q_from q_to : string) (q_amount : Amount) (result rate : number).

Inductive Exception :=
| MissingParams | NonPositiveAmount | SameCurrency
| UpstreamFetch | UpstreamJson | UpstreamError.

Inductive Body :=
| Empty
| MethodNotAllowed
| Payload (d : ConvertData)
| Unsupported (timestamp : string)    (* [success => false], the error text, [timestamp] *)
| Uncaught.                           (* the script died on an [Error], which
                                         [catch (Exception $e)] lets through: no body *)

Record Reply := { status : Z; body : Body }.

(** The [cached] key of a reply, when it has one. *)
Definition reports_cached (r : Reply) : option bool :=
  match body r with Payload d => c_cached d | _ => None end.

(** How the [try] block ends: it answered and exited, or it threw; a throw
    leaves [$from], [$to], [$amount] as they were at that point ([$amount]
    is the parameter as received until [floatval] has replaced it).
    [fetched] tells whether the rate provider was contacted. *)
Inductive TryResult :=
| Done (r : Reply) (files : gmap string (CacheFile ConvertData)) (fetched : bool)
| Thrown (e : Exception) (from to : string) (amount : Amount) (fetched : bool).

Definition cacheTime : Z := 300.

Section Endpoint.
(** The PHP functions the script calls: [md5]; the text a float gives in
    [$from . $to . $amount]; [floatval] of a text; [round($x, $places)];
    and [$text * $float], [None] when the interpreter throws a [TypeError]
    (as PHP 8 does on a text that is not numeric). *)
Variable md5 : string -> string.
Variable strval : number -> string.
Variable floatval : string -> number.
Variable round : number -> Z -> number.
Variable times : string -> number -> option number.

(** [empty($amount)]: the texts [''] and ['0'], the number zero. *)
Definition empty_amount (amount : Amount) : bool :=
  match amount with
  | AText s => Str.php_empty s
  | ANumber x => eq x zero
  end.

(** [floatval($amount)] *)
Definition floatval_amount (amount : Amount) : number :=
  match amount with
  | AText s => floatval s
  | ANumber x => x
  end.

Definition cacheFile (from to : string) (amount : number) : string :=
  "cache/convert_" +:+ md5 (from +:+ to +:+ strval amount) +:+ ".json".

Definition try_block (files : gmap string (CacheFile ConvertData))
    (now written : Z) (date_c : string) (upstream : upstream_reply)
    (from to : string) (amount : Amount) : TryResult :=
  if Str.php_empty from || Str.php_empty to || empty_amount amount
  then Thrown MissingParams from to amount false
  else
    let from := Str.toUpperCase (Str.trim from) in
    let to := Str.toUpperCase (Str.trim to) in
    let amount := floatval_amount amount in
    if nonpositive amount then Thrown NonPositiveAmount from to (ANumber amount) false
    else if bool_decide (from = to) then Thrown SameCurrency from to (ANumber amount) false
    else
      match cache_read files (cacheFile from to amount) now cacheTime with
      | Some cached =>
          Done {| status := 200;
                  body := Payload
                    {| c_success := c_success cached; c_from := c_from cached;
                       c_to := c_to cached; c_amount := c_amount cached;
                       c_result := c_result cached; c_rate := c_rate cached;
                       c_date := c_date cached; c_cached := Some true;
                       c_fallback := c_fallback cached |} |}
               files false
      | None =>
          match upstream with
          | FetchFailed => Thrown UpstreamFetch from to (ANumber amount) true
          | BadJson => Thrown UpstreamJson from to (ANumber amount) true
          | ApiError => Thrown UpstreamError from to (ANumber amount) true
          | ApiOk q_from q_to q_amount res rate =>
              let result :=
                {| c_success := true; c_from := q_from; c_to := q_to;
                   c_amount := q_amount; c_result := res; c_rate := rate;
                   c_date := date_c; c_cached := Some false;
                   c_fallback := None |} in
              Done {| status := 200; body := Payload result |}
                   (cache_write files (cacheFile from to amount) written result)
                   true
          end
      end.

(** [$amount * $rate] in [catch], where [$amount] may still be the
    parameter as received. *)
Definition product (amount : Amount) (rate : number) : option number :=
  match amount with
  | ANumber x => Some (mul x rate)
  | AText s => times s rate
  end.

(** [catch (Exception $e)]: the fixed rates. *)
Definition catch_block (date_c : string) (from to : string) (amount : Amount) : Reply :=
  match Table.assoc from Table.fallbackRates, Table.assoc to Table.fallbackRates with
  | Some rf, Some rt =>
      let rate := div rt rf in
      match product amount rate with
      | Some result =>
          {| status := 200;
             body := Payload
               {| c_success := true; c_from := from; c_to := to; c_amount := amount;
                  c_result := round result 2;
                  c_rate := round rate 6;
                  c_date := date_c; c_cached := Some false;
                  c_fallback := Some true |} |}
      | None => {| status := 500; body := Uncaught |}
      end
  | _, _ => {| status := 400; body := Unsupported date_c |}
  end.

(** The whole script: reply, cache directory afterwards, and whether the
    rate provider was contacted.  [now] is [time()] at the cache check,
    [written] the modification time the cache file gets, [date_c] the text
    of [date('c')]; [from], [to] and [amount] are the parameters as
    received. *)
Definition convert_php (files : gmap string (CacheFile ConvertData))
    (now written : Z) (date_c : string) (upstream : upstream_reply)
    (method : Method) (from to : string) (amount : Amount)
    : Reply * gmap string (CacheFile ConvertData) * bool :=
  match method with
  | OPTIONS => ({| status := 200; body := Empty |}, files, false)
  | GET | POST =>
      match try_block files now written date_c upstream from to amount with
      | Done r files' fetched => (r, files', fetched)
      | Thrown _ from' to' amount' fetched =>
          (catch_block date_c from' to' amount', files, fetched)
      end
  | _ => ({| status := 405; body := MethodNotAllowed |}, files, false)
  end.

(** The request passes the three checks that precede the cache lookup. *)
Definition passes_guards (from to : string) (amount : Amount) : bool :=
  negb (Str.php_empty from || Str.php_empty to || empty_amount amount)
  && negb (nonpositive (floatval_amount amount))
  && negb (bool_decide (Str.toUpperCase (Str.trim from) = Str.toUpperCase (Str.trim to))).


End Endpoint.

End ConvertPhp.

(** *** [symbols.php] *)

Module SymbolsPhp.
Import Wire Http.

Inductive upstream_reply :=
| FetchFailed
| BadJson
| ApiError
| ApiOk (symbols : option (list (string * Table.SymbolInfo))).

Inductive Body :=
| Empty
| MethodNotAllowed
| Payload (d : SymbolsData).

Record Reply := { status : Z; body : Body }.

Definition cacheFile : string := "cache/symbols.json".
Definition cacheTime : Z := 3600.

(** [None]: the [try] block threw. *)
Definition try_block (files : gmap string (CacheFile SymbolsData))
    (now written : Z) (date_c : string) (upstream : upstream_reply)
    : option (Reply * gmap string (CacheFile SymbolsData)) :=
  match cache_read files cacheFile now cacheTime with
  | Some cachedData => Some ({| status := 200; body := Payload cachedData |}, files)
  | None =>
      match upstream with
      | ApiOk symbols =>
          let result :=
            {| s_success := true; s_symbols := default [] symbols;
               s_cached := false; s_timestamp := date_c; s_fallback := None |} in
          Some ({| status := 200; body := Payload result |},
                cache_write files cacheFile written result)
      | _ => None
      end
  end.

Definition catch_block (date_c : string) : Reply :=
  {| status := 200;
     body := Payload
       {| s_success := true; s_symbols := Table.fallbackSymbols_php;
          s_cached := false; s_timestamp := date_c; s_fallback := Some true |} |}.

Definition symbols_php (files : gmap string (CacheFile SymbolsData))
    (now written : Z) (date_c : string) (upstream : upstream_reply) (method : Method)
    : Reply * gmap string (CacheFile SymbolsData) :=
  match method with
  | OPTIONS => ({| status := 200; body := Empty |}, files)
  | GET =>
      match try_block files now written date_c upstream with
      | Some out => out
      | None => (catch_block date_c, files)
      end
  | _ => ({| status := 405; body := MethodNotAllowed |}, files)
  end.

End SymbolsPhp.

(** *** [timeseries.php] *)

Module TimeseriesPhp.
Import Double Wire Http.

(** [rates] of the provider: per date, the rates of that day by code. *)
Inductive upstream_reply :=
| FetchFailed
| BadJson
| ApiError
| ApiOk (rates : option (list (Z * list (string * number)))).

Inductive Exception :=
| MissingParams | UpstreamFetch | UpstreamJson | UpstreamError.

Inductive Body :=
| Empty
| MethodNotAllowed
| Payload (d : SeriesData)
| Failure (e : Exception) (timestamp : string).

Record Reply := { status : Z; body : Body }.

Definition cacheTime : Z := 1800.

(** [max(1, min($days, 365))] *)
Definition clamp_days (days : Z) : Z := Z.max 1 (Z.min days 365).

(** [foreach ($data['rates'] as $date => $dayRates)
      if (isset($dayRates[$to])) $rates[$date] = floatval($dayRates[$to]);] *)
Fixpoint collect_rates (to : string) (upstream_rates : list (Z * list (string * number)))
    (rates : list (Z * number)) : list (Z * number) :=
  match upstream_rates with
  | [] => rates
  | (date, dayRates) :: rest =>
      match Table.assoc to dayRates with
      | Some v => collect_rates to rest (obj_set date v rates)
      | None => collect_rates to rest rates
      end
  end.

Section Endpoint.
(** [md5] and [round($x, $places)] of PHP. *)
Variable md5 : string -> string.
Variable round : number -> Z -> number.

(** The loop of [generateMockData]: [baseRate] walks from day to day;
    [mt_rand i] is the draw of [mt_rand(-50, 50)] at loop index [i];
    [today - i] is the local date [$i] days back, printed in local time. *)
Fixpoint mock_loop (today : Z) (mt_rand : Z -> Z) (n : nat) (i : Z)
    (baseRate : number) (rates : list (Z * number)) : list (Z * number) :=
  match n with
  | O => rates
  | S n' =>
      let dateStr := today - i in
      let variation := div (of_int (mt_rand i)) (of_int 1000) in
      let rate := mul baseRate (add (of_int 1) variation) in
      mock_loop today mt_rand n' (i - 1) rate
        (obj_set dateStr (round rate 6) rates)
  end.

Definition generateMockData (today : Z) (mt_rand : Z -> Z) (days : Z)
    : list (Z * number) :=
  mock_loop today mt_rand (Z.to_nat (days + 1)) days (lit 10 10) [].

(** [md5($from . $to . $days)] with [$days] an integer. *)
Definition cacheFile (from to : string) (days : Z) : string :=
  "cache/timeseries_" +:+ md5 (from +:+ to +:+ pretty days) +:+ ".json".

(** [days_arg] is [intval($_GET['days'])], absent when the key is.
    Result: [inl e] when the [try] block threw [e]. *)
Definition try_block (files : gmap string (CacheFile SeriesData))
    (now written today : Z) (date_c : string) (mt_rand : Z -> Z)
    (upstream : upstream_reply) (from to : string) (days_arg : option Z)
    : Exception * bool + Reply * gmap string (CacheFile SeriesData) * bool :=
  let days := default 30 days_arg in
  if Str.php_empty from || Str.php_empty to then inl (MissingParams, false)
  else
    let from := Str.toUpperCase (Str.trim from) in
    let to := Str.toUpperCase (Str.trim to) in
    let days := clamp_days days in
    let path := cacheFile from to days in
    match cache_read files path now cacheTime with
    | Some cached =>
        let cached :=
          {| t_from := t_from cached; t_to := t_to cached;
             t_rates := t_rates cached; t_fallback := t_fallback cached;
             t_cached := Some true; t_meta := t_meta cached |} in
        inr ({| status := 200; body := Payload cached |}, files, false)
    | None =>
        let endDate := today in
        let startDate := today - days in
        match upstream with
        | FetchFailed => inl (UpstreamFetch, true)
        | BadJson => inl (UpstreamJson, true)
        | ApiError => inl (UpstreamError, true)
        | ApiOk upstream_rates =>
            let rates := collect_rates to (default [] upstream_rates) [] in
            let rates :=
              match rates with
              | [] => generateMockData today mt_rand days
              | _ => rates
              end in
            let result :=
              {| t_from := from; t_to := to; t_rates := rates;
                 t_fallback := None; t_cached := Some false;
                 t_meta := Some {| m_success := true; m_start_date := startDate;
                                   m_end_date := endDate; m_days := days;
                                   m_count := length rates;
                                   m_timestamp := date_c |} |} in
            inr ({| status := 200; body := Payload result |},
                 cache_write files path written result, true)
        end
    end.

Definition timeseries_php (files : gmap string (CacheFile SeriesData))
    (now written today : Z) (date_c : string) (mt_rand : Z -> Z)
    (upstream : upstream_reply) (method : Method)
    (from to : string) (days_arg : option Z)
    : Reply * gmap string (CacheFile SeriesData) * bool :=
  match method with
  | OPTIONS => ({| status := 200; body := Empty |}, files, false)
  | GET =>
      match try_block files now written today date_c mt_rand upstream from to days_arg with
      | inr out => out
      | inl (e, fetched) => ({| status := 400; body := Failure e date_c |}, files, fetched)
      end
  | _ => ({| status := 405; body := MethodNotAllowed |}, files, false)
  end.

End Endpoint.

End TimeseriesPhp.

(** *** [history.php] *)

Module HistoryPhp.
Import Http.

Record HistoryRecord := {
  id : string;
  from : string;
  to : string;
  amount : Q;
  result : Q;
  rate : Q;
  date : string;
  timestamp : Z
}.

(** The decoded request body; a key may be missing. *)
Record Input := {
  in_from : option string;
  in_to : option string;
  in_amount : option Q;
  in_result : option Q;
  in_rate : option Q;
  in_date : option string
}.

Inductive Exception :=
| InvalidJson
| MissingField
| EmptyCurrency
| NonPositive
| WriteFailed
| UnlinkFailed.

Inductive Body :=
| Empty
| MethodNotAllowed
| HistoryList (history : list HistoryRecord) (count : nat) (timestamp : string)
| Added (record : HistoryRecord) (total_records : nat) (timestamp : string)
| Cleared (timestamp : string)
| Failure (e : Exception) (timestamp : string).

Record Reply := { status : Z; body : Body }.

(** [$maxRecords = 50] *)
Definition maxRecords : nat := 50.

(** The data file: absent, or the decoded array (unreadable content
    decodes to the empty array). *)
Definition load (dataFile : option (list HistoryRecord)) : list HistoryRecord :=
  match dataFile with Some history => history | None => [] end.

(** [handleGetHistory]: [array_slice($history, 0, 10)] *)
Definition handleGetHistory (dataFile : option (list HistoryRecord))
    (date_c : string) : Body :=
  let history := load dataFile in
  let history := take 10 history in
  HistoryList history (length history) date_c.

(** The record [handlePostHistory] builds, or the exception of its checks. *)
Definition newRecord (body : option Input) (uniqid : string) (time : Z)
    (date_c : string) : Exception + HistoryRecord :=
  match body with
  | None => inl InvalidJson
  | Some input =>
      match in_from input, in_to input, in_amount input, in_result input,
            in_rate input with
      | Some f, Some t, Some a, Some r, Some k =>
          let from := Str.toUpperCase (Str.trim f) in
          let to := Str.toUpperCase (Str.trim t) in
          if Str.php_empty from || Str.php_empty to then inl EmptyCurrency
          else if Num.nonpositive a || Num.nonpositive r || Num.nonpositive k
          then inl NonPositive
          else inr {| id := uniqid; from := from; to := to; amount := a;
                      result := r; rate := k;
                      date := default date_c (in_date input);
                      timestamp := time |}
      | _, _, _, _, _ => inl MissingField
      end
  end.

(** [array_unshift($history, $newRecord)] then the cut to [$maxRecords]. *)
Definition push (maxRecords : nat) (record : HistoryRecord)
    (history : list HistoryRecord) : list HistoryRecord :=
  let history := record :: history in
  if (maxRecords <? length history)%nat then take maxRecords history else history.

(** [handlePostHistory]: [inl e] when it throws; otherwise the answer and
    the data file as written. *)
Definition handlePostHistory (dataFile : option (list HistoryRecord))
    (maxRecords : nat) (body : option Input) (uniqid : string) (time : Z)
    (date_c : string) (write_ok : bool)
    : Exception + Body * option (list HistoryRecord) :=
  match newRecord body uniqid time date_c with
  | inl e => inl e
  | inr record =>
      let history := push maxRecords record (load dataFile) in
      if write_ok
      then inr (Added record (length history) date_c, Some history)
      else inl WriteFailed
  end.

Definition handleDeleteHistory (dataFile : option (list HistoryRecord))
    (date_c : string) (unlink_ok : bool)
    : Exception + Body * option (list HistoryRecord) :=
  match dataFile with
  | Some _ => if unlink_ok then inr (Cleared date_c, None) else inl UnlinkFailed
  | None => inr (Cleared date_c, None)
  end.

(** The script: dispatch on the method, exceptions answered with 500. *)
Definition history_php (dataFile : option (list HistoryRecord))
    (method : Method) (body : option Input) (uniqid : string) (time : Z)
    (date_c : string) (disk_ok : bool)
    : Reply * option (list HistoryRecord) :=
  let answer (r : Exception + Body * option (list HistoryRecord)) :=
    match r with
    | inr (b, file) => ({| status := 200; body := b |}, file)
    | inl e => ({| status := 500; body := Failure e date_c |}, dataFile)
    end in
  match method with
  | OPTIONS => ({| status := 200; body := Empty |}, dataFile)
  | GET => ({| status := 200; body := handleGetHistory dataFile date_c |}, dataFile)
  | POST => answer (handlePostHistory dataFile maxRecords body uniqid time date_c disk_ok)
  | DELETE => answer (handleDeleteHistory dataFile date_c disk_ok)
  | OTHER => ({| status := 405; body := MethodNotAllowed |}, dataFile)
  end.

(** A run of POST requests, oldest first; each element carries the body
    and the clock and id readings of its request. *)
Definition post_all (maxRecords : nat)
    (posts : list (Input * string * Z * string))
    (dataFile : option (list HistoryRecord)) : option (list HistoryRecord) :=
  foldl (fun file '(input, uniqid, time, date_c) =>
           match handlePostHistory file maxRecords (Some input) uniqid time date_c true with
           | inr (_, file') => file'
           | inl _ => file
           end) dataFile posts.

(** The record a POST request appends. *)
Definition builds (post : Input * string * Z * string) (r : HistoryRecord) : Prop :=
  newRecord (Some post.1.1.1) post.1.1.2 post.1.2 post.2 = inr r.

(** The list a GET answers with. *)
Definition listed (b : Body) : list HistoryRecord :=
  match b with HistoryList history _ _ => history | _ => [] end.

End HistoryPhp.

(** ** The operations of the client, as one call *)

Module Api.
Import Double Client.

(** An operation with its parameter tuple. *)
Inductive Operation :=
| OpSymbols
| OpConvert (from to : string) (amount : number)
| OpTimeSeries (from to : string) (days : option Z).

(** The readings a call takes from its surroundings. *)
Record Env := {
  now : Z;               (* [Date.now()] at the cache check *)
  later : Z;             (* [Date.now()] when the entry is stored *)
  isoDay : Z -> Z;       (* the dates printed by the loop of [getTimeSeries] *)
  iso : string;          (* [new Date().toISOString()] *)
  random : Z -> number   (* the draws of [Math.random()] *)
}.

Definition call (op : Operation) (backend : option js_value) (env : Env)
    (api : CurrencyAPI) : (js_error + js_value) * CurrencyAPI :=
  match op with
  | OpSymbols => getSymbols backend (now env) (later env) (iso env) api
  | OpConvert from to amount => convert backend (iso env) from to amount api
  | OpTimeSeries from to days =>
      getTimeSeries backend (now env) (later env) (isoDay env) (random env)
        from to days api
  end.

(** The request an operation sends to the backend. *)
Definition request_of (op : Operation) : Request :=
  match op with
  | OpSymbols => ReqSymbols
  | OpConvert from to amount =>
      ReqConvert (Str.toUpperCase from) (Str.toUpperCase to) amount
  | OpTimeSeries from to days =>
      ReqTimeSeries (Str.toUpperCase from) (Str.toUpperCase to)
        (default default_days days)
  end.

(** The cache key of an operation; [convert] has none. *)
Definition key_of (op : Operation) : option string :=
  match op with
  | OpSymbols => Some "symbols"
  | OpConvert _ _ _ => None
  | OpTimeSeries from to days =>
      Some (timeseries_key from to (default default_days days))
  end.

(** Backend requests issued between two states of the instance. *)
Definition issued (before after : CurrencyAPI) : nat :=
  length (requests after) - length (requests before).

End Api.

(** ** Expiry of cache entries *)

Module Expiry.

(** The specification's staleness test. *)
Definition stale (ttl now storedAt : Z) : bool := ttl <=? now - storedAt.

Definition minute_ms : Z := 60 * 1000.
Definition minute_s : Z := 60.

End Expiry.

(** ** More of the client module: cache and history maintenance *)

Module ClientOps.
Import Client.

(** [clearCache()]: [this.cache.clear()] *)
Definition clearCache (api : CurrencyAPI) : CurrencyAPI :=
  {| cache := ∅; requests := requests api |}.

(** [clearHistory()]: the backend clears its file, or the local store is
    cleared when the request throws. *)
Definition clearHistory {A} (backend_ok : bool) (storage : option (list A))
    : option (list A) :=
  if backend_ok then storage else clearHistoryFromStorage storage.

End ClientOps.

(** ** The converter form ([class CurrencyConverter]) *)

Module ConverterPage.
Import Double Wire.

Inductive Message :=
| ChooseCurrencies     (* shown when a select is empty *)
| EnterAmount          (* shown when the amount is not a positive number *)
| SameCurrencies.      (* shown when both selects hold the same code *)

(** What [handleSubmit] does after [e.preventDefault()]. *)
Inductive Submit :=
| Ignored                                        (* [if (this.isLoading) return] *)
| Rejected (m : Message)                         (* [this.showError(...)] *)
| Converts (from to : string) (amount : number). (* [await this.convert(from, to, amount)] *)

(** [handleSubmit(e)]: [amount] is [parseFloat(this.amountInput.value)],
    NaN when the text is no number. *)
Definition handleSubmit (isLoading : bool) (from to : string) (amount : number)
    : Submit :=
  if isLoading then Ignored
  else if Str.js_falsy from || Str.js_falsy to then Rejected ChooseCurrencies
  else if falsy amount || nonpositive amount then Rejected EnterAmount
  else if bool_decide (from = to) then Rejected SameCurrencies
  else Converts from to amount.

(** The object literal [saveToHistory(result)] hands to
    [currencyAPI.saveHistory]. *)
Record HistoryEntry := {
  h_from : string;
  h_to : string;
  h_amount : Amount;
  h_result : number;
  h_rate : number;
  h_date : string
}.

Definition historyRecord (result : ConvertData) : HistoryEntry :=
  {| h_from := c_from result; h_to := c_to result; h_amount := c_amount result;
     h_result := c_result result; h_rate := c_rate result; h_date := c_date result |}.

End ConverterPage.

(** ** The chart ([ChartManager.updateChart], [Chart.loadChartData]) *)

Module ChartPage.
Import Double.

(** [data.rates[date]] *)
Fixpoint obj_get (k : Z) (o : list (Z * number)) : option number :=
  match o with
  | [] => None
  | (k', v) :: r => if bool_decide (k = k') then Some v else obj_get k r
  end.

(** [Object.keys(data.rates).sort()] *)
Definition labels (rates : list (Z * number)) : list Z := merge_sort Z.le rates.*1.

(** [labels.map((date) => data.rates[date])] *)
Definition values (rates : list (Z * number)) : list (option number) :=
  (fun date => obj_get date rates) <$> labels rates.

End ChartPage.

(** ** What [history.php] keeps in its data file *)

Module HistoryRules.
Import HistoryPhp.

(** A record as [handlePostHistory] lets it in: codes in upper case, not
    empty, and three positive numbers. *)
Definition well_formed (r : HistoryRecord) : Prop :=
  Str.php_empty (from r) = false /\ Str.php_empty (to r) = false /\
  Str.toUpperCase (from r) = from r /\ Str.toUpperCase (to r) = to r /\
  Str.trim (from r) = from r /\ Str.trim (to r) = to r /\
  (0 < amount r)%Q /\ (0 < result r)%Q /\ (0 < rate r)%Q.

(** The checks of [handlePostHistory] on a decoded body. *)
Definition acceptable (input : Input) : bool :=
  match in_from input, in_to input, in_amount input, in_result input, in_rate input with
  | Some f, Some t, Some a, Some r, Some k =>
      negb (Str.php_empty (Str.toUpperCase (Str.trim f)))
      && negb (Str.php_empty (Str.toUpperCase (Str.trim t)))
      && negb (Num.nonpositive a) && negb (Num.nonpositive r)
      && negb (Num.nonpositive k)
  | _, _, _, _, _ => false
  end.

End HistoryRules.

(** * Properties *)

(** ** Binary64 arithmetic *)

Section DoubleFacts.
Import Double.

(** A number above zero passes the guards [!x] and [x <= 0], and only such
    a number does. *)
Lemma positive_guard (x : number) :
  above_zero x -> falsy x = false /\ nonpositive x = false.
Proof.
  unfold above_zero, lt, nonpositive, le, SFltb, SFleb, zero.
  destruct x as [s|s| |s m e]; simpl; try discriminate; destruct s; try discriminate; done.
Qed.

Lemma guard_positive (x : number) :
  falsy x = false -> nonpositive x = false -> above_zero x.
Proof.
  unfold above_zero, lt, nonpositive, le, SFltb, SFleb, zero.
  destruct x as [s|s| |s m e]; simpl; try discriminate; destruct s; try discriminate; done.
Qed.

(** A number above zero is not what PHP [empty] rejects. *)
Lemma positive_not_zero (x : number) : above_zero x -> eq x zero = false.
Proof.
  unfold above_zero, lt, eq, SFltb, SFeqb, zero.
  destruct x as [s|s| |s m e]; simpl; try discriminate; destruct s; try discriminate; done.
Qed.






End DoubleFacts.

(** ** The static rate table *)

Section TableFacts.
Import Table.

Lemma assoc_Forall {A} (P : A -> Prop) (k : string) (l : list (string * A)) (v : A) :
  Forall (fun kv => P kv.2) l -> assoc k l = Some v -> P v.
Proof.
  induction 1 as [|[k' v'] l HP _ IH]; simpl; [done|].
  case_bool_decide; [|done]. by intros [= <-].
Qed.

Lemma assoc_key_in {A} (k : string) (l : list (string * A)) (v : A) :
  assoc k l = Some v -> k ∈ l.*1.
Proof.
  induction l as [|[k' v'] l IH]; simpl; [done|].
  case_bool_decide as E.
  - intros _. subst. apply list_elem_of_here.
  - intros H. apply list_elem_of_further. auto.
Qed.

(** The literals of the table as floats: mantissa and exponent of each. *)
Lemma fallbackRates_bits :
  fallbackRates.*2 =
  [ S754_finite false 4503599627370496 (-52); S754_finite false 7656119366529843 (-53);
    S754_finite false 6575255455960924 (-53); S754_finite false 7740561859543040 (-46);
    S754_finite false 8286623314361713 (-53); S754_finite false 5629499534213120 (-52);
    S754_finite false 6079859496950170 (-52); S754_finite false 7262054399134925 (-50);
    S754_finite false 5277655813324800 (-46); S754_finite false 5207287069147136 (-46);
    S754_finite false 5854679515581645 (-50); S754_finite false 5189694883102720 (-42);
    S754_finite false 5629499534213120 (-48); S754_finite false 6079859496950170 (-52);
    S754_finite false 8782019273372467 (-50); S754_finite false 4785074604081152 (-49);
    S754_finite false 4897664594765414 (-49); S754_finite false 7093169413108531 (-50);
    S754_finite false 8782019273372467 (-51); S754_finite false 6051711999279104 (-48) ].
Proof. by vm_compute. Qed.

(** Every rate of the table is a float above zero, and its quotient by
    itself is 1. *)
Lemma rates_good (k : string) (r : Double.number) :
  assoc k fallbackRates = Some r ->
  Double.valid r = true /\ Double.above_zero r /\ Double.falsy r = false /\
  Double.div r r = Double.of_int 1.
Proof.
  apply (assoc_Forall
           (fun r => Double.valid r = true /\ Double.above_zero r /\
                     Double.falsy r = false /\ Double.div r r = Double.of_int 1)).
  unfold fallbackRates. repeat (constructor; [by vm_compute|]). constructor.
Qed.

Lemma rates_truthy (k : string) (r : Double.number) :
  assoc k fallbackRates = Some r -> Double.falsy r = false.
Proof. intros H. by destruct (rates_good k r H) as (_ & _ & ? & _). Qed.

(** The empty string and ["0"] are not codes of the table. *)
Lemma supported_not_empty (k : string) :
  supported k -> k <> EmptyString /\ k <> "0".
Proof.
  intros [r Hr]. split; intros ->; vm_compute in Hr; discriminate.
Qed.

(** Twenty codes, as the specification asks of the static table. *)
Lemma fallbackRates_size : length fallbackRates = 20%nat.
Proof. reflexivity. Qed.

End TableFacts.

Section NormalFormFacts.
Import Table.

(** The codes of the table are upper-case and carry no blanks. *)
Lemma table_key_normal (k : string) (r : Double.number) :
  assoc k fallbackRates = Some r ->
  Str.toUpperCase k = k /\ Str.trim k = k.
Proof.
  intros H. apply assoc_key_in in H. revert k H. apply Forall_forall.
  unfold fallbackRates. simpl. repeat (constructor; [by vm_compute|]). constructor.
Qed.

Lemma table_key_not_empty (k : string) (r : Double.number) :
  assoc k fallbackRates = Some r ->
  Str.js_falsy k = false /\ Str.php_empty k = false.
Proof.
  intros H. destruct (supported_not_empty k) as [H1 H2]; [by exists r|].
  unfold Str.js_falsy, Str.php_empty. by rewrite !bool_decide_eq_false_2.
Qed.

End NormalFormFacts.

(** ** The fallback tier of [convert] *)

Section ConvertFacts.
Import Double Wire Table.
Variable md5 : string -> string.
Variable strval : number -> string.
Variable floatval : string -> number.
Variable round : number -> Z -> number.
Variable times : string -> number -> option number.

(** The client's fallback branch, for a supported pair. *)
Lemma client_convert_fallback (api : Client.CurrencyAPI) (iso from to : string)
    (amount rf rt : number) :
  Str.js_falsy from = false -> Str.js_falsy to = false ->
  assoc (Str.toUpperCase from) fallbackRates = Some rf ->
  assoc (Str.toUpperCase to) fallbackRates = Some rt ->
  above_zero amount ->
  Client.convert None iso from to amount api =
    (inr (Client.VConvert
       {| c_success := true; c_from := Str.toUpperCase from;
          c_to := Str.toUpperCase to; c_amount := ANumber amount;
          c_result := js_round_to (of_int 100) (mul amount (div rt rf));
          c_rate := js_round_to (of_int 1000000) (div rt rf);
          c_date := iso; c_cached := None; c_fallback := Some true |}),
     Client.issue (Client.ReqConvert (Str.toUpperCase from) (Str.toUpperCase to) amount) api).
Proof.
  intros Hf Ht Hrf Hrt Ha. unfold Client.convert.
  destruct (positive_guard amount Ha) as [Hfalsy Hnp].
  rewrite Hf, Ht, Hfalsy, Hnp. cbn [orb].
  rewrite Hrf, Hrt, (rates_truthy _ _ Hrf), (rates_truthy _ _ Hrt). reflexivity.
Qed.




End ConvertFacts.

(** A worked scenario of the specification: 100 RUB in USD on the static
    table gives rate 0.013333 and result 1.33. *)
Example rub_usd_scenario :
  (Client.convert None "t" "RUB" "USD" (Double.of_int 100)
     {| Client.cache := ∅; Client.requests := [] |}).1
  = inr (Client.VConvert
      {| Wire.c_success := true; Wire.c_from := "RUB"; Wire.c_to := "USD";
         Wire.c_amount := Wire.ANumber (Double.of_int 100);
         Wire.c_result := Double.lit 133 100;
         Wire.c_rate := Double.lit 13333 1000000; Wire.c_date := "t";
         Wire.c_cached := None; Wire.c_fallback := Some true |}).
Proof. by vm_compute. Qed.

(** 1.5 USD in EUR: the double product 1.5 * 0.85 lies below 1.275, and the
    result is 1.27. *)
Example usd_eur_scenario :
  (Client.convert None "t" "USD" "EUR" (Double.lit 15 10)
     {| Client.cache := ∅; Client.requests := [] |}).1
  = inr (Client.VConvert
      {| Wire.c_success := true; Wire.c_from := "USD"; Wire.c_to := "EUR";
         Wire.c_amount := Wire.ANumber (Double.lit 15 10);
         Wire.c_result := Double.lit 127 100;
         Wire.c_rate := Double.lit 85 100; Wire.c_date := "t";
         Wire.c_cached := None; Wire.c_fallback := Some true |}).
Proof. by vm_compute. Qed.




(** ** The checks and the cache lookup of [convert.php] *)

Section GuardFacts.
Import Double Wire Http.
Variable md5 : string -> string.
Variable strval : number -> string.
Variable floatval : string -> number.

(** Once past its checks, the [try] block is the cache lookup followed,
    on a miss, by the request to the provider. *)
Lemma try_block_guarded files now written date_c upstream (from to : string)
    (amount : Amount) :
  ConvertPhp.passes_guards floatval from to amount = true ->
  let from' := Str.toUpperCase (Str.trim from) in
  let to' := Str.toUpperCase (Str.trim to) in
  let amount' := ConvertPhp.floatval_amount floatval amount in
  ConvertPhp.try_block md5 strval floatval files now written date_c upstream from to amount =
    match cache_read files (ConvertPhp.cacheFile md5 strval from' to' amount') now
            ConvertPhp.cacheTime with
    | Some cached =>
        ConvertPhp.Done
          {| ConvertPhp.status := 200;
             ConvertPhp.body := ConvertPhp.Payload
               {| c_success := c_success cached; c_from := c_from cached;
                  c_to := c_to cached; c_amount := c_amount cached;
                  c_result := c_result cached; c_rate := c_rate cached;
                  c_date := c_date cached; c_cached := Some true;
                  c_fallback := c_fallback cached |} |}
          files false
    | None =>
        match upstream with
        | ConvertPhp.FetchFailed =>
            ConvertPhp.Thrown ConvertPhp.UpstreamFetch from' to' (ANumber amount') true
        | ConvertPhp.BadJson =>
            ConvertPhp.Thrown ConvertPhp.UpstreamJson from' to' (ANumber amount') true
        | ConvertPhp.ApiError =>
            ConvertPhp.Thrown ConvertPhp.UpstreamError from' to' (ANumber amount') true
        | ConvertPhp.ApiOk q_from q_to q_amount res rate =>
            let result :=
              {| c_success := true; c_from := q_from; c_to := q_to;
                 c_amount := q_amount; c_result := res; c_rate := rate;
                 c_date := date_c; c_cached := Some false; c_fallback := None |} in
            ConvertPhp.Done
              {| ConvertPhp.status := 200; ConvertPhp.body := ConvertPhp.Payload result |}
              (cache_write files (ConvertPhp.cacheFile md5 strval from' to' amount')
                 written result)
              true
        end
    end.
Proof.
  unfold ConvertPhp.passes_guards, ConvertPhp.try_block. intros H.
  apply andb_prop in H as [H H3]. apply andb_prop in H as [H1 H2].
  apply negb_true_iff in H1, H2, H3. by rewrite H1, H2, H3.
Qed.

(** A request stopped by a check throws without any lookup or fetch; the
    first check leaves the parameters as received, the other two find them
    normalised. *)
Lemma try_block_unguarded files now written date_c upstream (from to : string)
    (amount : Amount) :
  ConvertPhp.passes_guards floatval from to amount = false ->
  exists e from' to' amount',
    ConvertPhp.try_block md5 strval floatval files now written date_c upstream from to amount
      = ConvertPhp.Thrown e from' to' amount' false /\
    if Str.php_empty from || Str.php_empty to || ConvertPhp.empty_amount amount
    then from' = from /\ to' = to /\ amount' = amount
    else from' = Str.toUpperCase (Str.trim from) /\
         to' = Str.toUpperCase (Str.trim to) /\
         amount' = ANumber (ConvertPhp.floatval_amount floatval amount).
Proof.
  unfold ConvertPhp.passes_guards, ConvertPhp.try_block.
  destruct (Str.php_empty from || Str.php_empty to || ConvertPhp.empty_amount amount);
    [eauto 10|].
  destruct (nonpositive _); [eauto 10|].
  destruct (bool_decide _); [eauto 10|done].
Qed.

(** The provider is contacted only by requests that pass the checks and
    find no live cache entry. *)
Lemma fetched_passes_guards round times files now written date_c upstream method
    (from to : string) (amount : Amount) :
  (ConvertPhp.convert_php md5 strval floatval round times files now written date_c
     upstream method from to amount).2 = true ->
  ConvertPhp.passes_guards floatval from to amount = true /\
  (method = GET \/ method = POST) /\
  cache_read files
    (ConvertPhp.cacheFile md5 strval (Str.toUpperCase (Str.trim from))
       (Str.toUpperCase (Str.trim to)) (ConvertPhp.floatval_amount floatval amount))
    now ConvertPhp.cacheTime = None.
Proof.
  unfold ConvertPhp.convert_php.
  destruct (ConvertPhp.passes_guards floatval from to amount) eqn:G.
  - rewrite (try_block_guarded _ _ _ _ _ _ _ _ G). cbv zeta.
    destruct (cache_read files _ now ConvertPhp.cacheTime) eqn:Hread.
    + by destruct method.
    + destruct method; try discriminate; auto.
  - destruct (try_block_unguarded files now written date_c upstream from to amount G)
      as (e & from' & to' & amount' & -> & _).
    by destruct method.
Qed.

End GuardFacts.

(** ** The terminal failure of [convert] *)

Section UnsupportedFacts.
Import Double Wire Table.
Variable md5 : string -> string.
Variable strval : number -> string.
Variable floatval : string -> number.
Variable round : number -> Z -> number.
Variable times : string -> number -> option number.


Lemma catch_block_unsupported (date_c from to : string) (amount : Amount) :
  assoc from fallbackRates = None \/ assoc to fallbackRates = None ->
  ConvertPhp.catch_block round times date_c from to amount =
    {| ConvertPhp.status := 400; ConvertPhp.body := ConvertPhp.Unsupported date_c |}.
Proof.
  unfold ConvertPhp.catch_block. intros [-> | ->]; [done|]. by case_match.
Qed.

Lemma catch_block_unsupported_inv (date_c from to : string) (amount : Amount) ts :
  ConvertPhp.body (ConvertPhp.catch_block round times date_c from to amount)
    = ConvertPhp.Unsupported ts ->
  assoc from fallbackRates = None \/ assoc to fallbackRates = None.
Proof.
  unfold ConvertPhp.catch_block.
  destruct (assoc from fallbackRates); [|by left].
  destruct (assoc to fallbackRates); [|by right].
  by destruct (ConvertPhp.product times amount _).
Qed.

(** An answer of the [try] block is never the error body. *)
Lemma try_block_done_body files now written date_c upstream (from to : string)
    (amount : Amount) r files' fetched ts :
  ConvertPhp.try_block md5 strval floatval files now written date_c upstream from to amount
    = ConvertPhp.Done r files' fetched ->
  ConvertPhp.body r <> ConvertPhp.Unsupported ts.
Proof.
  unfold ConvertPhp.try_block.
  repeat (case_match; try discriminate); by intros [= <- _ _].
Qed.

(** The error body comes from [catch], after a throw of the [try] block and
    a miss in the table; the cache is left as it was. *)
Lemma convert_php_unsupported_inv files now written date_c upstream method
    (from to : string) (amount : Amount) ts :
  method = Http.GET \/ method = Http.POST ->
  ConvertPhp.body
    (ConvertPhp.convert_php md5 strval floatval round times files now written date_c
       upstream method from to amount).1.1 = ConvertPhp.Unsupported ts ->
  exists e from' to' amount' fetched,
    ConvertPhp.try_block md5 strval floatval files now written date_c upstream from to amount
      = ConvertPhp.Thrown e from' to' amount' fetched /\
    (assoc from' fallbackRates = None \/ assoc to' fallbackRates = None) /\
    ConvertPhp.convert_php md5 strval floatval round times files now written date_c
      upstream method from to amount
    = ({| ConvertPhp.status := 400; ConvertPhp.body := ConvertPhp.Unsupported date_c |},
       files, fetched).
Proof.
  intros Hm. unfold ConvertPhp.convert_php.
  destruct (ConvertPhp.try_block md5 strval floatval files now written date_c upstream
              from to amount)
    as [r files' fetched|e from' to' amount' fetched] eqn:Htry.
  - intros Hbody. exfalso.
    eapply (try_block_done_body _ _ _ _ _ _ _ _ _ _ _ ts); [exact Htry|].
    by destruct Hm as [-> | ->].
  - intros Hbody. exists e, from', to', amount', fetched. split; [done|].
    assert (Habs : assoc from' fallbackRates = None \/ assoc to' fallbackRates = None).
    { destruct Hm as [-> | ->]; cbn [fst] in Hbody; by eapply catch_block_unsupported_inv. }
    split; [done|]. rewrite (catch_block_unsupported _ _ _ _ Habs).
    by destruct Hm as [-> | ->].
Qed.

(** The client throws "unsupported" only from its fallback branch. *)
Lemma client_convert_unsupported_inv backend iso (from to : string) (amount : number) api :
  (Client.convert backend iso from to amount api).1 = inl Client.UnsupportedCurrency ->
  backend = None /\
  (assoc (Str.toUpperCase from) fallbackRates = None \/
   assoc (Str.toUpperCase to) fallbackRates = None) /\
  (Client.convert backend iso from to amount api).2 =
    Client.issue (Client.ReqConvert (Str.toUpperCase from) (Str.toUpperCase to) amount) api.
Proof.
  unfold Client.convert. case_match; [done|].
  destruct backend; [done|].
  destruct (assoc (Str.toUpperCase from) fallbackRates) as [rf|] eqn:Hf; [|by auto].
  destruct (assoc (Str.toUpperCase to) fallbackRates) as [rt|] eqn:Ht; [|by auto].
  by rewrite (rates_truthy _ _ Hf), (rates_truthy _ _ Ht).
Qed.

Lemma client_convert_unsupported iso (from to : string) (amount : number) api :
  Str.js_falsy from = false -> Str.js_falsy to = false -> above_zero amount ->
  assoc (Str.toUpperCase from) fallbackRates = None \/
  assoc (Str.toUpperCase to) fallbackRates = None ->
  (Client.convert None iso from to amount api).1 = inl Client.UnsupportedCurrency.
Proof.
  intros Ef Et Ha Habs. unfold Client.convert.
  destruct (positive_guard amount Ha) as [Hfalsy Hnp].
  rewrite Ef, Et, Hfalsy, Hnp. cbn [orb].
  destruct Habs as [-> | ->]; [done|]. by case_match.
Qed.

End UnsupportedFacts.

(** C2, as the code has it.  Take a call [convert(from, to, amount)] with
    ASCII codes of which one is absent from the static table.  On the
    client, when the backend request throws, the call ends in the
    unsupported-currency error, and the client throws that error in no other
    case: it has issued its backend request and seen it throw.  On the
    server, a request that passes the checks of the [try] block, finds no
    fresh cache file under its key and gets no usable reply from the rate
    provider is answered with status 400 and [success: false], after the
    provider was contacted; a request that one of the checks stops after the
    codes were normalised (an amount that is not positive, twice the same
    code) gets the same answer without the provider being contacted.
    Whenever the endpoint gives that answer, the [try] block has thrown, the
    table lookup in [catch] has missed and the cache is as it was; the
    provider was contacted exactly when the request passed the checks, and
    then it had no fresh cache file and got no usable reply. *)
Theorem unsupported_currency_is_terminal
    (md5 : string -> string) (strval : Double.number -> string)
    (floatval : string -> Double.number) (round : Double.number -> Z -> Double.number)
    (times : string -> Double.number -> option Double.number)
    (api : Client.CurrencyAPI) (iso : string) (backend : option Client.js_value)
    (files : gmap string (Http.CacheFile Wire.ConvertData)) (now written : Z)
    (date_c : string) (upstream : ConvertPhp.upstream_reply) (method : Http.Method)
    (from to : string) (amount : Double.number) (request : Wire.Amount) :
  method = Http.GET \/ method = Http.POST ->
  Double.above_zero amount ->
  Str.is_ascii from = true -> Str.is_ascii to = true ->
  let absent (a b : string) :=
    Table.assoc a Table.fallbackRates = None \/ Table.assoc b Table.fallbackRates = None in
  let from' := Str.toUpperCase (Str.trim from) in
  let to' := Str.toUpperCase (Str.trim to) in
  let fresh_file :=
    Http.cache_read files
      (ConvertPhp.cacheFile md5 strval from' to'
         (ConvertPhp.floatval_amount floatval request)) now ConvertPhp.cacheTime in
  let unusable := forall a b c d r, upstream <> ConvertPhp.ApiOk a b c d r in
  let refusal :=
    {| ConvertPhp.status := 400; ConvertPhp.body := ConvertPhp.Unsupported date_c |} in
  let served :=
    ConvertPhp.convert_php md5 strval floatval round times files now written date_c
      upstream method from to request in
  (Str.js_falsy from = false -> Str.js_falsy to = false ->
   absent (Str.toUpperCase from) (Str.toUpperCase to) ->
   (Client.convert None iso from to amount api).1 = inl Client.UnsupportedCurrency) /\
  ((Client.convert backend iso from to amount api).1 = inl Client.UnsupportedCurrency ->
   backend = None /\ absent (Str.toUpperCase from) (Str.toUpperCase to) /\
   Client.requests (Client.convert backend iso from to amount api).2 =
     Client.ReqConvert (Str.toUpperCase from) (Str.toUpperCase to) amount
       :: Client.requests api) /\
  (absent from' to' ->
   ConvertPhp.passes_guards floatval from to request = true ->
   fresh_file = None -> unusable ->
   served = (refusal, files, true)) /\
  (absent from' to' ->
   Str.php_empty from = false -> Str.php_empty to = false ->
   ConvertPhp.empty_amount request = false ->
   ConvertPhp.passes_guards floatval from to request = false ->
   served = (refusal, files, false)) /\
  (forall ts, ConvertPhp.body served.1.1 = ConvertPhp.Unsupported ts ->
   exists e f t a fetched,
     ConvertPhp.try_block md5 strval floatval files now written date_c upstream
       from to request = ConvertPhp.Thrown e f t a fetched /\
     absent f t /\ served = (refusal, files, fetched) /\
     fetched = ConvertPhp.passes_guards floatval from to request /\
     (fetched = true -> fresh_file = None /\ unusable)).
Proof.
  intros Hm Ha _ _ absent from' to' fresh_file unusable refusal served.
  subst absent from' to' fresh_file unusable refusal served.
  split; [|split; [|split; [|split]]].
  - intros Ef Et Habs. by apply client_convert_unsupported.
  - intros Herr.
    apply client_convert_unsupported_inv in Herr as (Hb & Habs & Hreq).
    by rewrite Hreq.
  - intros Habs G Hmiss Hup. unfold ConvertPhp.convert_php.
    rewrite (try_block_guarded md5 strval floatval _ _ _ _ _ _ _ _ G). cbv zeta.
    rewrite Hmiss.
    destruct upstream as [| | |a b c d r];
      try (rewrite (catch_block_unsupported round times _ _ _ _ Habs);
           by destruct Hm as [-> | ->]).
    by destruct (Hup a b c d r).
  - intros Habs Ef Et Ea G. unfold ConvertPhp.convert_php.
    destruct (try_block_unguarded md5 strval floatval files now written date_c upstream
                from to request G) as (e & f & t & a & -> & Hvars).
    rewrite Ef, Et, Ea in Hvars. cbn [orb] in Hvars. destruct Hvars as (-> & -> & ->).
    rewrite (catch_block_unsupported round times _ _ _ _ Habs).
    by destruct Hm as [-> | ->].
  - intros ts Hbody.
    apply (convert_php_unsupported_inv md5 strval floatval round times) in Hbody
      as (e & f & t & a & fetched & Htry & Habs & Hserved); [|done].
    exists e, f, t, a, fetched. split; [done|]. split; [done|]. split; [done|].
    destruct (ConvertPhp.passes_guards floatval from to request) eqn:G.
    + rewrite (try_block_guarded md5 strval floatval _ _ _ _ _ _ _ _ G) in Htry.
      cbv zeta in Htry.
      destruct (Http.cache_read files _ now ConvertPhp.cacheTime); [done|].
      destruct upstream; simplify_eq; done.
    + destruct (try_block_unguarded md5 strval floatval files now written date_c upstream
                  from to request G) as (e' & f' & t' & a' & Htry' & _).
      rewrite Htry' in Htry. by simplify_eq.
Qed.

Lemma unsupported_currency_is_terminal_witness :
  (Client.convert None "t" "XYZ" "USD" (Double.of_int 10)
     {| Client.cache := ∅; Client.requests := [] |}).1
    = inl Client.UnsupportedCurrency /\
  ConvertPhp.convert_php (fun s => s) (fun _ => "10") (fun _ => Double.of_int 10)
    (fun x _ => x) (fun _ _ => None) ∅ 0 0 "t" ConvertPhp.FetchFailed
    Http.GET "XYZ" "USD" (Wire.AText "10")
    = ({| ConvertPhp.status := 400; ConvertPhp.body := ConvertPhp.Unsupported "t" |},
       ∅, true).
Proof.
  pose proof (unsupported_currency_is_terminal (fun s => s) (fun _ => "10")
                (fun _ => Double.of_int 10) (fun x _ => x) (fun _ _ => None)
                {| Client.cache := ∅; Client.requests := [] |} "t" None
                ∅ 0 0 "t" ConvertPhp.FetchFailed Http.GET "XYZ" "USD"
                (Double.of_int 10) (Wire.AText "10")
                (or_introl eq_refl) eq_refl eq_refl eq_refl) as H.
  cbv zeta in H. destruct H as (Hclient & _ & Hserver & _). split.
  - apply Hclient; [reflexivity | reflexivity | left; reflexivity].
  - apply Hserver; [left; reflexivity | reflexivity | reflexivity | discriminate].
Defined.

(** C2 as stated fails on [convert.php] at two inputs.  A request for XYZ to
    XYZ is answered with the unsupported-currency error although the rate
    provider, which would have answered, was never contacted: the
    same-currency check throws first.  And a request for EU to RUSD, two
    codes absent from both tiers, is served the answer stored for EUR to
    USD: the cache key joins the codes without a separator. *)
Lemma unsupported_currency_counterexample :
  let convert_php :=
    ConvertPhp.convert_php (fun s => s) (fun _ => "10") (fun _ => Double.of_int 10)
      (fun x _ => x) (fun _ _ => None) in
  let answer :=
    ConvertPhp.ApiOk "EUR" "USD" (Wire.ANumber (Double.of_int 10))
      (Double.lit 1176 100) (Double.lit 1176 1000) in
  convert_php ∅ 0 0 "t" answer Http.GET "XYZ" "XYZ" (Wire.AText "10")
    = ({| ConvertPhp.status := 400; ConvertPhp.body := ConvertPhp.Unsupported "t" |},
       ∅, false) /\
  (let first := convert_php ∅ 0 1 "t" answer Http.GET "EUR" "USD" (Wire.AText "10") in
   let second := convert_php first.1.2 100 101 "u" ConvertPhp.FetchFailed
                   Http.GET "EU" "RUSD" (Wire.AText "10") in
   Table.assoc "EU" Table.fallbackRates = None /\
   Table.assoc "RUSD" Table.fallbackRates = None /\
   ConvertPhp.status second.1.1 = 200 /\
   ConvertPhp.reports_cached second.1.1 = Some true /\
   second.2 = false).
Proof. intros convert_php answer. by vm_compute. Qed.

(** ** The cache of [convert.php] on the fallback paths *)

Section ConvertCacheFacts.
Import Double Wire Table.
Variable md5 : string -> string.
Variable strval : number -> string.
Variable floatval : string -> number.
Variable round : number -> Z -> number.
Variable times : string -> number -> option number.




End ConvertCacheFacts.




(** ** Conversion of a currency into itself *)

Section SameCurrencyFacts.
Import Double Wire Table.
Variable md5 : string -> string.
Variable strval : number -> string.
Variable floatval : string -> number.





End SameCurrencyFacts.




(** ** Symbol lookup *)

Section SymbolsFacts.
Import Wire.

Lemma symbols_try_block_fails files now written date_c upstream :
  Http.cache_read files SymbolsPhp.cacheFile now SymbolsPhp.cacheTime = None ->
  (forall s, upstream <> SymbolsPhp.ApiOk s) ->
  SymbolsPhp.try_block files now written date_c upstream = None.
Proof.
  intros Hmiss Hup. unfold SymbolsPhp.try_block. rewrite Hmiss.
  destruct upstream; try done. by destruct (Hup symbols).
Qed.

Lemma symbols_php_answers files now written date_c upstream :
  exists d, (SymbolsPhp.symbols_php files now written date_c upstream Http.GET).1
    = {| SymbolsPhp.status := 200; SymbolsPhp.body := SymbolsPhp.Payload d |}.
Proof.
  unfold SymbolsPhp.symbols_php, SymbolsPhp.try_block, SymbolsPhp.catch_block.
  repeat case_match; simplify_eq; eauto.
Qed.

End SymbolsFacts.

(** C3.  [getSymbols] never fails.  The client's method returns a value in
    every execution (from its cache, from the backend, or the built-in
    table), and [symbols.php] answers every GET with status 200 and a symbol
    table.  When the primary tier fails (no live cache entry and the request
    throws, resp. the [try] block throws) the value returned is the built-in
    fallback table and carries [fallback: true]. *)
Theorem getSymbols_never_fails
    (api : Client.CurrencyAPI) (backend : option Client.js_value)
    (now later : Z) (iso : string)
    (files : gmap string (Http.CacheFile Wire.SymbolsData)) (time written : Z)
    (date_c : string) (upstream : SymbolsPhp.upstream_reply) :
  (exists v, (Client.getSymbols backend now later iso api).1 = inr v) /\
  (Client.cache_fresh "symbols" now api = None ->
   (Client.getSymbols None now later iso api).1 =
     inr (Client.VSymbols
            {| Wire.s_success := true; Wire.s_symbols := Table.fallbackSymbols;
               Wire.s_cached := false; Wire.s_timestamp := iso;
               Wire.s_fallback := Some true |})) /\
  (exists d, (SymbolsPhp.symbols_php files time written date_c upstream Http.GET).1
     = {| SymbolsPhp.status := 200; SymbolsPhp.body := SymbolsPhp.Payload d |}) /\
  (Http.cache_read files SymbolsPhp.cacheFile time SymbolsPhp.cacheTime = None ->
   (forall s, upstream <> SymbolsPhp.ApiOk s) ->
   SymbolsPhp.symbols_php files time written date_c upstream Http.GET =
     ({| SymbolsPhp.status := 200;
         SymbolsPhp.body := SymbolsPhp.Payload
           {| Wire.s_success := true; Wire.s_symbols := Table.fallbackSymbols_php;
              Wire.s_cached := false; Wire.s_timestamp := date_c;
              Wire.s_fallback := Some true |} |}, files)).
Proof.
  repeat split.
  - unfold Client.getSymbols. repeat case_match; eauto.
  - intros Hmiss. unfold Client.getSymbols. by rewrite Hmiss.
  - apply symbols_php_answers.
  - intros Hmiss Hup. unfold SymbolsPhp.symbols_php.
    by rewrite (symbols_try_block_fails _ _ _ _ _ Hmiss Hup).
Qed.

Lemma getSymbols_never_fails_witness :
  (Client.getSymbols None 0 5 "now" {| Client.cache := ∅; Client.requests := [] |}).1 =
    inr (Client.VSymbols
           {| Wire.s_success := true; Wire.s_symbols := Table.fallbackSymbols;
              Wire.s_cached := false; Wire.s_timestamp := "now";
              Wire.s_fallback := Some true |}) /\
  SymbolsPhp.symbols_php ∅ 0 0 "now" SymbolsPhp.FetchFailed Http.GET =
    ({| SymbolsPhp.status := 200;
        SymbolsPhp.body := SymbolsPhp.Payload
          {| Wire.s_success := true; Wire.s_symbols := Table.fallbackSymbols_php;
             Wire.s_cached := false; Wire.s_timestamp := "now";
             Wire.s_fallback := Some true |} |}, ∅).
Proof.
  destruct (getSymbols_never_fails {| Client.cache := ∅; Client.requests := [] |}
              None 0 5 "now" ∅ 0 0 "now" SymbolsPhp.FetchFailed)
    as (_ & Hclient & _ & Hserver).
  split.
  - apply Hclient. reflexivity.
  - apply Hserver; [reflexivity | discriminate].
Defined.

(** ** The history log *)

Section BoundedLog.
Context {A : Type}.
Implicit Types (l h : list A) (n : nat).

Lemma take_app_take l h n k :
  (n <= k)%nat -> take n (l ++ take k h) = take n (l ++ h).
Proof.
  revert n. induction l as [|x l IH]; intros n Hn; simpl.
  - rewrite take_take. f_equal. lia.
  - destruct n as [|n]; [done|]. simpl. f_equal. apply IH. lia.
Qed.

(** Prepending one by one under a cap keeps the newest [n], newest first. *)
Lemma foldl_bounded_prepend n (recs : list A) r h :
  foldl (fun h r => take n (r :: h)) (take n (r :: h)) recs
    = take n (reverse recs ++ r :: h).
Proof.
  revert r h. induction recs as [|x recs IH]; intros r h; [done|].
  cbn [foldl]. rewrite IH, reverse_cons.
  replace (reverse recs ++ x :: take n (r :: h))
    with ((reverse recs ++ [x]) ++ take n (r :: h)) by by rewrite <- app_assoc.
  rewrite take_app_take by done. by rewrite <- app_assoc.
Qed.

(** After at least [n] appends only appended records remain: all but the
    [length recs - n] oldest, newest first. *)
Lemma bounded_log_after n (recs : list A) h :
  recs <> [] -> (n <= length recs)%nat ->
  foldl (fun h r => take n (r :: h)) h recs
    = reverse (drop (length recs - n) recs).
Proof.
  intros Hne Hlen. destruct recs as [|r recs]; [done|].
  cbn [foldl]. rewrite foldl_bounded_prepend.
  replace (reverse recs ++ r :: h) with (reverse (r :: recs) ++ h)
    by by rewrite reverse_cons, <- app_assoc.
  rewrite take_app_le by by rewrite length_reverse.
  apply take_reverse.
Qed.

Lemma cut_is_take n (r : A) h :
  (if (n <? length (r :: h))%nat then take n (r :: h) else r :: h) = take n (r :: h).
Proof.
  destruct (n <? length (r :: h))%nat eqn:E; [done|].
  apply Nat.ltb_ge in E. by rewrite take_ge.
Qed.

End BoundedLog.

Section HistoryFacts.
Import HistoryPhp.

Lemma push_take (N : nat) (r : HistoryRecord) (h : list HistoryRecord) :
  push N r h = take N (r :: h).
Proof. unfold push. apply cut_is_take. Qed.

Lemma saveHistoryToStorage_take {A} (r : A) (st : option (list A)) :
  Client.saveHistoryToStorage r st
    = Some (take 50 (r :: Client.getHistoryFromStorage st)).
Proof. unfold Client.saveHistoryToStorage. by rewrite cut_is_take. Qed.

Lemma post_all_cons (N : nat) post posts r (file : option (list HistoryRecord)) :
  builds post r ->
  post_all N (post :: posts) file = post_all N posts (Some (push N r (load file))).
Proof.
  destruct post as [[[input uid] t] d]. unfold builds. cbn [fst snd]. intros Hb.
  unfold post_all. cbn [foldl]. unfold handlePostHistory at 2. by rewrite Hb.
Qed.

(** A run of valid POST requests is a run of bounded prepends. *)
Lemma post_all_valid (N : nat) posts recs (file : option (list HistoryRecord)) :
  Forall2 builds posts recs ->
  load (post_all N posts file) = foldl (fun h r => take N (r :: h)) (load file) recs /\
  (recs <> [] -> is_Some (post_all N posts file)).
Proof.
  intros H. revert file. induction H as [|post r posts recs Hb Hrest IH];
    intros file; [done|].
  rewrite (post_all_cons N post posts r file Hb).
  destruct (IH (Some (push N r (load file)))) as [IH1 IH2].
  split; [rewrite IH1; cbn [load foldl]; by rewrite push_take|].
  intros _. destruct recs as [|r' recs'].
  - apply Forall2_nil_inv_r in Hrest. subst. by eexists.
  - by apply IH2.
Qed.

End HistoryFacts.

Section ClientHistoryFacts.
Context {A : Type}.

(** A run of local saves is a run of bounded prepends (cap 50). *)
Lemma save_all_local (saved : list A) (local : option (list A)) :
  Client.getHistoryFromStorage
    (foldl (fun st r => Client.saveHistoryToStorage r st) local saved)
  = foldl (fun h r => take 50 (r :: h)) (Client.getHistoryFromStorage local) saved /\
  (saved <> [] ->
   is_Some (foldl (fun st r => Client.saveHistoryToStorage r st) local saved)).
Proof.
  revert local. induction saved as [|r saved IH]; intros local; [done|].
  cbn [foldl]. destruct (IH (Client.saveHistoryToStorage r local)) as [IH1 IH2].
  split.
  - rewrite IH1. by rewrite saveHistoryToStorage_take.
  - intros _. destruct saved as [|r' saved']; [|by apply IH2].
    rewrite saveHistoryToStorage_take. by eexists.
Qed.

(** The second client variant keeps ten records. *)
Lemma react_saveHistory_take (conversion : A) (storage : option (list A)) :
  ClientReact.saveHistory false conversion storage
    = Some (take 10 (conversion :: Client.getHistoryFromStorage storage)).
Proof. by destruct storage. Qed.

(** The history page prepends under the cap of 50 and shows ten rows. *)
Lemma addNewRecord_take (record : A) (history : list A) :
  HistoryView.addNewRecord record history = take 50 (record :: history).
Proof. unfold HistoryView.addNewRecord. apply cut_is_take. Qed.

Lemma renderHistoryTable_all (history : list A) :
  (length history <= 10)%nat -> HistoryView.renderHistoryTable history = history.
Proof. intros H. unfold HistoryView.renderHistoryTable. by apply take_ge. Qed.

End ClientHistoryFacts.

(** C8.  The history log is bounded and FIFO.  From every starting state of
    the data file, N + 5 accepted POST requests to [history.php] with cap N
    leave exactly the N records appended last, newest first: the 5 oldest of
    them (and whatever the file held before) are gone.  The same holds for
    the client's local store with its cap of 50.  Each append prepends the
    new record and cuts the list to the cap. *)
Theorem history_log_is_bounded_fifo
    (N : nat) (start : option (list HistoryPhp.HistoryRecord))
    (posts : list (HistoryPhp.Input * string * Z * string))
    (recs : list HistoryPhp.HistoryRecord)
    (A : Type) (local : option (list A)) (saved : list A) :
  Forall2 HistoryPhp.builds posts recs ->
  length recs = (N + 5)%nat ->
  length saved = (50 + 5)%nat ->
  HistoryPhp.post_all N posts start = Some (reverse (drop 5 recs)) /\
  length (reverse (drop 5 recs)) = N /\
  foldl (fun st r => Client.saveHistoryToStorage r st) local saved
    = Some (reverse (drop 5 saved)) /\
  length (reverse (drop 5 saved)) = 50%nat /\
  (forall r h, HistoryPhp.push N r h = take N (r :: h)) /\
  (forall (r : A) st,
     Client.saveHistoryToStorage r st
       = Some (take 50 (r :: Client.getHistoryFromStorage st))).
Proof.
  intros Hb Hn Hs.
  assert (Hrecs : recs <> []) by (intros ->; simpl in Hn; lia).
  assert (Hsaved : saved <> []) by (intros ->; simpl in Hs; lia).
  repeat split.
  - destruct (post_all_valid N posts recs start Hb) as [Hload Hsome].
    destruct (Hsome Hrecs) as [h Hh]. rewrite Hh in Hload |- *. cbn [HistoryPhp.load] in Hload.
    rewrite Hload, bounded_log_after by (done || lia).
    do 3 f_equal. lia.
  - rewrite length_reverse, length_drop. lia.
  - destruct (save_all_local saved local) as [Hload Hsome].
    destruct (Hsome Hsaved) as [h Hh]. rewrite Hh in Hload |- *.
    cbn [Client.getHistoryFromStorage] in Hload.
    rewrite Hload, bounded_log_after by (done || lia).
    do 3 f_equal. lia.
  - rewrite length_reverse, length_drop. lia.
  - apply push_take.
  - apply saveHistoryToStorage_take.
Qed.

Lemma history_log_is_bounded_fifo_witness :
  let input := {| HistoryPhp.in_from := Some "usd"; HistoryPhp.in_to := Some "eur";
                  HistoryPhp.in_amount := Some 100%Q;
                  HistoryPhp.in_result := Some 85%Q;
                  HistoryPhp.in_rate := Some (85 # 100)%Q;
                  HistoryPhp.in_date := None |} in
  let record (t : Z) :=
    {| HistoryPhp.id := "id"; HistoryPhp.from := "USD"; HistoryPhp.to := "EUR";
       HistoryPhp.amount := 100; HistoryPhp.result := 85;
       HistoryPhp.rate := 85 # 100; HistoryPhp.date := "d";
       HistoryPhp.timestamp := t |} in
  let times := [1; 2; 3; 4; 5; 6; 7] in
  HistoryPhp.post_all 2 ((fun t => (input, "id", t, "d")) <$> times) None
    = Some [record 7; record 6] /\
  foldl (fun st r => Client.saveHistoryToStorage r st) None (seq 0 55)
    = Some (reverse (seq 5 50)).
Proof.
  intros input record times.
  destruct (history_log_is_bounded_fifo 2 None
              ((fun t => (input, "id", t, "d")) <$> times) (record <$> times)
              nat None (seq 0 55)) as (Hserver & _ & Hclient & _).
  - repeat constructor.
  - reflexivity.
  - reflexivity.
  - split; [exact Hserver | exact Hclient].
Defined.

(** C9, as the code has it.  [history.php] answers every GET with status
    200 and the first ten stored records, in stored order, which is newest
    first: the record of the latest accepted POST is listed first.  The
    limit is the constant 10; when at most ten records are stored, all of
    them are returned.  The data file is left as it was.  The client's
    [getHistory] never throws: it hands back the list of the backend, or the
    whole local store when the request throws. *)
Theorem history_list_newest_first
    (file : option (list HistoryPhp.HistoryRecord))
    (body : option HistoryPhp.Input) (uniqid date_c : string) (time : Z)
    (disk_ok : bool) (record : HistoryPhp.HistoryRecord)
    (A : Type) (local : option (list A)) (remote : list A) :
  let stored := HistoryPhp.load file in
  HistoryPhp.history_php file Http.GET body uniqid time date_c disk_ok
    = ({| HistoryPhp.status := 200;
          HistoryPhp.body :=
            HistoryPhp.HistoryList (take 10 stored) (10 `min` length stored) date_c |},
       file) /\
  ((length stored <= 10)%nat ->
   HistoryPhp.listed (HistoryPhp.handleGetHistory file date_c) = stored) /\
  HistoryPhp.listed
    (HistoryPhp.handleGetHistory
       (Some (HistoryPhp.push HistoryPhp.maxRecords record stored)) date_c)
    = record :: take 9 stored /\
  Client.getHistory None local = Client.getHistoryFromStorage local /\
  Client.getHistory (Some (Some remote)) local = remote.
Proof.
  intros stored. repeat split.
  - unfold HistoryPhp.history_php, HistoryPhp.handleGetHistory.
    by rewrite length_take.
  - intros Hle. unfold HistoryPhp.handleGetHistory. cbn [HistoryPhp.listed].
    by apply take_ge.
  - unfold HistoryPhp.handleGetHistory. cbn [HistoryPhp.listed HistoryPhp.load].
    rewrite push_take, take_take. reflexivity.
Qed.

Lemma history_list_newest_first_witness :
  let record (t : Z) :=
    {| HistoryPhp.id := "id"; HistoryPhp.from := "USD"; HistoryPhp.to := "EUR";
       HistoryPhp.amount := 100; HistoryPhp.result := 85;
       HistoryPhp.rate := 85 # 100; HistoryPhp.date := "d";
       HistoryPhp.timestamp := t |} in
  HistoryPhp.listed (HistoryPhp.handleGetHistory (Some [record 2; record 1]) "d")
    = [record 2; record 1].
Proof.
  intros record.
  destruct (history_list_newest_first (Some [record 2; record 1]) None "t" "d" 0 true
              (record 3) nat None []) as (_ & Hall & _).
  apply Hall. simpl. lia.
Defined.

(** C9 as stated fails once more than ten records are stored: a GET (which
    carries no limit) returns ten of the eleven records. *)
Lemma history_list_counterexample :
  let record (t : Z) :=
    {| HistoryPhp.id := "id"; HistoryPhp.from := "USD"; HistoryPhp.to := "EUR";
       HistoryPhp.amount := 100; HistoryPhp.result := 85;
       HistoryPhp.rate := 85 # 100; HistoryPhp.date := "d";
       HistoryPhp.timestamp := t |} in
  let stored := record <$> [11; 10; 9; 8; 7; 6; 5; 4; 3; 2; 1] in
  let reply := (HistoryPhp.history_php (Some stored) Http.GET None "t" 0 "d" true).1 in
  HistoryPhp.listed (HistoryPhp.body reply) = record <$> [11; 10; 9; 8; 7; 6; 5; 4; 3; 2] /\
  HistoryPhp.listed (HistoryPhp.body reply) <> stored /\
  length stored = 11%nat /\
  length (HistoryPhp.listed (HistoryPhp.body reply)) = 10%nat.
Proof.
  intros record stored reply. repeat split. intros H.
  apply (f_equal length) in H. discriminate H.
Qed.

(** ** Time series *)

Section SeriesFacts.
Import Wire.

Lemma clamp_days_range (days : Z) :
  1 <= TimeseriesPhp.clamp_days days <= 365.
Proof. unfold TimeseriesPhp.clamp_days. lia. Qed.

Lemma clamp_days_cases (days : Z) :
  TimeseriesPhp.clamp_days days
    = if days <? 1 then 1 else if 365 <? days then 365 else days.
Proof.
  unfold TimeseriesPhp.clamp_days.
  destruct (Z.ltb_spec days 1); [lia|]. destruct (Z.ltb_spec 365 days); lia.
Qed.

(** Writing under a date later than all present ones appends. *)
Lemma obj_set_later (k : Z) (v : Double.number) (o : list (Z * Double.number)) :
  Forall (fun d => d < k) o.*1 -> obj_set k v o = o ++ [(k, v)].
Proof.
  induction o as [|[k' v'] o IH]; simpl; [done|].
  intros H. apply Forall_cons in H as [Hlt H].
  rewrite bool_decide_eq_false_2 by lia. by rewrite IH.
Qed.

Lemma keys_snoc (o : list (Z * Double.number)) (k : Z) (v : Double.number) :
  (o ++ [(k, v)]).*1 = o.*1 ++ [k].
Proof. by rewrite fmap_app. Qed.

Lemma later_snoc (keys : list Z) (k : Z) :
  Forall (fun d => d < k) keys -> Forall (fun d => d < k + 1) (keys ++ [k]).
Proof.
  intros H. apply Forall_app. split.
  - eapply Forall_impl; [exact H|]. simpl. lia.
  - repeat constructor. lia.
Qed.

Lemma seqZ_S (m : Z) (n : nat) :
  seqZ m (Z.of_nat (S n)) = m :: seqZ (m + 1) (Z.of_nat n).
Proof.
  rewrite seqZ_cons by lia. f_equal. f_equal; lia.
Qed.

Lemma obj_set_elem (k : Z) (v : Double.number) (o : list (Z * Double.number)) (e : Z * Double.number) :
  e ∈ obj_set k v o -> e = (k, v) \/ e ∈ o.
Proof.
  induction o as [|[k' v'] o IH]; simpl.
  - intros H. apply list_elem_of_singleton in H. by left.
  - case_bool_decide as E.
    + intros [-> | Hin]%elem_of_cons; [by left|]. right. by apply list_elem_of_further.
    + intros [-> | Hin]%elem_of_cons; [right; apply list_elem_of_here|].
      destruct (IH Hin) as [-> | H']; [by left|]. right. by apply list_elem_of_further.
Qed.

Lemma obj_set_keys (k : Z) (v : Double.number) (o : list (Z * Double.number)) :
  (obj_set k v o).*1 = if bool_decide (k ∈ o.*1) then o.*1 else o.*1 ++ [k].
Proof.
  induction o as [|[k' v'] o IH]; [done|].
  cbn [obj_set]. destruct (bool_decide (k = k')) eqn:E.
  - apply bool_decide_eq_true_1 in E. subst. rewrite !fmap_cons. cbn [fst].
    by rewrite bool_decide_eq_true_2 by apply list_elem_of_here.
  - apply bool_decide_eq_false_1 in E. rewrite !fmap_cons, IH. cbn [fst].
    destruct (bool_decide (k ∈ o.*1)) eqn:B.
    + apply bool_decide_eq_true_1 in B.
      by rewrite bool_decide_eq_true_2 by by apply list_elem_of_further.
    + apply bool_decide_eq_false_1 in B.
      rewrite bool_decide_eq_false_2; [done|].
      intros [?|?]%elem_of_cons; congruence.
Qed.

Lemma obj_set_NoDup (k : Z) (v : Double.number) (o : list (Z * Double.number)) :
  NoDup o.*1 -> NoDup (obj_set k v o).*1.
Proof.
  intros H. rewrite obj_set_keys. case_bool_decide as E; [done|].
  apply NoDup_app. split; [done|]. split.
  - intros x Hx [-> | []%not_elem_of_nil]%elem_of_cons. done.
  - apply NoDup_singleton.
Qed.

Lemma obj_set_length (k : Z) (v : Double.number) (o : list (Z * Double.number)) :
  (length (obj_set k v o) <= S (length o))%nat.
Proof.
  rewrite <- !(length_fmap fst), obj_set_keys. case_bool_decide; [lia|].
  rewrite length_app. simpl. lia.
Qed.

Lemma obj_set_key_elem (k k' : Z) (v : Double.number) (o : list (Z * Double.number)) :
  k' ∈ (obj_set k v o).*1 <-> k' ∈ o.*1 \/ k' = k.
Proof.
  rewrite obj_set_keys. case_bool_decide as E.
  - split; [by left|]. intros [H | ->]; done.
  - rewrite elem_of_app, list_elem_of_singleton. done.
Qed.

(** The dates written by the loop of [generateMockData]. *)
Lemma mock_loop_keys round today mt_rand (n : nat) (i : Z) (baseRate : Double.number) rates :
  Forall (fun d => d < today - i) rates.*1 ->
  (TimeseriesPhp.mock_loop round today mt_rand n i baseRate rates).*1
    = rates.*1 ++ seqZ (today - i) (Z.of_nat n).
Proof.
  revert i baseRate rates. induction n as [|n IH]; intros i baseRate rates Hlt.
  - simpl. by rewrite app_nil_r.
  - cbn [TimeseriesPhp.mock_loop]. rewrite obj_set_later by done.
    rewrite IH.
    + rewrite keys_snoc, seqZ_S, <- app_assoc. simpl.
      do 3 f_equal. lia.
    + rewrite keys_snoc. replace (today - (i - 1)) with (today - i + 1) by lia.
      by apply later_snoc.
Qed.

Lemma generateMockData_keys round today mt_rand (days : Z) :
  0 <= days ->
  (TimeseriesPhp.generateMockData round today mt_rand days).*1
    = seqZ (today - days) (days + 1).
Proof.
  intros H. unfold TimeseriesPhp.generateMockData.
  rewrite mock_loop_keys by constructor. simpl. f_equal. lia.
Qed.

(** The fallback loop of the client writes one entry per distinct date
    its iterations print. *)
Lemma fallback_loop_spec isoDay random baseRate (n : nat) (i : Z) rates :
  let out := Client.fallback_loop isoDay random baseRate n i rates in
  (NoDup rates.*1 -> NoDup out.*1) /\
  (forall k, k ∈ out.*1 <->
     k ∈ rates.*1 \/ exists j, i - Z.of_nat n < j <= i /\ isoDay j = k) /\
  (length out <= length rates + n)%nat.
Proof.
  revert i rates. induction n as [|n IH]; intros i rates; cbn [Client.fallback_loop].
  - split; [done|]. split; [|lia].
    intros k. split; [by left|]. intros [H | (j & Hj & _)]; [done|lia].
  - cbv zeta. set (v := Double.mul _ _).
    destruct (IH (i - 1) (obj_set (isoDay i) v rates)) as (IH1 & IH2 & IH3).
    split; [|split].
    + intros H. by apply IH1, obj_set_NoDup.
    + intros k. rewrite IH2, obj_set_key_elem. split.
      * intros [[H | ->] | (j & Hj & Hk)]; [by left| |].
        -- right. exists i. split; [lia|done].
        -- right. exists j. split; [lia|done].
      * intros [H | (j & Hj & Hk)]; [by left; left|].
        destruct (decide (j = i)) as [->|Hne]; [by left; right|].
        right. exists j. split; [lia|done].
    + pose proof (obj_set_length (isoDay i) v rates). lia.
Qed.

(** When the iterations print consecutive dates, those are the entries. *)
Lemma fallback_loop_keys today isoDay random baseRate (n : nat) (i : Z) rates :
  (forall j, i - Z.of_nat n < j <= i -> isoDay j = today - j) ->
  Forall (fun d => d < today - i) rates.*1 ->
  (Client.fallback_loop isoDay random baseRate n i rates).*1
    = rates.*1 ++ seqZ (today - i) (Z.of_nat n).
Proof.
  revert i rates. induction n as [|n IH]; intros i rates Hiso Hlt.
  - simpl. by rewrite app_nil_r.
  - cbn [Client.fallback_loop]. cbv zeta. rewrite (Hiso i) by lia.
    rewrite obj_set_later by done.
    rewrite IH.
    + rewrite keys_snoc, seqZ_S, <- app_assoc. simpl.
      do 3 f_equal. lia.
    + intros j Hj. apply Hiso. lia.
    + rewrite keys_snoc. replace (today - (i - 1)) with (today - i + 1) by lia.
      by apply later_snoc.
Qed.

Lemma fallback_rates_keys today isoDay random baseRate (days : Z) :
  0 <= days ->
  (forall i, 0 <= i <= days -> isoDay i = today - i) ->
  (Client.fallback_rates isoDay random baseRate days).*1
    = seqZ (today - days) (days + 1).
Proof.
  intros H Hiso. unfold Client.fallback_rates.
  rewrite (fallback_loop_keys today).
  - simpl. f_equal. lia.
  - intros j Hj. apply Hiso. lia.
  - constructor.
Qed.

Lemma fallback_rates_spec isoDay random baseRate (days : Z) :
  let out := Client.fallback_rates isoDay random baseRate days in
  NoDup out.*1 /\
  (forall k, k ∈ out.*1 <-> exists i, 0 <= i <= days /\ isoDay i = k) /\
  (length out <= Z.to_nat (days + 1))%nat.
Proof.
  unfold Client.fallback_rates.
  destruct (fallback_loop_spec isoDay random baseRate (Z.to_nat (days + 1)) days [])
    as (H1 & H2 & H3).
  split; [apply H1; constructor|]. split; [|simpl in H3; lia].
  intros k. rewrite H2. split.
  - intros [[]%not_elem_of_nil | (j & Hj & Hk)]. exists j. split; [lia|done].
  - intros (j & Hj & Hk). right. exists j. split; [lia|done].
Qed.

(** Consecutive days are in ascending order. *)
Lemma ascending_seqZ (m : Z) (n : nat) : ascending (seqZ m (Z.of_nat n)).
Proof.
  revert m. induction n as [|n IH]; intros m; [done|].
  rewrite seqZ_S. split; [|apply IH].
  destruct n as [|n]; [done|]. rewrite seqZ_S. lia.
Qed.

Lemma ascending_days (m len : Z) : ascending (seqZ m len).
Proof.
  destruct (decide (0 <= len)) as [H|H].
  - rewrite <- (Z2Nat.id len H). apply ascending_seqZ.
  - unfold seqZ. replace (Z.to_nat len) with 0%nat by lia. done.
Qed.

(** Writing under a date not yet present appends. *)
Lemma obj_set_new (k : Z) (v : Double.number) (o : list (Z * Double.number)) :
  k ∉ o.*1 -> obj_set k v o = o ++ [(k, v)].
Proof.
  induction o as [|[k' v'] o IH]; simpl; [done|].
  intros H. apply not_elem_of_cons in H as [Hne H].
  rewrite bool_decide_eq_false_2 by done. by rewrite IH.
Qed.

(** What the [foreach] of [timeseries.php] collects. *)
Lemma collect_rates_spec (to : string) data acc :
  let out := TimeseriesPhp.collect_rates to data acc in
  (NoDup acc.*1 -> NoDup out.*1) /\
  (forall date v, (date, v) ∈ out ->
     (date, v) ∈ acc \/
     exists dayRates, (date, dayRates) ∈ data /\ Table.assoc to dayRates = Some v) /\
  (length out <= length acc + length data)%nat.
Proof.
  revert acc. induction data as [|[d dayRates] data IH]; intros acc; cbn.
  - split; [done|]. split; [by left|lia].
  - destruct (Table.assoc to dayRates) as [x|] eqn:Hx.
    + destruct (IH (obj_set d x acc)) as (IH1 & IH2 & IH3). split; [|split].
      * intros H. by apply IH1, obj_set_NoDup.
      * intros date v Hin. destruct (IH2 date v Hin) as [Hacc | (dr & Hdr & Hv)].
        -- destruct (obj_set_elem _ _ _ _ Hacc) as [[= -> ->] | Hold]; [|by left].
           right. exists dayRates. split; [apply list_elem_of_here|done].
        -- right. exists dr. split; [by apply list_elem_of_further|done].
      * pose proof (obj_set_length d x acc). lia.
    + destruct (IH acc) as (IH1 & IH2 & IH3). split; [done|]. split; [|lia].
      intros date v Hin. destruct (IH2 date v Hin) as [Hacc | (dr & Hdr & Hv)]; [by left|].
      right. exists dr. split; [by apply list_elem_of_further|done].
Qed.

(** The dates of a decoded JSON object are distinct; the [foreach] then
    collects the dated rates of the target code in the order of the reply. *)
Lemma collect_rates_distinct (to : string) data acc :
  NoDup (acc.*1 ++ data.*1) ->
  TimeseriesPhp.collect_rates to data acc
    = acc ++ omap (fun day => (fun v => (day.1, v)) <$> Table.assoc to day.2) data.
Proof.
  revert acc. induction data as [|[d dayRates] data IH]; intros acc Hnd.
  - simpl. by rewrite app_nil_r.
  - rewrite fmap_cons in Hnd. cbn [fst] in Hnd.
    apply NoDup_app in Hnd as (Hacc & Hdisj & Hdata).
    apply NoDup_cons in Hdata as [Hd Hdata].
    cbn. destruct (Table.assoc to dayRates) as [x|] eqn:Hx; cbn.
    + rewrite obj_set_new.
      * rewrite IH.
        -- by rewrite <- app_assoc.
        -- rewrite keys_snoc, <- app_assoc. simpl.
           apply NoDup_app. split; [done|]. split.
           ++ intros k Hk [-> | Hin]%elem_of_cons.
              ** apply (Hdisj d Hk). apply list_elem_of_here.
              ** apply (Hdisj k Hk). by apply list_elem_of_further.
           ++ by apply NoDup_cons.
      * intros Hin. apply (Hdisj d Hin). apply list_elem_of_here.
    + apply IH. apply NoDup_app. split; [done|]. split; [|done].
      intros k Hk Hin. apply (Hdisj k Hk). by apply list_elem_of_further.
Qed.

End SeriesFacts.

(** The scenario of the specification: seven days give eight dated entries,
    oldest first (client fallback, backend down, iterations printing
    consecutive dates). *)
Example week_scenario :
  let api := {| Client.cache := ∅; Client.requests := [] |} in
  exists d,
    (Client.getTimeSeries None 0 0 (fun i => 100 - i) (fun _ => Double.lit 5 10)
       "USD" "EUR" (Some 7) api).1
      = inr (Client.VSeries d) /\
    (Wire.t_rates d).*1 = [93; 94; 95; 96; 97; 98; 99; 100].
Proof. eexists. split; reflexivity. Qed.

(** C7, as the code has it.  [timeseries.php] replaces the requested [days]
    (30 when absent) by 1 when below 1, by 365 when above 365, and leaves it
    as it is otherwise, before anything uses it; a freshly computed answer
    reports that value and the window [today - days, today].  The mock
    generator of the server, used when the provider has no rate for the
    target code, writes exactly one entry per day of that window: [days + 1]
    entries in ascending date order.  A live series is made of the dated
    rates the provider sent for the target code, in the order of the reply:
    as many entries as the provider has dates with that code.  The fallback
    loop of the client runs on [days] as passed and writes one entry per
    distinct date its [days + 1] iterations print; when these print the
    consecutive dates [today - i], the entries are the [days + 1] days of
    the window in ascending order. *)
Theorem timeseries_days_and_entries
    (md5 : string -> string) (round : Double.number -> Z -> Double.number)
    (files : gmap string (Http.CacheFile Wire.SeriesData)) (now written today : Z)
    (date_c : string) (mt_rand : Z -> Z) (upstream : TimeseriesPhp.upstream_reply)
    (from to : string) (days_arg : option Z)
    (api : Client.CurrencyAPI) (cnow later : Z) (isoDay : Z -> Z) (ctoday : Z)
    (random : Z -> Double.number)
    (cfrom cto : string) (cdays : Z) (rf rt : Double.number) :
  let requested := default 30 days_arg in
  let days := TimeseriesPhp.clamp_days requested in
  let served := TimeseriesPhp.timeseries_php md5 round files now written today date_c
                  mt_rand upstream Http.GET from to days_arg in
  let to' := Str.toUpperCase (Str.trim to) in
  (1 <= days <= 365 /\
   days = if requested <? 1 then 1 else if 365 <? requested then 365 else requested) /\
  (forall d files',
     served = ({| TimeseriesPhp.status := 200;
                  TimeseriesPhp.body := TimeseriesPhp.Payload d |}, files', true) ->
     exists m, Wire.t_meta d = Some m /\ Wire.m_days m = days /\
               Wire.m_start_date m = today - days /\ Wire.m_end_date m = today /\
               Wire.m_count m = length (Wire.t_rates d)) /\
  ((TimeseriesPhp.generateMockData round today mt_rand days).*1
     = seqZ (today - days) (days + 1) /\
   length (TimeseriesPhp.generateMockData round today mt_rand days) = Z.to_nat (days + 1) /\
   Wire.ascending (TimeseriesPhp.generateMockData round today mt_rand days).*1) /\
  (Str.php_empty from = false -> Str.php_empty to = false ->
   Http.cache_read files
     (TimeseriesPhp.cacheFile md5 (Str.toUpperCase (Str.trim from)) to' days)
     now TimeseriesPhp.cacheTime = None ->
   forall rates, upstream = TimeseriesPhp.ApiOk rates ->
   TimeseriesPhp.collect_rates to' (default [] rates) [] = [] ->
   exists d files',
     served = ({| TimeseriesPhp.status := 200;
                  TimeseriesPhp.body := TimeseriesPhp.Payload d |}, files', true) /\
     Wire.t_rates d = TimeseriesPhp.generateMockData round today mt_rand days /\
     (Wire.t_rates d).*1 = seqZ (today - days) (days + 1)) /\
  (Str.php_empty from = false -> Str.php_empty to = false ->
   Http.cache_read files
     (TimeseriesPhp.cacheFile md5 (Str.toUpperCase (Str.trim from)) to' days)
     now TimeseriesPhp.cacheTime = None ->
   forall rates, upstream = TimeseriesPhp.ApiOk rates ->
   TimeseriesPhp.collect_rates to' (default [] rates) [] <> [] ->
   exists d files',
     served = ({| TimeseriesPhp.status := 200;
                  TimeseriesPhp.body := TimeseriesPhp.Payload d |}, files', true) /\
     Wire.t_rates d = TimeseriesPhp.collect_rates to' (default [] rates) [] /\
     (NoDup (default [] rates).*1 ->
      Wire.t_rates d
        = omap (fun day => (fun v => (day.1, v)) <$> Table.assoc to' day.2)
            (default [] rates))) /\
  (Table.assoc (Str.toUpperCase cfrom) Table.fallbackRates = Some rf ->
   Table.assoc (Str.toUpperCase cto) Table.fallbackRates = Some rt ->
   Client.cache_fresh (Client.timeseries_key cfrom cto cdays) cnow api = None ->
   exists d,
     (Client.getTimeSeries None cnow later isoDay random cfrom cto (Some cdays) api).1
       = inr (Client.VSeries d) /\
     Wire.t_fallback d = Some true /\
     NoDup (Wire.t_rates d).*1 /\
     (forall k, k ∈ (Wire.t_rates d).*1 <-> exists i, 0 <= i <= cdays /\ isoDay i = k) /\
     (length (Wire.t_rates d) <= Z.to_nat (cdays + 1))%nat /\
     (0 <= cdays ->
      (forall i, 0 <= i <= cdays -> isoDay i = ctoday - i) ->
      (Wire.t_rates d).*1 = seqZ (ctoday - cdays) (cdays + 1) /\
      length (Wire.t_rates d) = Z.to_nat (cdays + 1) /\
      Wire.ascending (Wire.t_rates d).*1)).
Proof.
  intros requested days served to'.
  pose proof (clamp_days_range requested) as Hrange. fold days in Hrange.
  assert (Hkeys : (TimeseriesPhp.generateMockData round today mt_rand days).*1
                  = seqZ (today - days) (days + 1))
    by (apply generateMockData_keys; lia).
  split; [split; [done|apply clamp_days_cases]|].
  split; [|split; [|split; [|split]]].
  - intros d files'. subst served.
    unfold TimeseriesPhp.timeseries_php, TimeseriesPhp.try_block.
    fold requested. fold days.
    repeat case_match; intros Heq; simplify_eq; eauto 10.
  - split; [done|]. split.
    + rewrite <- (length_fmap fst), Hkeys. apply length_seqZ.
    + rewrite Hkeys. apply ascending_days.
  - intros Ef Et Hmiss rates -> Hnone. subst served.
    unfold TimeseriesPhp.timeseries_php, TimeseriesPhp.try_block.
    fold requested. fold days. fold to'.
    rewrite Ef, Et. cbn [orb]. rewrite Hmiss, Hnone.
    do 2 eexists. split; [reflexivity|]. split; [reflexivity|exact Hkeys].
  - intros Ef Et Hmiss rates -> Hsome. subst served.
    unfold TimeseriesPhp.timeseries_php, TimeseriesPhp.try_block.
    fold requested. fold days. fold to'.
    rewrite Ef, Et. cbn [orb]. rewrite Hmiss.
    destruct (TimeseriesPhp.collect_rates _ _ _) as [|entry live] eqn:Hlive; [done|].
    do 2 eexists. split; [reflexivity|]. split; [reflexivity|].
    intros Hnd. cbn [Wire.t_rates]. rewrite <- Hlive.
    rewrite collect_rates_distinct; [done|]. by simpl.
  - intros Hf Ht Hmiss. unfold Client.getTimeSeries. cbv zeta.
    change (default Client.default_days (Some cdays)) with cdays.
    rewrite Hmiss, Hf, Ht, (rates_truthy _ _ Hf), (rates_truthy _ _ Ht). cbn [negb andb fst].
    destruct (fallback_rates_spec isoDay random (Double.div rt rf) cdays)
      as (Hnd & Hin & Hlen).
    eexists. split; [reflexivity|]. cbn [Wire.t_fallback Wire.t_rates].
    split; [done|]. split; [done|]. split; [done|]. split; [done|].
    intros Hd Hiso.
    assert (Hk : (Client.fallback_rates isoDay random (Double.div rt rf) cdays).*1
                 = seqZ (ctoday - cdays) (cdays + 1))
      by (by apply fallback_rates_keys).
    split; [done|]. split.
    + rewrite <- (length_fmap fst), Hk. apply length_seqZ.
    + rewrite Hk. apply ascending_days.
Qed.

Lemma timeseries_days_and_entries_witness :
  let api := {| Client.cache := ∅; Client.requests := [] |} in
  (exists d files',
     TimeseriesPhp.timeseries_php (fun s => s) (fun x _ => x) ∅ 0 0 100 "t" (fun _ => 10)
       (TimeseriesPhp.ApiOk None) Http.GET "usd" "eur" (Some 7)
       = ({| TimeseriesPhp.status := 200;
             TimeseriesPhp.body := TimeseriesPhp.Payload d |}, files', true) /\
     Wire.t_rates d = TimeseriesPhp.generateMockData (fun x _ => x) 100 (fun _ => 10)
                        (TimeseriesPhp.clamp_days 7) /\
     (Wire.t_rates d).*1 = seqZ (100 - 7) (7 + 1)) /\
  (exists d files',
     TimeseriesPhp.timeseries_php (fun s => s) (fun x _ => x) ∅ 0 0 100 "t" (fun _ => 10)
       (TimeseriesPhp.ApiOk (Some [(98, [("GBP", Double.lit 8 10)]);
                                   (99, [("EUR", Double.lit 9 10)])]))
       Http.GET "usd" "eur" (Some 7)
       = ({| TimeseriesPhp.status := 200;
             TimeseriesPhp.body := TimeseriesPhp.Payload d |}, files', true) /\
     Wire.t_rates d = [(99, Double.lit 9 10)]) /\
  (exists d,
     (Client.getTimeSeries None 0 0 (fun i => 100 - i) (fun _ => Double.lit 5 10)
        "usd" "eur" (Some 7) api).1
       = inr (Client.VSeries d) /\
     (Wire.t_rates d).*1 = seqZ (100 - 7) (7 + 1) /\
     length (Wire.t_rates d) = Z.to_nat (7 + 1) /\
     Wire.ascending (Wire.t_rates d).*1).
Proof.
  intros api.
  pose proof (timeseries_days_and_entries (fun s => s) (fun x _ => x) ∅ 0 0 100 "t"
                (fun _ => 10) (TimeseriesPhp.ApiOk None) "usd" "eur" (Some 7)
                api 0 0 (fun i => 100 - i) 100 (fun _ => Double.lit 5 10)
                "usd" "eur" 7 (Double.lit 10 10) (Double.lit 85 100)) as H.
  pose proof (timeseries_days_and_entries (fun s => s) (fun x _ => x) ∅ 0 0 100 "t"
                (fun _ => 10)
                (TimeseriesPhp.ApiOk (Some [(98, [("GBP", Double.lit 8 10)]);
                                            (99, [("EUR", Double.lit 9 10)])]))
                "usd" "eur" (Some 7)
                api 0 0 (fun i => 100 - i) 100 (fun _ => Double.lit 5 10)
                "usd" "eur" 7 (Double.lit 10 10) (Double.lit 85 100)) as H'.
  cbv zeta in H, H'.
  destruct H as (_ & _ & _ & Hmock & _ & Hclient).
  destruct H' as (_ & _ & _ & _ & Hlive & _).
  split; [|split].
  - apply (Hmock eq_refl eq_refl eq_refl None eq_refl eq_refl).
  - destruct (Hlive eq_refl eq_refl eq_refl _ eq_refl) as (d & files' & Hs & _ & Hd).
    + vm_compute. discriminate.
    + exists d, files'. split; [exact Hs|]. rewrite Hd.
      * reflexivity.
      * apply (bool_decide_unpack _). vm_compute. exact I.
  - destruct Hclient as (d & Hd & _ & _ & _ & _ & Hk); [reflexivity..|].
    exists d. split; [exact Hd|]. apply Hk; [lia|]. intros i _. reflexivity.
Defined.

(** C7 as stated fails at three inputs.  On the server the entries of a live
    answer are those the provider sent: one dated rate for a window of seven
    days gives a series of one entry, not eight.  On the client the fallback
    loop runs on [days] as passed: 400 days give 401 entries.  And the date
    an iteration of the client prints is the UTC day of a local time: when
    two iterations print the same date (a window across a change of the
    local clock), seven days give seven entries. *)
Lemma timeseries_counterexample :
  let api := {| Client.cache := ∅; Client.requests := [] |} in
  (exists d files',
     TimeseriesPhp.timeseries_php (fun s => s) (fun x _ => x) ∅ 0 0 100 "t" (fun _ => 10)
       (TimeseriesPhp.ApiOk (Some [(99, [("EUR", Double.lit 9 10)])]))
       Http.GET "USD" "EUR" (Some 7)
       = ({| TimeseriesPhp.status := 200;
             TimeseriesPhp.body := TimeseriesPhp.Payload d |}, files', true) /\
     (Wire.t_rates d).*1 = [99] /\
     (Wire.m_days <$> Wire.t_meta d) = Some 7) /\
  (exists d,
     (Client.getTimeSeries None 0 0 (fun i => 1000 - i) (fun _ => Double.lit 5 10)
        "USD" "EUR" (Some 400) api).1
       = inr (Client.VSeries d) /\
     length (Wire.t_rates d) = 401%nat /\
     head (Wire.t_rates d).*1 = Some 600) /\
  (exists d,
     (Client.getTimeSeries None 0 0 (fun i => if i <? 3 then 100 - i else 101 - i)
        (fun _ => Double.lit 5 10) "USD" "EUR" (Some 7) api).1
       = inr (Client.VSeries d) /\
     (Wire.t_rates d).*1 = [94; 95; 96; 97; 98; 99; 100]).
Proof.
  intros api. split; [|split].
  - do 2 eexists. split; [reflexivity|]. split; reflexivity.
  - eexists. split; [reflexivity|]. split; vm_compute; reflexivity.
  - eexists. split; [reflexivity|]. vm_compute. reflexivity.
Qed.
(** ** Expiry and reuse of cache entries *)

Section ClientCacheFacts.
Import Client Api.

Lemma cache_fresh_stale k now api e :
  cache api !! k = Some e ->
  (cache_fresh k now api = None <-> now - timestamp e >= cacheTimeout).
Proof.
  intros He. unfold cache_fresh. rewrite He.
  destruct (now - timestamp e <? cacheTimeout) eqn:E.
  - apply Z.ltb_lt in E. split; [done|lia].
  - apply Z.ltb_ge in E. split; [lia|done].
Qed.

Lemma cache_fresh_set k v t now api :
  cache_fresh k now (cache_set k v t api)
    = if now - t <? cacheTimeout then Some v else None.
Proof. unfold cache_fresh, cache_set. cbn [cache]. by rewrite lookup_insert_eq. Qed.

(** A live entry answers the call; nothing is sent, nothing changes. *)
Lemma call_hit op k b env api v :
  key_of op = Some k -> cache_fresh k (now env) api = Some v ->
  call op b env api = (inr v, api).
Proof.
  destruct op; intros [= <-] Hhit; cbn [call].
  - unfold getSymbols. by rewrite Hhit.
  - unfold getTimeSeries. cbv zeta. by rewrite Hhit.
Qed.

(** Without a live entry the call sends its request; a value it returns
    is stored under the key with the time [later]. *)
Lemma call_miss op k b env api :
  key_of op = Some k -> cache_fresh k (now env) api = None ->
  requests (call op b env api).2 = request_of op :: requests api /\
  forall v, (call op b env api).1 = inr v ->
    (call op b env api).2 = cache_set k v (later env) (issue (request_of op) api).
Proof.
  destruct op; intros [= <-] Hmiss; cbn [call].
  - unfold getSymbols. rewrite Hmiss. destruct b; cbn; split; try done;
      by intros v [= <-].
  - unfold getTimeSeries. cbv zeta. rewrite Hmiss.
    repeat case_match; cbn; split; try done; by intros v [= <-].
Qed.

(** [convert] sends its request on every call that passes the guard. *)
Lemma convert_always_requests b iso from to amount api :
  (convert b iso from to amount api).1 <> inl InvalidParameters ->
  requests (convert b iso from to amount api).2
    = ReqConvert (Str.toUpperCase from) (Str.toUpperCase to) amount :: requests api.
Proof. unfold convert. repeat case_match; cbn; done. Qed.

Lemma convert_guard_stable b1 b2 iso1 iso2 from to amount api1 api2 :
  (convert b1 iso1 from to amount api1).1 <> inl InvalidParameters ->
  (convert b2 iso2 from to amount api2).1 <> inl InvalidParameters.
Proof. unfold convert. repeat case_match; cbn; done. Qed.

Lemma issued_cons r before after :
  requests after = r :: requests before -> issued before after = 1%nat.
Proof. unfold issued. intros ->. simpl. lia. Qed.

Lemma issued_same before after :
  requests after = requests before -> issued before after = 0%nat.
Proof. unfold issued. intros ->. lia. Qed.

End ClientCacheFacts.

Section ServerCacheFacts.
Import Wire Http.

Lemma cache_read_stale {T} (files : gmap string (CacheFile T)) path now ttl f :
  files !! path = Some f ->
  (cache_read files path now ttl = None <-> now - mtime f >= ttl).
Proof.
  intros Hf. unfold cache_read. rewrite Hf.
  destruct (now - mtime f <? ttl) eqn:E.
  - apply Z.ltb_lt in E. split; [done|lia].
  - apply Z.ltb_ge in E. split; [lia|done].
Qed.

Lemma cache_read_write {T} (files : gmap string (CacheFile T)) path written d now ttl :
  cache_read (cache_write files path written d) path now ttl
    = if now - written <? ttl then Some d else None.
Proof. unfold cache_read, cache_write. by rewrite lookup_insert_eq. Qed.

End ServerCacheFacts.

Section ReuseFacts.
Import Client Api Http.

Lemma cache_read_none_mono {T} (files : gmap string (CacheFile T)) path now1 now2 ttl :
  now1 <= now2 -> cache_read files path now1 ttl = None ->
  cache_read files path now2 ttl = None.
Proof.
  unfold cache_read. intros Hle. destruct (files !! path) as [f|]; [|done].
  destruct (now1 - mtime f <? ttl) eqn:E1; [done|]. intros _.
  apply Z.ltb_ge in E1. by rewrite (proj2 (Z.ltb_ge _ _)) by lia.
Qed.

(** Two calls of a cached operation, the second less than one
    [cacheTimeout] after the first one's entry was stored. *)
Lemma two_calls_within_ttl op k b1 b2 env1 env2 api v1 :
  key_of op = Some k -> (call op b1 env1 api).1 = inr v1 ->
  now env2 - later env1 < cacheTimeout ->
  let first := call op b1 env1 api in
  let second := call op b2 env2 first.2 in
  (issued api first.2 + issued first.2 second.2 <= 1)%nat /\
  (issued api first.2 = 1%nat -> second = (inr v1, first.2)).
Proof.
  intros Hk Hv Hlt first second. subst first second.
  destruct (cache_fresh k (now env1) api) as [v|] eqn:Hc1.
  - rewrite (call_hit op k b1 env1 api v Hk Hc1) in *. cbn [snd].
    rewrite (issued_same api api eq_refl). split; [|done]. cbn [Nat.add].
    destruct (cache_fresh k (now env2) api) as [v'|] eqn:Hc2.
    + rewrite (call_hit op k b2 env2 api v' Hk Hc2). cbn [snd].
      rewrite (issued_same api api eq_refl). lia.
    + destruct (call_miss op k b2 env2 api Hk Hc2) as [Hreq _].
      rewrite (issued_cons _ _ _ Hreq). lia.
  - destruct (call_miss op k b1 env1 api Hk Hc1) as [Hreq Hset].
    specialize (Hset v1 Hv). rewrite (issued_cons _ _ _ Hreq).
    assert (Hhit : cache_fresh k (now env2) (call op b1 env1 api).2 = Some v1).
    { rewrite Hset, cache_fresh_set. by rewrite (proj2 (Z.ltb_lt _ _) Hlt). }
    rewrite (call_hit op k b2 env2 _ v1 Hk Hhit). cbn [snd].
    rewrite (issued_same _ _ eq_refl). split; [lia|done].
Qed.

(** A call made once the entry is [cacheTimeout] old sends the request
    again. *)
Lemma second_call_after_ttl op k b1 b2 env1 env2 api v1 :
  key_of op = Some k -> (call op b1 env1 api).1 = inr v1 ->
  cacheTimeout <= now env2 - later env1 ->
  let first := call op b1 env1 api in
  let second := call op b2 env2 first.2 in
  issued api first.2 = 1%nat -> issued first.2 second.2 = 1%nat.
Proof.
  intros Hk Hv Hge first second. subst first second.
  destruct (cache_fresh k (now env1) api) as [v|] eqn:Hc1.
  - rewrite (call_hit op k b1 env1 api v Hk Hc1). cbn [snd].
    by rewrite (issued_same api api eq_refl).
  - destruct (call_miss op k b1 env1 api Hk Hc1) as [_ Hset].
    specialize (Hset v1 Hv). intros _.
    assert (Hstale : cache_fresh k (now env2) (call op b1 env1 api).2 = None).
    { rewrite Hset, cache_fresh_set. by rewrite (proj2 (Z.ltb_ge _ _) Hge). }
    destruct (call_miss op k b2 env2 _ Hk Hstale) as [Hreq _].
    by rewrite (issued_cons _ _ _ Hreq).
Qed.

(** [convert] has no cache: both calls go to the backend. *)
Lemma convert_calls_both_request op b1 b2 env1 env2 api :
  key_of op = None -> (call op b1 env1 api).1 <> inl InvalidParameters ->
  let first := call op b1 env1 api in
  let second := call op b2 env2 first.2 in
  issued api first.2 = 1%nat /\ issued first.2 second.2 = 1%nat.
Proof.
  destruct op as [|from to amount|]; try discriminate. intros _ Hok. cbn [call] in *.
  split.
  - eapply issued_cons, convert_always_requests, Hok.
  - eapply issued_cons, convert_always_requests, convert_guard_stable, Hok.
Qed.

End ReuseFacts.

Section ServerReuseFacts.
Import Double Wire Http.
Variable md5 : string -> string.
Variable strval : number -> string.
Variable floatval : string -> number.
Variable round : number -> Z -> number.
Variable times : string -> number -> option number.

(** [convert.php] twice on the same parameters, the first request
    answered by the provider. *)
Lemma convert_php_second_request files now1 written1 now2 written2 date1 date2
    a b c res rate up2 m1 m2 (from to : string) (amount : Amount) :
  let served1 := ConvertPhp.convert_php md5 strval floatval round times files now1 written1
                   date1 (ConvertPhp.ApiOk a b c res rate) m1 from to amount in
  let served2 := ConvertPhp.convert_php md5 strval floatval round times served1.1.2 now2
                   written2 date2 up2 m2 from to amount in
  served1.2 = true -> m2 = GET \/ m2 = POST ->
  (now2 - written1 < ConvertPhp.cacheTime ->
   served2.2 = false /\ ConvertPhp.reports_cached served2.1.1 = Some true /\
   served2.1.2 = served1.1.2) /\
  (ConvertPhp.cacheTime <= now2 - written1 -> served2.2 = true).
Proof.
  intros served1 served2 Hfetched Hm2. subst served1 served2.
  destruct (fetched_passes_guards md5 strval floatval _ _ _ _ _ _ _ _ _ _ _ Hfetched)
    as (G & Hm1 & Hmiss).
  unfold ConvertPhp.convert_php.
  rewrite (try_block_guarded md5 strval floatval files now1 written1 date1 _ from to amount G).
  cbv zeta. rewrite Hmiss.
  destruct Hm1 as [-> | ->]; cbn [fst snd];
    rewrite (try_block_guarded md5 strval floatval _ now2 written2 date2 up2 from to amount G);
    cbv zeta; rewrite cache_read_write; (split; intros Ht);
    [ rewrite (proj2 (Z.ltb_lt _ _) Ht) | rewrite (proj2 (Z.ltb_ge _ _) Ht)
    | rewrite (proj2 (Z.ltb_lt _ _) Ht) | rewrite (proj2 (Z.ltb_ge _ _) Ht) ];
    destruct Hm2 as [-> | ->]; try done; by destruct up2.
Qed.

(** When the provider fails nothing is stored, and the next request on
    the same parameters contacts it again. *)
Lemma convert_php_failure_not_cached files now1 written1 now2 written2 date1 date2
    up1 up2 m1 m2 (from to : string) (amount : Amount) :
  let served1 := ConvertPhp.convert_php md5 strval floatval round times files now1 written1
                   date1 up1 m1 from to amount in
  let served2 := ConvertPhp.convert_php md5 strval floatval round times served1.1.2 now2
                   written2 date2 up2 m2 from to amount in
  served1.2 = true -> m2 = GET \/ m2 = POST ->
  (forall a b c res rate, up1 <> ConvertPhp.ApiOk a b c res rate) ->
  now1 <= now2 ->
  served1.1.2 = files /\ served2.2 = true.
Proof.
  intros served1 served2 Hfetched Hm2 Hup Hle. subst served1 served2.
  destruct (fetched_passes_guards md5 strval floatval _ _ _ _ _ _ _ _ _ _ _ Hfetched)
    as (G & Hm1 & Hmiss).
  assert (Hfiles : (ConvertPhp.convert_php md5 strval floatval round times files now1
                      written1 date1 up1 m1 from to amount).1.2 = files).
  { unfold ConvertPhp.convert_php.
    rewrite (try_block_guarded md5 strval floatval files now1 written1 date1 _ from to
               amount G).
    cbv zeta. rewrite Hmiss.
    destruct up1; try by destruct Hm1 as [-> | ->].
    by edestruct Hup. }
  rewrite Hfiles. split; [done|]. unfold ConvertPhp.convert_php.
  rewrite (try_block_guarded md5 strval floatval files now2 written2 date2 up2 from to
             amount G).
  cbv zeta. rewrite (cache_read_none_mono _ _ _ _ _ Hle Hmiss).
  destruct Hm2 as [-> | ->]; by destruct up2.
Qed.

End ServerReuseFacts.

(** C4, as the code has it.  For [getSymbols] and [getTimeSeries] of the
    client and every fixed parameter tuple: when the first call returns a
    value, a second call less than [cacheTimeout] after that value was
    stored is answered from the cache, so the two calls send at most one
    request; a second call at or after [cacheTimeout] sends the request
    again.  The client's [convert] keeps no cache: every call that passes
    its guard sends a request.  [convert.php] stores the answer of the rate
    provider: a second request on the same parameters less than [cacheTime]
    after the file was written is served from the file without contacting
    the provider, a later one contacts it again; when the provider fails
    nothing is stored and the next request contacts it again. *)
Theorem cache_reuse_within_ttl
    (op : Api.Operation) (k : string) (b1 b2 : option Client.js_value)
    (env1 env2 : Api.Env) (api : Client.CurrencyAPI) (v1 : Client.js_value)
    (md5 : string -> string) (strval : Double.number -> string)
    (floatval : string -> Double.number)
    (round : Double.number -> Z -> Double.number)
    (times : string -> Double.number -> option Double.number)
    (files : gmap string (Http.CacheFile Wire.ConvertData))
    (now1 written1 now2 written2 : Z) (date1 date2 : string)
    (up1 up2 : ConvertPhp.upstream_reply) (m1 m2 : Http.Method)
    (from to : string) (amount : Wire.Amount) :
  let first := Api.call op b1 env1 api in
  let second := Api.call op b2 env2 first.2 in
  let served1 := ConvertPhp.convert_php md5 strval floatval round times files now1 written1
                   date1 up1 m1 from to amount in
  let served2 := ConvertPhp.convert_php md5 strval floatval round times served1.1.2 now2
                   written2 date2 up2 m2 from to amount in
  (Api.key_of op = Some k -> first.1 = inr v1 ->
   (Api.now env2 - Api.later env1 < Client.cacheTimeout ->
    (Api.issued api first.2 + Api.issued first.2 second.2 <= 1)%nat /\
    (Api.issued api first.2 = 1%nat -> second = (inr v1, first.2))) /\
   (Client.cacheTimeout <= Api.now env2 - Api.later env1 ->
    Api.issued api first.2 = 1%nat -> Api.issued first.2 second.2 = 1%nat)) /\
  (Api.key_of op = None -> first.1 <> inl Client.InvalidParameters ->
   Api.issued api first.2 = 1%nat /\ Api.issued first.2 second.2 = 1%nat) /\
  (served1.2 = true -> m2 = Http.GET \/ m2 = Http.POST ->
   ((exists a b c res rate, up1 = ConvertPhp.ApiOk a b c res rate) ->
    (now2 - written1 < ConvertPhp.cacheTime ->
     served2.2 = false /\ ConvertPhp.reports_cached served2.1.1 = Some true /\
     served2.1.2 = served1.1.2) /\
    (ConvertPhp.cacheTime <= now2 - written1 -> served2.2 = true)) /\
   ((forall a b c res rate, up1 <> ConvertPhp.ApiOk a b c res rate) ->
    now1 <= now2 -> served1.1.2 = files /\ served2.2 = true)).
Proof.
  intros first second served1 served2. split; [|split].
  - intros Hk Hv. split.
    + intros Hlt. by apply (two_calls_within_ttl op k).
    + intros Hge. by apply (second_call_after_ttl op k b1 b2 env1 env2 api v1).
  - intros Hk Hok. by apply convert_calls_both_request.
  - intros Hfetched Hm2. split.
    + intros (a & b & c & res & rate & ->).
      by apply convert_php_second_request.
    + intros Hup Hle. by apply convert_php_failure_not_cached.
Qed.

Lemma cache_reuse_within_ttl_witness :
  let api := {| Client.cache := ∅; Client.requests := [] |} in
  let env (t : Z) := {| Api.now := t; Api.later := t + 1; Api.isoDay := fun i => 100 - i;
                        Api.iso := "t"; Api.random := fun _ => Double.lit 5 10 |} in
  let first := Api.call Api.OpSymbols None (env 0) api in
  let second := Api.call Api.OpSymbols None (env 1000) first.2 in
  (Api.issued api first.2 + Api.issued first.2 second.2 <= 1)%nat /\
  (Api.issued api first.2 = 1%nat -> second = (first.1, first.2)).
Proof.
  intros api env first second.
  pose proof (cache_reuse_within_ttl Api.OpSymbols "symbols" None None (env 0) (env 1000)
                api
                (Client.VSymbols
                   {| Wire.s_success := true; Wire.s_symbols := Table.fallbackSymbols;
                      Wire.s_cached := false; Wire.s_timestamp := "t";
                      Wire.s_fallback := Some true |})
                (fun s => s) (fun _ => "1") (fun _ => Double.of_int 1) (fun x _ => x)
                (fun _ _ => None) ∅ 0 0 0 0 "t" "t"
                ConvertPhp.FetchFailed ConvertPhp.FetchFailed Http.GET Http.GET
                "USD" "EUR" (Wire.AText "1")) as H.
  cbv zeta in H. destruct H as (Hclient & _).
  destruct (Hclient eq_refl eq_refl) as [Hwithin _].
  apply Hwithin. vm_compute. reflexivity.
Defined.

(** C4 as stated fails for [convert].  Two calls of the client's [convert]
    on the same parameters at the same instant send two requests.  Two
    requests to [convert.php] ten seconds apart, with the provider failing,
    both contact the provider. *)
Lemma cache_reuse_counterexample :
  let api := {| Client.cache := ∅; Client.requests := [] |} in
  let reply := Some (Client.VConvert
                 {| Wire.c_success := true; Wire.c_from := "USD"; Wire.c_to := "EUR";
                    Wire.c_amount := Wire.ANumber (Double.of_int 100);
                    Wire.c_result := Double.of_int 85;
                    Wire.c_rate := Double.lit 85 100; Wire.c_date := "t";
                    Wire.c_cached := Some false; Wire.c_fallback := None |}) in
  let first := Client.convert reply "t" "USD" "EUR" (Double.of_int 100) api in
  let second := Client.convert reply "t" "USD" "EUR" (Double.of_int 100) first.2 in
  let php := ConvertPhp.convert_php (fun s => s) (fun _ => "100")
               (fun _ => Double.of_int 100) (fun x _ => x) (fun _ _ => None) in
  let served1 := php ∅ 0 1 "t" ConvertPhp.FetchFailed Http.GET "USD" "EUR"
                   (Wire.AText "100") in
  let served2 := php served1.1.2 10 11 "t" ConvertPhp.FetchFailed Http.GET "USD" "EUR"
                   (Wire.AText "100") in
  Client.requests second.2
    = [Client.ReqConvert "USD" "EUR" (Double.of_int 100);
       Client.ReqConvert "USD" "EUR" (Double.of_int 100)] /\
  served1.2 = true /\ served2.2 = true.
Proof. intros api reply first second php served1 served2. by vm_compute. Qed.
Section ExpiryFacts.
Import Client Api Http.

Lemma stale_spec (ttl now storedAt : Z) :
  Expiry.stale ttl now storedAt = true <-> now - storedAt >= ttl.
Proof. unfold Expiry.stale. rewrite Z.leb_le. lia. Qed.

Lemma stale_ltb (ttl now storedAt : Z) :
  (now - storedAt <? ttl) = negb (Expiry.stale ttl now storedAt).
Proof. unfold Expiry.stale. by rewrite Z.ltb_antisym. Qed.

Lemma cache_fresh_at k now api e :
  cache api !! k = Some e ->
  cache_fresh k now api
    = if Expiry.stale cacheTimeout now (timestamp e) then None else Some (data e).
Proof.
  intros He. unfold cache_fresh. rewrite He, stale_ltb. by destruct (Expiry.stale _ _ _).
Qed.

Lemma cache_read_file {T} (files : gmap string (CacheFile T)) path now ttl f :
  files !! path = Some f ->
  cache_read files path now ttl
    = if Expiry.stale ttl now (mtime f) then None else Some (content f).
Proof.
  intros Hf. unfold cache_read. rewrite Hf, stale_ltb. by destruct (Expiry.stale _ _ _).
Qed.

(** The outcome of [convert] does not depend on the cache, and the call
    leaves the cache as it is. *)
Lemma convert_ignores_cache b iso from to amount api cache' :
  (convert b iso from to amount {| cache := cache'; requests := requests api |}).1
    = (convert b iso from to amount api).1 /\
  cache (convert b iso from to amount api).2 = cache api.
Proof. unfold convert. repeat case_match; cbn; done. Qed.

End ExpiryFacts.

(** C5, as the code has it.  In every component that caches, an entry is
    stale exactly when [now - storedAt >= ttl], and a component answers
    from an entry exactly when it is not stale.  The client applies one
    time-to-live of 5 minutes to the entries of [getSymbols] and
    [getTimeSeries] alike: a call finding an entry younger than that
    returns its data and sends nothing, a call finding an older one sends
    its request; [convert] keeps no entry, its outcome does not depend on
    the cache.  On the server [symbols.php] answers from its file for
    1 hour, [convert.php] for 5 minutes and [timeseries.php] for
    30 minutes; past that the provider is asked again. *)
Theorem cache_entry_expiry
    (op : Api.Operation) (k : string) (b : option Client.js_value) (env : Api.Env)
    (api : Client.CurrencyAPI) (e : Client.CacheEntry)
    (cache' : gmap string Client.CacheEntry)
    (md5 : string -> string) (strval : Double.number -> string)
    (floatval : string -> Double.number)
    (round : Double.number -> Z -> Double.number)
    (times : string -> Double.number -> option Double.number)
    (sfiles : gmap string (Http.CacheFile Wire.SymbolsData))
    (sf : Http.CacheFile Wire.SymbolsData) (sup : SymbolsPhp.upstream_reply)
    (cfiles : gmap string (Http.CacheFile Wire.ConvertData))
    (cf : Http.CacheFile Wire.ConvertData) (cup : ConvertPhp.upstream_reply)
    (tfiles : gmap string (Http.CacheFile Wire.SeriesData))
    (tf : Http.CacheFile Wire.SeriesData) (tup : TimeseriesPhp.upstream_reply)
    (now written today : Z) (date_c : string) (mt_rand : Z -> Z) (method : Http.Method)
    (from to : string) (amount : Wire.Amount) (days_arg : option Z) :
  let out := Api.call op b env api in
  let symbols := SymbolsPhp.symbols_php sfiles now written date_c sup Http.GET in
  let conversion := ConvertPhp.convert_php md5 strval floatval round times cfiles now written
                      date_c cup method from to amount in
  let series := TimeseriesPhp.timeseries_php md5 round tfiles now written today date_c
                  mt_rand tup Http.GET from to days_arg in
  let from' := Str.toUpperCase (Str.trim from) in
  let to' := Str.toUpperCase (Str.trim to) in
  (forall ttl t storedAt, Expiry.stale ttl t storedAt = true <-> t - storedAt >= ttl) /\
  (Api.key_of op = Some k -> Client.cache api !! k = Some e ->
   let stale := Expiry.stale (5 * Expiry.minute_ms) (Api.now env) (Client.timestamp e) in
   (stale = false -> out = (inr (Client.data e), api)) /\
   (stale = true -> Client.requests out.2 = Api.request_of op :: Client.requests api) /\
   (Api.issued api out.2 = 1%nat <->
    Api.now env - Client.timestamp e >= 5 * Expiry.minute_ms)) /\
  (Api.key_of op = None ->
   (Api.call op b env {| Client.cache := cache'; Client.requests := Client.requests api |}).1
     = out.1 /\
   Client.cache out.2 = Client.cache api) /\
  (sfiles !! SymbolsPhp.cacheFile = Some sf ->
   let stale := Expiry.stale (60 * Expiry.minute_s) now (Http.mtime sf) in
   (stale = false ->
    symbols = ({| SymbolsPhp.status := 200;
                  SymbolsPhp.body := SymbolsPhp.Payload (Http.content sf) |}, sfiles)) /\
   (stale = true ->
    symbols.1 = (SymbolsPhp.symbols_php ∅ now written date_c sup Http.GET).1)) /\
  (ConvertPhp.passes_guards floatval from to amount = true ->
   method = Http.GET \/ method = Http.POST ->
   cfiles !! ConvertPhp.cacheFile md5 strval from' to'
               (ConvertPhp.floatval_amount floatval amount) = Some cf ->
   let stale := Expiry.stale (5 * Expiry.minute_s) now (Http.mtime cf) in
   conversion.2 = stale /\
   (stale = false ->
    conversion.1.2 = cfiles /\
    exists d, conversion.1.1 = {| ConvertPhp.status := 200;
                                  ConvertPhp.body := ConvertPhp.Payload d |} /\
              Wire.c_cached d = Some true /\
              Wire.c_result d = Wire.c_result (Http.content cf) /\
              Wire.c_rate d = Wire.c_rate (Http.content cf))) /\
  (Str.php_empty from = false -> Str.php_empty to = false ->
   tfiles !! TimeseriesPhp.cacheFile md5 from' to'
               (TimeseriesPhp.clamp_days (default 30 days_arg)) = Some tf ->
   let stale := Expiry.stale (30 * Expiry.minute_s) now (Http.mtime tf) in
   series.2 = stale /\
   (stale = false ->
    series.1.2 = tfiles /\
    exists d, series.1.1 = {| TimeseriesPhp.status := 200;
                              TimeseriesPhp.body := TimeseriesPhp.Payload d |} /\
              Wire.t_cached d = Some true /\
              Wire.t_rates d = Wire.t_rates (Http.content tf))).
Proof.
  intros out symbols conversion series from' to'.
  split; [apply stale_spec|]. split; [|split; [|split; [|split]]].
  - intros Hk He stale. subst out stale.
    change (5 * Expiry.minute_ms) with Client.cacheTimeout.
    pose proof (cache_fresh_at k (Api.now env) api e He) as Hfresh.
    destruct (Expiry.stale _ _ _) eqn:Hs.
    + destruct (call_miss op k b env api Hk Hfresh) as [Hreq _].
      split; [done|]. split; [done|]. rewrite (issued_cons _ _ _ Hreq).
      apply stale_spec in Hs. done.
    + rewrite (call_hit op k b env api _ Hk Hfresh). split; [done|]. split; [done|].
      cbn [snd]. rewrite (issued_same api api eq_refl).
      split; [done|]. intros Hge. apply stale_spec in Hge. congruence.
  - subst out. destruct op as [|f t a|]; try discriminate. intros _. cbn [Api.call].
    apply convert_ignores_cache.
  - intros Hf stale. subst symbols stale.
    change (60 * Expiry.minute_s) with SymbolsPhp.cacheTime.
    unfold SymbolsPhp.symbols_php, SymbolsPhp.try_block.
    rewrite (cache_read_file _ _ _ _ _ Hf).
    unfold Http.cache_read. rewrite lookup_empty.
    destruct (Expiry.stale _ _ _); (split; [done|]); [|done].
    intros _. by destruct sup.
  - intros G Hm Hf stale. subst conversion stale.
    change (5 * Expiry.minute_s) with ConvertPhp.cacheTime.
    unfold ConvertPhp.convert_php.
    rewrite (try_block_guarded md5 strval floatval cfiles now written date_c cup from to
               amount G).
    cbv zeta. fold from' to'. rewrite (cache_read_file _ _ _ _ _ Hf).
    destruct (Expiry.stale _ _ _).
    + split; [|done]. destruct Hm as [-> | ->]; by destruct cup.
    + split; [by destruct Hm as [-> | ->]|]. intros _.
      destruct Hm as [-> | ->]; (split; [done|]); eexists; by cbn.
  - intros Ef Et Hf stale. subst series stale.
    change (30 * Expiry.minute_s) with TimeseriesPhp.cacheTime.
    unfold TimeseriesPhp.timeseries_php, TimeseriesPhp.try_block.
    rewrite Ef, Et. cbn [orb]. fold from' to'. rewrite (cache_read_file _ _ _ _ _ Hf).
    destruct (Expiry.stale _ _ _).
    + split; [|done]. by destruct tup.
    + split; [done|]. intros _. split; [done|]. eexists. by cbn.
Qed.

Lemma cache_entry_expiry_witness :
  let v := Client.VSymbols
             {| Wire.s_success := true; Wire.s_symbols := [];
                Wire.s_cached := false; Wire.s_timestamp := "t";
                Wire.s_fallback := None |} in
  let api := {| Client.cache := {[ "symbols" := {| Client.data := v; Client.timestamp := 0 |} ]};
                Client.requests := [] |} in
  let env := {| Api.now := 5 * Expiry.minute_ms; Api.later := 5 * Expiry.minute_ms;
                Api.isoDay := fun i => 100 - i; Api.iso := "t";
                Api.random := fun _ => Double.lit 5 10 |} in
  let series := {| Wire.t_from := "USD"; Wire.t_to := "EUR";
                   Wire.t_rates := [(100, Double.of_int 1)];
                   Wire.t_fallback := None; Wire.t_cached := Some false;
                   Wire.t_meta := None |} in
  let tfiles := Http.cache_write ∅ (TimeseriesPhp.cacheFile (fun s => s) "USD" "EUR" 7)
                  0 series in
  Client.requests (Api.call Api.OpSymbols None env api).2 = [Client.ReqSymbols] /\
  (TimeseriesPhp.timeseries_php (fun s => s) (fun x _ => x) tfiles (10 * Expiry.minute_s) 0
     100 "t" (fun _ => 0) TimeseriesPhp.FetchFailed Http.GET "USD" "EUR" (Some 7)).2
    = false.
Proof.
  intros v api env series tfiles.
  pose proof (cache_entry_expiry Api.OpSymbols "symbols" None env api
                {| Client.data := v; Client.timestamp := 0 |} ∅
                (fun s => s) (fun _ => "1") (fun _ => Double.of_int 1) (fun x _ => x)
                (fun _ _ => None)
                ∅ {| Http.content := {| Wire.s_success := true; Wire.s_symbols := [];
                                        Wire.s_cached := false; Wire.s_timestamp := "t";
                                        Wire.s_fallback := None |};
                     Http.mtime := 0 |} SymbolsPhp.FetchFailed
                ∅ {| Http.content :=
                       {| Wire.c_success := true; Wire.c_from := "USD"; Wire.c_to := "EUR";
                          Wire.c_amount := Wire.ANumber (Double.of_int 1);
                          Wire.c_result := Double.of_int 1;
                          Wire.c_rate := Double.of_int 1; Wire.c_date := "t";
                          Wire.c_cached := Some false; Wire.c_fallback := None |};
                     Http.mtime := 0 |} ConvertPhp.FetchFailed
                tfiles {| Http.content := series; Http.mtime := 0 |}
                TimeseriesPhp.FetchFailed
                (10 * Expiry.minute_s) 0 100 "t" (fun _ => 0) Http.GET
                "USD" "EUR" (Wire.AText "1") (Some 7)) as H.
  cbv zeta in H. destruct H as (_ & Hclient & _ & _ & _ & Hseries).
  split.
  - destruct (Hclient eq_refl eq_refl) as (_ & Hstale & _). apply Hstale. reflexivity.
  - destruct (Hseries eq_refl eq_refl eq_refl) as (Hfetched & _). exact Hfetched.
Defined.

(** C5 as stated fails on the time-to-live of two kinds.  On the client an
    entry of [getSymbols] is stale after ten minutes, far from one hour: the
    call sends its request.  On the server a file of [timeseries.php] is
    still served after ten minutes, twice the five minutes claimed: the
    provider is not contacted and the answer is the stored one. *)
Lemma cache_entry_expiry_counterexample :
  let v := Client.VSymbols
             {| Wire.s_success := true; Wire.s_symbols := [];
                Wire.s_cached := false; Wire.s_timestamp := "t";
                Wire.s_fallback := None |} in
  let api := {| Client.cache := {[ "symbols" := {| Client.data := v; Client.timestamp := 0 |} ]};
                Client.requests := [] |} in
  let series := {| Wire.t_from := "USD"; Wire.t_to := "EUR";
                   Wire.t_rates := [(100, Double.of_int 1)];
                   Wire.t_fallback := None; Wire.t_cached := Some false;
                   Wire.t_meta := None |} in
  let files := Http.cache_write ∅ (TimeseriesPhp.cacheFile (fun s => s) "USD" "EUR" 7)
                 0 series in
  let served := TimeseriesPhp.timeseries_php (fun s => s) (fun x _ => x) files
                  (10 * Expiry.minute_s) (10 * Expiry.minute_s) 100 "t" (fun _ => 0)
                  TimeseriesPhp.FetchFailed Http.GET "USD" "EUR" (Some 7) in
  Expiry.stale (60 * Expiry.minute_ms) (10 * Expiry.minute_ms) 0 = false /\
  Client.requests
    (Client.getSymbols (Some v) (10 * Expiry.minute_ms) (10 * Expiry.minute_ms) "t" api).2
    = [Client.ReqSymbols] /\
  Expiry.stale (5 * Expiry.minute_s) (10 * Expiry.minute_s) 0 = true /\
  served.2 = false /\
  exists d, served.1.1 = {| TimeseriesPhp.status := 200;
                            TimeseriesPhp.body := TimeseriesPhp.Payload d |} /\
            Wire.t_cached d = Some true /\ Wire.t_rates d = [(100, Double.of_int 1)].
Proof.
  intros v api series files served.
  split; [by vm_compute|]. split; [by vm_compute|]. split; [by vm_compute|].
  split; [by vm_compute|]. eexists. split; [by vm_compute|]. split; reflexivity.
Qed.

(** ** Normal form of currency codes *)

Section NormalisationFacts.
Import Str.

Lemma upper_ascii_idem (c : ascii) : upper_ascii (upper_ascii c) = upper_ascii c.
Proof. by destruct c as [[] [] [] [] [] [] [] []]. Qed.

Lemma is_blank_upper (c : ascii) : is_blank (upper_ascii c) = is_blank c.
Proof. by destruct c as [[] [] [] [] [] [] [] []]. Qed.

Lemma toUpperCase_idem (s : string) : toUpperCase (toUpperCase s) = toUpperCase s.
Proof. induction s as [|c s IH]; simpl; [done|]. by rewrite upper_ascii_idem, IH. Qed.

Lemma ltrim_upper (s : string) : ltrim (toUpperCase s) = toUpperCase (ltrim s).
Proof.
  induction s as [|c s IH]; simpl; [done|].
  rewrite is_blank_upper. by destruct (is_blank c).
Qed.

Lemma rtrim_upper (s : string) : rtrim (toUpperCase s) = toUpperCase (rtrim s).
Proof.
  induction s as [|c s IH]; simpl; [done|].
  rewrite IH, is_blank_upper. destruct (rtrim s); simpl; [|done].
  by destruct (is_blank c).
Qed.

Lemma trim_upper (s : string) : trim (toUpperCase s) = toUpperCase (trim s).
Proof. unfold trim. by rewrite rtrim_upper, ltrim_upper. Qed.

Lemma ltrim_idem (s : string) : ltrim (ltrim s) = ltrim s.
Proof.
  induction s as [|c s IH]; simpl; [done|].
  destruct (is_blank c) eqn:E; [done|]. simpl. by rewrite E.
Qed.

Lemma rtrim_idem (s : string) : rtrim (rtrim s) = rtrim s.
Proof.
  induction s as [|c s IH]; simpl; [done|].
  destruct (rtrim s) as [|c' r'] eqn:E.
  - destruct (is_blank c) eqn:B; [done|]. simpl. by rewrite B.
  - change (rtrim (String c (String c' r')) = String c (String c' r')).
    cbn [rtrim] in IH |- *. by rewrite IH.
Qed.

(** Stripping on the left keeps a string free of trailing blanks. *)
Lemma rtrim_ltrim_fixed (s : string) : rtrim s = s -> rtrim (ltrim s) = ltrim s.
Proof.
  induction s as [|c s IH]; [done|]. intros H.
  assert (Hs : is_blank c = true -> rtrim s = s).
  { intros B. simpl in H. rewrite B in H. destruct (rtrim s); [done|]. by injection H. }
  simpl. destruct (is_blank c) eqn:B; [apply IH; auto|exact H].
Qed.

Lemma trim_idem (s : string) : trim (trim s) = trim s.
Proof.
  unfold trim. rewrite (rtrim_ltrim_fixed (rtrim s) (rtrim_idem s)).
  apply ltrim_idem.
Qed.

(** [strtoupper(trim(...))] gives a fixed point of both functions. *)
Lemma normalised_fixed (s : string) :
  toUpperCase (toUpperCase (trim s)) = toUpperCase (trim s) /\
  trim (toUpperCase (trim s)) = toUpperCase (trim s).
Proof. split; [apply toUpperCase_idem|]. by rewrite trim_upper, trim_idem. Qed.

End NormalisationFacts.

(** ** What [history.php] accepts and keeps *)

Section HistoryRulesFacts.
Import HistoryPhp HistoryRules.

Lemma nonpositive_false_inv (x : Q) : Num.nonpositive x = false -> (0 < x)%Q.
Proof.
  unfold Num.nonpositive. intros H. apply Qnot_le_lt. intros Hle.
  apply Qle_bool_iff in Hle. congruence.
Qed.

(** An accepted body gives a well-formed record; any other body throws. *)
Lemma newRecord_acceptable (input : Input) (uniqid : string) (time : Z) (date_c : string) :
  if acceptable input
  then exists r, newRecord (Some input) uniqid time date_c = inr r /\ well_formed r
  else exists e, newRecord (Some input) uniqid time date_c = inl e.
Proof.
  unfold acceptable, newRecord.
  destruct (in_from input) as [f|]; [|eauto].
  destruct (in_to input) as [t|]; [|eauto].
  destruct (in_amount input) as [a|]; [|eauto].
  destruct (in_result input) as [r|]; [|eauto].
  destruct (in_rate input) as [k|]; [|eauto].
  destruct (Str.php_empty (Str.toUpperCase (Str.trim f))) eqn:Ef;
    cbn [negb andb orb]; [eauto|].
  destruct (Str.php_empty (Str.toUpperCase (Str.trim t))) eqn:Et;
    cbn [negb andb orb]; [eauto|].
  destruct (Num.nonpositive a) eqn:Ea; cbn [negb andb orb]; [eauto|].
  destruct (Num.nonpositive r) eqn:Er; cbn [negb andb orb]; [eauto|].
  destruct (Num.nonpositive k) eqn:Ek; cbn [negb andb orb]; [eauto|].
  eexists. split; [reflexivity|]. unfold well_formed. cbn.
  destruct (normalised_fixed f) as [Uf Tf]. destruct (normalised_fixed t) as [Ut Tt].
  repeat split; auto using nonpositive_false_inv.
Qed.

Lemma Forall_take_cons {A} (P : A -> Prop) (n : nat) (x : A) (l : list A) :
  P x -> Forall P l -> Forall P (take n (x :: l)).
Proof. intros Hx Hl. apply Forall_take. by constructor. Qed.

End HistoryRulesFacts.

(** X1.  A POST to [history.php] changes the data file exactly when the
    body is accepted (all five fields present, both codes non-empty after
    [strtoupper(trim())], amount, result and rate positive) and the file can
    be written: then the answer is 200 and the file holds the new record,
    well-formed, in front of the old ones, cut to 50.  Every other POST is
    answered 500 and leaves the file as it was. *)
Theorem history_post_effect
    (file : option (list HistoryPhp.HistoryRecord)) (body : option HistoryPhp.Input)
    (uniqid date_c : string) (time : Z) (disk_ok : bool) :
  let out := HistoryPhp.history_php file Http.POST body uniqid time date_c disk_ok in
  match body with
  | Some input =>
      if HistoryRules.acceptable input && disk_ok
      then exists r,
             HistoryRules.well_formed r /\
             HistoryPhp.newRecord body uniqid time date_c = inr r /\
             out = ({| HistoryPhp.status := 200;
                       HistoryPhp.body :=
                         HistoryPhp.Added r (length (take 50 (r :: HistoryPhp.load file))) date_c |},
                    Some (take 50 (r :: HistoryPhp.load file)))
      else HistoryPhp.status out.1 = 500 /\ out.2 = file
  | None =>
      out = ({| HistoryPhp.status := 500;
                HistoryPhp.body := HistoryPhp.Failure HistoryPhp.InvalidJson date_c |}, file)
  end.
Proof.
  intros out. subst out. destruct body as [input|]; [|done].
  unfold HistoryPhp.history_php, HistoryPhp.handlePostHistory.
  pose proof (newRecord_acceptable input uniqid time date_c) as H.
  destruct (HistoryRules.acceptable input).
  - destruct H as (r & Hr & Hwf). rewrite Hr. destruct disk_ok; cbn [andb]; [|done].
    exists r. rewrite push_take. done.
  - destruct H as (e & He). by rewrite He.
Qed.

(** X2.  Whatever the request, [history.php] keeps its data file within
    bounds: a file of at most 50 well-formed records stays one.  A file that
    was longer is cut to 50 by the first accepted POST. *)
Theorem history_file_invariant
    (file : option (list HistoryPhp.HistoryRecord)) (method : Http.Method)
    (body : option HistoryPhp.Input) (uniqid date_c : string) (time : Z)
    (disk_ok : bool) :
  let file' := (HistoryPhp.history_php file method body uniqid time date_c disk_ok).2 in
  (Forall HistoryRules.well_formed (HistoryPhp.load file) ->
   Forall HistoryRules.well_formed (HistoryPhp.load file')) /\
  ((length (HistoryPhp.load file) <= 50)%nat ->
   (length (HistoryPhp.load file') <= 50)%nat) /\
  (file' = file \/ (length (HistoryPhp.load file') <= 50)%nat).
Proof.
  intros file'. subst file'.
  destruct method; try (cbn; by auto).
  - pose proof (history_post_effect file body uniqid date_c time disk_ok) as H.
    cbv zeta in H. destruct body as [input|]; [|rewrite H; cbn; by auto].
    destruct (HistoryRules.acceptable input && disk_ok).
    + destruct H as (r & Hwf & _ & ->). cbn [snd HistoryPhp.load].
      assert (Hlen : (length (take 50 (r :: HistoryPhp.load file)) <= 50)%nat)
        by (rewrite length_take; lia).
      split; [|by auto]. intros Hall. by apply Forall_take_cons.
    + destruct H as [_ ->]. by auto.
  - unfold HistoryPhp.history_php, HistoryPhp.handleDeleteHistory.
    destruct file as [h|]; [destruct disk_ok|]; cbn; auto with lia.
Qed.

Lemma history_file_invariant_witness :
  let record :=
    {| HistoryPhp.id := "id"; HistoryPhp.from := "USD"; HistoryPhp.to := "EUR";
       HistoryPhp.amount := 100; HistoryPhp.result := 85;
       HistoryPhp.rate := 85 # 100; HistoryPhp.date := "d";
       HistoryPhp.timestamp := 1 |} in
  let input := {| HistoryPhp.in_from := Some " gbp"; HistoryPhp.in_to := Some "usd ";
                  HistoryPhp.in_amount := Some 10%Q;
                  HistoryPhp.in_result := Some (137 # 10)%Q;
                  HistoryPhp.in_rate := Some (137 # 100)%Q;
                  HistoryPhp.in_date := None |} in
  Forall HistoryRules.well_formed
    (HistoryPhp.load
       (HistoryPhp.history_php (Some [record]) Http.POST (Some input) "id2" 2 "d" true).2).
Proof.
  intros record input.
  destruct (history_file_invariant (Some [record]) Http.POST (Some input) "id2" "d" 2 true)
    as (Hwf & _).
  apply Hwf. repeat constructor.
Defined.

(** X3.  DELETE on [history.php] empties the log: when the data file is
    absent or can be unlinked the answer is 200, the file is gone, a GET
    that follows lists nothing, and a second DELETE succeeds again whatever
    the disk does.  When the file exists and cannot be unlinked the answer is
    500 and the file is untouched. *)
Theorem history_delete_clears
    (file : option (list HistoryPhp.HistoryRecord))
    (body body' : option HistoryPhp.Input) (uniqid date_c : string) (time : Z)
    (disk_ok disk_ok' : bool) :
  let out := HistoryPhp.history_php file Http.DELETE body uniqid time date_c disk_ok in
  (file = None \/ disk_ok = true ->
   out = ({| HistoryPhp.status := 200; HistoryPhp.body := HistoryPhp.Cleared date_c |}, None) /\
   HistoryPhp.history_php out.2 Http.GET body' uniqid time date_c disk_ok'
     = ({| HistoryPhp.status := 200;
           HistoryPhp.body := HistoryPhp.HistoryList [] 0 date_c |}, None) /\
   HistoryPhp.history_php out.2 Http.DELETE body' uniqid time date_c disk_ok' = out) /\
  (is_Some file -> disk_ok = false ->
   out = ({| HistoryPhp.status := 500;
             HistoryPhp.body := HistoryPhp.Failure HistoryPhp.UnlinkFailed date_c |}, file)).
Proof.
  intros out. subst out. unfold HistoryPhp.history_php, HistoryPhp.handleDeleteHistory.
  split.
  - intros [-> | ->]; [done|]. by destruct file.
  - intros [h ->] ->. done.
Qed.

Lemma history_delete_clears_witness :
  let record :=
    {| HistoryPhp.id := "id"; HistoryPhp.from := "USD"; HistoryPhp.to := "EUR";
       HistoryPhp.amount := 100; HistoryPhp.result := 85;
       HistoryPhp.rate := 85 # 100; HistoryPhp.date := "d";
       HistoryPhp.timestamp := 1 |} in
  let out := HistoryPhp.history_php (Some [record]) Http.DELETE None "u" 0 "d" true in
  HistoryPhp.history_php out.2 Http.GET None "u" 0 "d" false
    = ({| HistoryPhp.status := 200;
          HistoryPhp.body := HistoryPhp.HistoryList [] 0 "d" |}, None).
Proof.
  intros record out.
  destruct (history_delete_clears (Some [record]) None None "u" "d" 0 true false)
    as [H _].
  destruct H as (_ & Hget & _); [by right|]. exact Hget.
Defined.

(** ** The cache of the client module *)

Section ClientCacheShape.
Import Client Api.

(** The three ways a call can leave the instance. *)
Lemma call_shape op b env api :
  let api' := (call op b env api).2 in
  api' = api \/
  api' = issue (request_of op) api \/
  exists k v, key_of op = Some k /\ (call op b env api).1 = inr v /\
              api' = cache_set k v (later env) (issue (request_of op) api).
Proof.
  destruct op as [|from to amount|from to days]; cbn [call request_of key_of].
  - unfold getSymbols. destruct (cache_fresh _ _ _); [by left|].
    right; right. destruct b; cbn; eauto.
  - unfold convert. repeat case_match; cbn; auto.
  - unfold getTimeSeries. cbv zeta. destruct (cache_fresh _ _ _); [by left|].
    destruct b; [right; right; cbn; eauto|].
    repeat case_match; cbn; eauto 10.
Qed.

Lemma cache_fresh_other k k' v t now api :
  k' <> k -> cache_fresh k' now (cache_set k v t api) = cache_fresh k' now api.
Proof.
  intros Hne. unfold cache_fresh, cache_set. cbn [cache].
  by rewrite lookup_insert_ne.
Qed.

Lemma symbols_key_apart (from to : string) (days : Z) :
  timeseries_key from to days <> "symbols".
Proof. unfold timeseries_key. simpl. discriminate. Qed.

Lemma cache_fresh_entry k now api v :
  cache_fresh k now api = Some v ->
  exists e, cache api !! k = Some e /\ data e = v.
Proof.
  unfold cache_fresh. destruct (cache api !! k) as [e|]; [|done].
  destruct (_ <? _); [|done]. intros [= <-]. eauto.
Qed.

End ClientCacheShape.

(** X4.  [clearCache()] empties the cache and nothing else: the log of
    requests is kept, and the next call of a cached operation sends its
    request whatever the clock says. *)
Theorem clearCache_forces_request
    (op : Api.Operation) (k : string) (b : option Client.js_value) (env : Api.Env)
    (api : Client.CurrencyAPI) :
  Api.key_of op = Some k ->
  Client.requests (ClientOps.clearCache api) = Client.requests api /\
  Client.cache_fresh k (Api.now env) (ClientOps.clearCache api) = None /\
  Client.requests (Api.call op b env (ClientOps.clearCache api)).2
    = Api.request_of op :: Client.requests api.
Proof.
  intros Hk.
  assert (Hmiss : Client.cache_fresh k (Api.now env) (ClientOps.clearCache api) = None)
    by (unfold Client.cache_fresh, ClientOps.clearCache; cbn; by rewrite lookup_empty).
  split; [done|]. split; [done|].
  by destruct (call_miss op k b env (ClientOps.clearCache api) Hk Hmiss) as [-> _].
Qed.

Lemma clearCache_forces_request_witness :
  let v := Client.VSymbols
             {| Wire.s_success := true; Wire.s_symbols := [];
                Wire.s_cached := false; Wire.s_timestamp := "t";
                Wire.s_fallback := None |} in
  let api := {| Client.cache := {[ "symbols" := {| Client.data := v; Client.timestamp := 5 |} ]};
                Client.requests := [Client.ReqSymbols] |} in
  let env := {| Api.now := 6; Api.later := 7; Api.isoDay := fun i => 100 - i;
                Api.iso := "t"; Api.random := fun _ => Double.lit 5 10 |} in
  Client.requests (Api.call Api.OpSymbols (Some v) env (ClientOps.clearCache api)).2
    = [Client.ReqSymbols; Client.ReqSymbols].
Proof.
  intros v api env.
  destruct (clearCache_forces_request Api.OpSymbols "symbols" (Some v) env api eq_refl)
    as (_ & _ & H).
  exact H.
Defined.

(** X5.  A call of the client module sends at most one backend request and
    never drops one from the log; [convert] leaves the cache as it is. *)
Theorem call_sends_at_most_one_request
    (op : Api.Operation) (b : option Client.js_value) (env : Api.Env)
    (api : Client.CurrencyAPI) :
  let api' := (Api.call op b env api).2 in
  (Client.requests api' = Client.requests api \/
   Client.requests api' = Api.request_of op :: Client.requests api) /\
  (Api.key_of op = None -> Client.cache api' = Client.cache api).
Proof.
  intros api'. subst api'. split.
  - destruct (call_shape op b env api) as [-> | [-> | (k & v & _ & _ & ->)]]; auto.
  - destruct (call_shape op b env api) as [-> | [-> | (k & v & Hk & _ & _)]]; try done.
    intros Hnone. congruence.
Qed.

Lemma call_sends_at_most_one_request_witness :
  let api := {| Client.cache := ∅; Client.requests := [] |} in
  let env := {| Api.now := 6; Api.later := 7; Api.isoDay := fun i => 100 - i;
                Api.iso := "t"; Api.random := fun _ => Double.lit 5 10 |} in
  Client.cache (Api.call (Api.OpConvert "USD" "EUR" (Double.of_int 10)) None env api).2 = Client.cache api.
Proof.
  intros api env.
  destruct (call_sends_at_most_one_request (Api.OpConvert "USD" "EUR" (Double.of_int 10)) None env api)
    as [_ H].
  apply H. reflexivity.
Defined.

(** X6.  Cached operations do not disturb each other: a call changes no
    entry other than the one under its own key, and the key of
    [getSymbols] differs from every key of [getTimeSeries]. *)
Theorem cache_entries_are_independent
    (op : Api.Operation) (k k' : string) (b : option Client.js_value) (env : Api.Env)
    (api : Client.CurrencyAPI) (now' : Z) (from to : string) (days : option Z) :
  Api.key_of op = Some k -> k' <> k ->
  Client.cache (Api.call op b env api).2 !! k' = Client.cache api !! k' /\
  Client.cache_fresh k' now' (Api.call op b env api).2 = Client.cache_fresh k' now' api /\
  Api.key_of (Api.OpTimeSeries from to days) <> Api.key_of Api.OpSymbols.
Proof.
  intros Hk Hne.
  assert (Hlook : Client.cache (Api.call op b env api).2 !! k' = Client.cache api !! k').
  { destruct (call_shape op b env api) as [-> | [-> | (k0 & v & Hk0 & _ & ->)]]; try done.
    assert (k0 = k) as -> by congruence. cbn. by rewrite lookup_insert_ne. }
  split; [done|]. split.
  - unfold Client.cache_fresh. by rewrite Hlook.
  - intros H. apply (symbols_key_apart from to (default Client.default_days days)).
    cbn in H. by simplify_eq.
Qed.

Lemma cache_entries_are_independent_witness :
  let api := {| Client.cache := ∅; Client.requests := [] |} in
  let env := {| Api.now := 6; Api.later := 7; Api.isoDay := fun i => 100 - i;
                Api.iso := "t"; Api.random := fun _ => Double.lit 5 10 |} in
  Client.cache (Api.call (Api.OpTimeSeries "USD" "EUR" (Some 7)) None env api).2 !! "symbols"
    = Client.cache api !! "symbols".
Proof.
  intros api env.
  destruct (cache_entries_are_independent (Api.OpTimeSeries "USD" "EUR" (Some 7))
              (Client.timeseries_key "USD" "EUR" 7) "symbols" None env api 0
              "USD" "EUR" None eq_refl) as (H & _).
  - by vm_compute.
  - exact H.
Defined.

(** X7.  What a cached operation returns is what the cache holds under its
    key afterwards, be it a live answer or the fallback. *)
Theorem returned_value_is_cached
    (op : Api.Operation) (k : string) (b : option Client.js_value) (env : Api.Env)
    (api : Client.CurrencyAPI) (v : Client.js_value) :
  Api.key_of op = Some k -> (Api.call op b env api).1 = inr v ->
  exists e, Client.cache (Api.call op b env api).2 !! k = Some e /\ Client.data e = v.
Proof.
  intros Hk Hv.
  destruct (Client.cache_fresh k (Api.now env) api) as [v0|] eqn:Hc.
  - rewrite (call_hit op k b env api v0 Hk Hc) in *. cbn in *.
    injection Hv as <-. by apply cache_fresh_entry in Hc.
  - destruct (call_miss op k b env api Hk Hc) as [_ Hset].
    rewrite (Hset v Hv). cbn. rewrite lookup_insert_eq. eauto.
Qed.

Lemma returned_value_is_cached_witness :
  let api := {| Client.cache := ∅; Client.requests := [] |} in
  let env := {| Api.now := 6; Api.later := 7; Api.isoDay := fun i => 100 - i;
                Api.iso := "t"; Api.random := fun _ => Double.lit 5 10 |} in
  exists e v,
    (Api.call Api.OpSymbols None env api).1 = inr v /\
    Client.cache (Api.call Api.OpSymbols None env api).2 !! "symbols" = Some e /\
    Client.data e = v.
Proof.
  intros api env.
  destruct (returned_value_is_cached Api.OpSymbols "symbols" None env api
              (Client.VSymbols
                 {| Wire.s_success := true; Wire.s_symbols := Table.fallbackSymbols;
                    Wire.s_cached := false; Wire.s_timestamp := "t";
                    Wire.s_fallback := Some true |}) eq_refl eq_refl) as (e & He & Hd).
  exists e. eexists. split; [reflexivity|]. split; [exact He|exact Hd].
Defined.

(** ** More on [convert.php] *)

Section ConvertMoreFacts.
Import Double Wire Http Table.
Variable md5 : string -> string.
Variable strval : number -> string.
Variable floatval : string -> number.

(** A request and its normalised form run the same [try] block, provided
    neither form is rejected as empty. *)
Lemma try_block_normalised files now written date_c upstream (from to : string)
    (amount : Amount) :
  Str.php_empty from = false -> Str.php_empty to = false ->
  Str.php_empty (Str.toUpperCase (Str.trim from)) = false ->
  Str.php_empty (Str.toUpperCase (Str.trim to)) = false ->
  ConvertPhp.try_block md5 strval floatval files now written date_c upstream from to amount
  = match ConvertPhp.try_block md5 strval floatval files now written date_c upstream
            (Str.toUpperCase (Str.trim from)) (Str.toUpperCase (Str.trim to)) amount with
    | ConvertPhp.Thrown ConvertPhp.MissingParams _ _ a fetched =>
        ConvertPhp.Thrown ConvertPhp.MissingParams from to a fetched
    | other => other
    end.
Proof.
  intros Ef Et Ef' Et'. unfold ConvertPhp.try_block.
  destruct (normalised_fixed from) as [Uf Tf]. destruct (normalised_fixed to) as [Ut Tt].
  rewrite Ef, Et, Ef', Et', Tf, Tt, Uf, Ut. cbn [orb].
  destruct (ConvertPhp.empty_amount amount); [done|].
  destruct (nonpositive _); [done|].
  destruct (bool_decide _); [done|].
  destruct (cache_read _ _ _ _); [done|]. by destruct upstream.
Qed.

End ConvertMoreFacts.

(** X11.  An answer of the rate provider stored by [convert.php] is handed
    out unchanged while its file is fresh: the second request on the same
    parameters gets the codes, amount, result, rate and date of the first
    answer (not a new date), with [cached] switched to true. *)
Theorem convert_php_serves_stored_answer
    (md5 : string -> string) (strval : Double.number -> string)
    (floatval : string -> Double.number)
    (round : Double.number -> Z -> Double.number)
    (times : string -> Double.number -> option Double.number)
    (files : gmap string (Http.CacheFile Wire.ConvertData))
    (now1 written1 now2 written2 : Z) (date1 date2 : string)
    (a b : string) (c : Wire.Amount) (res rate : Double.number)
    (up2 : ConvertPhp.upstream_reply)
    (m1 m2 : Http.Method) (from to : string) (amount : Wire.Amount) :
  let served1 := ConvertPhp.convert_php md5 strval floatval round times files now1 written1
                   date1 (ConvertPhp.ApiOk a b c res rate) m1 from to amount in
  let served2 := ConvertPhp.convert_php md5 strval floatval round times served1.1.2 now2
                   written2 date2 up2 m2 from to amount in
  served1.2 = true -> m2 = Http.GET \/ m2 = Http.POST ->
  now2 - written1 < ConvertPhp.cacheTime ->
  let answer cached :=
    {| ConvertPhp.status := 200;
       ConvertPhp.body := ConvertPhp.Payload
         {| Wire.c_success := true; Wire.c_from := a; Wire.c_to := b;
            Wire.c_amount := c; Wire.c_result := res; Wire.c_rate := rate;
            Wire.c_date := date1; Wire.c_cached := Some cached;
            Wire.c_fallback := None |} |} in
  served1.1.1 = answer false /\ served2.1.1 = answer true.
Proof.
  intros served1 served2 Hfetched Hm2 Hlt answer. subst served1 served2 answer.
  destruct (fetched_passes_guards md5 strval floatval _ _ _ _ _ _ _ _ _ _ _ Hfetched)
    as (G & Hm1 & Hmiss).
  unfold ConvertPhp.convert_php.
  rewrite (try_block_guarded md5 strval floatval files now1 written1 date1 _ from to amount G).
  cbv zeta. rewrite Hmiss.
  destruct Hm1 as [-> | ->]; cbn [fst snd];
    rewrite (try_block_guarded md5 strval floatval _ now2 written2 date2 up2 from to amount G);
    cbv zeta; rewrite cache_read_write, (proj2 (Z.ltb_lt _ _) Hlt);
    by destruct Hm2 as [-> | ->].
Qed.

Lemma convert_php_serves_stored_answer_witness :
  let php := ConvertPhp.convert_php (fun s => s) (fun _ => "100")
               (fun _ => Double.of_int 100) (fun x _ => x) (fun _ _ => None) in
  let served1 := php ∅ 0 2 "first"
                   (ConvertPhp.ApiOk "USD" "EUR" (Wire.ANumber (Double.of_int 100))
                      (Double.of_int 92) (Double.lit 92 100))
                   Http.GET "usd" "eur" (Wire.AText "100") in
  (php served1.1.2 200 201 "second" ConvertPhp.FetchFailed Http.GET "usd" "eur"
     (Wire.AText "100")).1.1
  = {| ConvertPhp.status := 200;
       ConvertPhp.body := ConvertPhp.Payload
         {| Wire.c_success := true; Wire.c_from := "USD"; Wire.c_to := "EUR";
            Wire.c_amount := Wire.ANumber (Double.of_int 100);
            Wire.c_result := Double.of_int 92; Wire.c_rate := Double.lit 92 100;
            Wire.c_date := "first"; Wire.c_cached := Some true;
            Wire.c_fallback := None |} |}.
Proof.
  intros php served1.
  pose proof (convert_php_serves_stored_answer (fun s => s) (fun _ => "100")
                (fun _ => Double.of_int 100) (fun x _ => x) (fun _ _ => None) ∅
                0 2 200 201 "first" "second" "USD" "EUR"
                (Wire.ANumber (Double.of_int 100)) (Double.of_int 92) (Double.lit 92 100)
                ConvertPhp.FetchFailed Http.GET Http.GET "usd" "eur" (Wire.AText "100"))
    as H.
  cbv zeta in H. destruct H as [_ H]; [reflexivity | by left | by vm_compute | exact H].
Defined.



(** X13.  [convert.php] reads its codes through [strtoupper(trim())]: with
    an amount that [empty] lets through, a request whose codes are written
    in lower case or padded with blanks gets the answer, the cache effect
    and the provider contact of the request with the codes in normal
    form. *)
Theorem convert_php_ignores_case_and_padding
    (md5 : string -> string) (strval : Double.number -> string)
    (floatval : string -> Double.number)
    (round : Double.number -> Z -> Double.number)
    (times : string -> Double.number -> option Double.number)
    (files : gmap string (Http.CacheFile Wire.ConvertData)) (now written : Z)
    (date_c : string) (upstream : ConvertPhp.upstream_reply) (method : Http.Method)
    (from to : string) (amount : Wire.Amount) :
  Str.php_empty from = false -> Str.php_empty to = false ->
  Str.php_empty (Str.toUpperCase (Str.trim from)) = false ->
  Str.php_empty (Str.toUpperCase (Str.trim to)) = false ->
  ConvertPhp.empty_amount amount = false ->
  ConvertPhp.convert_php md5 strval floatval round times files now written date_c upstream
    method from to amount
  = ConvertPhp.convert_php md5 strval floatval round times files now written date_c upstream
      method (Str.toUpperCase (Str.trim from)) (Str.toUpperCase (Str.trim to)) amount.
Proof.
  intros Ef Et Ef' Et' Ea. unfold ConvertPhp.convert_php.
  rewrite (try_block_normalised md5 strval floatval files now written date_c upstream
             from to amount Ef Et Ef' Et').
  destruct (ConvertPhp.try_block md5 strval floatval files now written date_c upstream
              (Str.toUpperCase (Str.trim from)) (Str.toUpperCase (Str.trim to)) amount)
    as [r files' fetched|e from' to' amount' fetched] eqn:Htry; [done|].
  destruct e; try done.
  exfalso. revert Htry. unfold ConvertPhp.try_block. rewrite Ef', Et', Ea. cbn [orb].
  repeat (case_match; try discriminate).
Qed.

Lemma convert_php_ignores_case_and_padding_witness :
  let php := ConvertPhp.convert_php (fun s => s) (fun _ => "3")
               (fun _ => Double.of_int 3) (fun x _ => x) (fun _ _ => None) in
  php ∅ 0 0 "t" ConvertPhp.FetchFailed Http.GET " usd" "eur " (Wire.AText "3")
  = php ∅ 0 0 "t" ConvertPhp.FetchFailed Http.GET "USD" "EUR" (Wire.AText "3").
Proof.
  apply (convert_php_ignores_case_and_padding (fun s => s) (fun _ => "3")
           (fun _ => Double.of_int 3) (fun x _ => x) (fun _ _ => None) ∅ 0 0 "t"
           ConvertPhp.FetchFailed Http.GET " usd" "eur " (Wire.AText "3")); reflexivity.
Defined.
(** ** More on [timeseries.php] *)

(** X14.  The live series of [timeseries.php] holds nothing the provider
    did not send: every dated rate collected is the rate of the target code
    on a date of the provider's reply, no date occurs twice, and there are
    at most as many entries as dates in the reply. *)
Theorem collect_rates_sound
    (to : string) (data : list (Z * list (string * Double.number))) :
  let rates := TimeseriesPhp.collect_rates to data [] in
  NoDup rates.*1 /\
  (forall date v, (date, v) ∈ rates ->
     exists dayRates, (date, dayRates) ∈ data /\ Table.assoc to dayRates = Some v) /\
  (length rates <= length data)%nat.
Proof.
  intros rates. subst rates.
  destruct (collect_rates_spec to data []) as (H1 & H2 & H3). cbn in H3.
  split; [apply H1; constructor|]. split; [|done].
  intros date v Hin. destruct (H2 date v Hin) as [[]%not_elem_of_nil|]; done.
Qed.

Lemma collect_rates_sound_witness :
  exists dayRates,
    (99, dayRates) ∈ [(98, [("GBP", Double.lit 8 10)]); (99, [("EUR", Double.lit 9 10)])] /\
    Table.assoc "EUR" dayRates = Some (Double.lit 9 10).
Proof.
  destruct (collect_rates_sound "EUR"
              [(98, [("GBP", Double.lit 8 10)]); (99, [("EUR", Double.lit 9 10)])])
    as (_ & H & _).
  apply H. vm_compute. apply list_elem_of_here.
Defined.

Section SeriesEndpointFacts.
Import Wire Http.
Variable md5 : string -> string.
Variable round : Double.number -> Z -> Double.number.

Lemma clamp_days_idem (days : Z) :
  TimeseriesPhp.clamp_days (TimeseriesPhp.clamp_days days) = TimeseriesPhp.clamp_days days.
Proof. unfold TimeseriesPhp.clamp_days. lia. Qed.

(** The [try] block of [timeseries.php] once both codes are present. *)
Lemma series_try_block_present files now written today date_c mt_rand upstream
    (from to : string) days_arg :
  Str.php_empty from = false -> Str.php_empty to = false ->
  let from' := Str.toUpperCase (Str.trim from) in
  let to' := Str.toUpperCase (Str.trim to) in
  let days := TimeseriesPhp.clamp_days (default 30 days_arg) in
  TimeseriesPhp.try_block md5 round files now written today date_c mt_rand upstream
    from to days_arg
  = match cache_read files (TimeseriesPhp.cacheFile md5 from' to' days) now
            TimeseriesPhp.cacheTime with
    | Some cached =>
        inr ({| TimeseriesPhp.status := 200;
                TimeseriesPhp.body := TimeseriesPhp.Payload
                  {| t_from := t_from cached; t_to := t_to cached;
                     t_rates := t_rates cached; t_fallback := t_fallback cached;
                     t_cached := Some true; t_meta := t_meta cached |} |}, files, false)
    | None =>
        match upstream with
        | TimeseriesPhp.FetchFailed => inl (TimeseriesPhp.UpstreamFetch, true)
        | TimeseriesPhp.BadJson => inl (TimeseriesPhp.UpstreamJson, true)
        | TimeseriesPhp.ApiError => inl (TimeseriesPhp.UpstreamError, true)
        | TimeseriesPhp.ApiOk upstream_rates =>
            let rates := TimeseriesPhp.collect_rates to' (default [] upstream_rates) [] in
            let rates := match rates with
                         | [] => TimeseriesPhp.generateMockData round today mt_rand days
                         | _ => rates
                         end in
            let result :=
              {| t_from := from'; t_to := to'; t_rates := rates;
                 t_fallback := None; t_cached := Some false;
                 t_meta := Some {| m_success := true; m_start_date := today - days;
                                   m_end_date := today; m_days := days;
                                   m_count := length rates;
                                   m_timestamp := date_c |} |} in
            inr ({| TimeseriesPhp.status := 200;
                    TimeseriesPhp.body := TimeseriesPhp.Payload result |},
                 cache_write files (TimeseriesPhp.cacheFile md5 from' to' days)
                   written result, true)
        end
    end.
Proof.
  intros Ef Et. unfold TimeseriesPhp.try_block. by rewrite Ef, Et.
Qed.

Lemma series_try_block_missing files now written today date_c mt_rand upstream
    (from to : string) days_arg :
  Str.php_empty from || Str.php_empty to = true ->
  TimeseriesPhp.try_block md5 round files now written today date_c mt_rand upstream
    from to days_arg = inl (TimeseriesPhp.MissingParams, false).
Proof. intros E. unfold TimeseriesPhp.try_block. by rewrite E. Qed.

End SeriesEndpointFacts.

(** X15.  [timeseries.php] has no fallback of its own.  When the rate
    provider fails, no request changes the cache, and a request that went as
    far as the provider is answered with status 400; synthesized data is
    served only after a successful reply of the provider. *)
Theorem timeseries_php_has_no_fallback
    (md5 : string -> string) (round : Double.number -> Z -> Double.number)
    (files : gmap string (Http.CacheFile Wire.SeriesData)) (now written today : Z)
    (date_c : string) (mt_rand : Z -> Z) (upstream : TimeseriesPhp.upstream_reply)
    (method : Http.Method) (from to : string) (days_arg : option Z) :
  (forall rates, upstream <> TimeseriesPhp.ApiOk rates) ->
  let out := TimeseriesPhp.timeseries_php md5 round files now written today date_c mt_rand
               upstream method from to days_arg in
  out.1.2 = files /\
  (out.2 = true ->
   exists e, out.1.1 = {| TimeseriesPhp.status := 400;
                          TimeseriesPhp.body := TimeseriesPhp.Failure e date_c |}).
Proof.
  intros Hup out. subst out. unfold TimeseriesPhp.timeseries_php.
  destruct method; try done.
  destruct (Str.php_empty from || Str.php_empty to) eqn:E.
  - by rewrite (series_try_block_missing md5 round _ _ _ _ _ _ _ _ _ _ E).
  - apply orb_false_elim in E as [Ef Et].
    rewrite (series_try_block_present md5 round _ _ _ _ _ _ _ _ _ _ Ef Et). cbv zeta.
    destruct (Http.cache_read _ _ _ _); [done|].
    destruct upstream; cbn; eauto. by edestruct Hup.
Qed.

Lemma timeseries_php_has_no_fallback_witness :
  TimeseriesPhp.timeseries_php (fun s => s) (fun x _ => x) ∅ 0 0 100 "t" (fun _ => 0)
    TimeseriesPhp.FetchFailed Http.GET "USD" "EUR" (Some 7)
  = ({| TimeseriesPhp.status := 400;
        TimeseriesPhp.body := TimeseriesPhp.Failure TimeseriesPhp.UpstreamFetch "t" |},
     ∅, true).
Proof.
  pose proof (timeseries_php_has_no_fallback (fun s => s) (fun x _ => x) ∅ 0 0 100 "t" (fun _ => 0)
                TimeseriesPhp.FetchFailed Http.GET "USD" "EUR" (Some 7)) as H.
  destruct H as [_ H]; [discriminate|]. destruct (H eq_refl) as [e He].
  reflexivity.
Defined.

(** X16.  [timeseries.php] looks at its parameters only through
    [strtoupper(trim())] and the clamp of [days]: a request with codes in
    lower case or padded with blanks, with [days] missing (30) or outside
    [1, 365], gets the answer, the cache file and the provider contact of the
    request in normal form. *)
Theorem timeseries_php_normalises_parameters
    (md5 : string -> string) (round : Double.number -> Z -> Double.number)
    (files : gmap string (Http.CacheFile Wire.SeriesData)) (now written today : Z)
    (date_c : string) (mt_rand : Z -> Z) (upstream : TimeseriesPhp.upstream_reply)
    (method : Http.Method) (from to : string) (days_arg : option Z) :
  Str.php_empty from = false -> Str.php_empty to = false ->
  Str.php_empty (Str.toUpperCase (Str.trim from)) = false ->
  Str.php_empty (Str.toUpperCase (Str.trim to)) = false ->
  TimeseriesPhp.timeseries_php md5 round files now written today date_c mt_rand upstream
    method from to days_arg
  = TimeseriesPhp.timeseries_php md5 round files now written today date_c mt_rand upstream
      method (Str.toUpperCase (Str.trim from)) (Str.toUpperCase (Str.trim to))
      (Some (TimeseriesPhp.clamp_days (default 30 days_arg))).
Proof.
  intros Ef Et Ef' Et'. unfold TimeseriesPhp.timeseries_php.
  rewrite (series_try_block_present md5 round _ _ _ _ _ _ _ from to days_arg Ef Et).
  rewrite (series_try_block_present md5 round _ _ _ _ _ _ _ _ _ _ Ef' Et'). cbv zeta.
  destruct (normalised_fixed from) as [Uf Tf]. destruct (normalised_fixed to) as [Ut Tt].
  change (default 30 (Some (TimeseriesPhp.clamp_days (default 30 days_arg))))
    with (TimeseriesPhp.clamp_days (default 30 days_arg)).
  by rewrite Tf, Tt, Uf, Ut, clamp_days_idem.
Qed.

Lemma timeseries_php_normalises_parameters_witness :
  TimeseriesPhp.timeseries_php (fun s => s) (fun x _ => x) ∅ 0 0 100 "t" (fun _ => 0)
    (TimeseriesPhp.ApiOk None) Http.GET " usd" "eur" (Some 4000)
  = TimeseriesPhp.timeseries_php (fun s => s) (fun x _ => x) ∅ 0 0 100 "t" (fun _ => 0)
      (TimeseriesPhp.ApiOk None) Http.GET "USD" "EUR" (Some 365).
Proof.
  apply (timeseries_php_normalises_parameters (fun s => s) (fun x _ => x) ∅ 0 0 100 "t" (fun _ => 0)
           (TimeseriesPhp.ApiOk None) Http.GET " usd" "eur" (Some 4000)); reflexivity.
Defined.

(** X17.  A series computed by [timeseries.php] is served again from its
    cache file while the file is less than 1800 seconds old: the second
    request on the same parameters gets the same codes, rates and window
    with [cached] switched to true, without contacting the provider and
    without touching the cache. *)
Theorem timeseries_php_serves_stored_series
    (md5 : string -> string) (round : Double.number -> Z -> Double.number)
    (files : gmap string (Http.CacheFile Wire.SeriesData))
    (now1 written1 today1 now2 written2 today2 : Z) (date1 date2 : string)
    (mt_rand1 mt_rand2 : Z -> Z) (up1 up2 : TimeseriesPhp.upstream_reply)
    (from to : string) (days_arg : option Z) :
  let served1 := TimeseriesPhp.timeseries_php md5 round files now1 written1 today1 date1
                   mt_rand1 up1 Http.GET from to days_arg in
  let served2 := TimeseriesPhp.timeseries_php md5 round served1.1.2 now2 written2 today2 date2
                   mt_rand2 up2 Http.GET from to days_arg in
  forall d,
  served1.1.1 = {| TimeseriesPhp.status := 200;
                   TimeseriesPhp.body := TimeseriesPhp.Payload d |} ->
  served1.2 = true ->
  now2 - written1 < TimeseriesPhp.cacheTime ->
  served2 = ({| TimeseriesPhp.status := 200;
                TimeseriesPhp.body := TimeseriesPhp.Payload
                  {| Wire.t_from := Wire.t_from d; Wire.t_to := Wire.t_to d;
                     Wire.t_rates := Wire.t_rates d;
                     Wire.t_fallback := Wire.t_fallback d;
                     Wire.t_cached := Some true; Wire.t_meta := Wire.t_meta d |} |},
             served1.1.2, false).
Proof.
  intros served1 served2 d Hd Hfetched Hlt. subst served1 served2.
  unfold TimeseriesPhp.timeseries_php in *.
  destruct (Str.php_empty from || Str.php_empty to) eqn:E.
  - rewrite (series_try_block_missing md5 round _ _ _ _ _ _ _ _ _ _ E) in Hfetched. done.
  - apply orb_false_elim in E as [Ef Et].
    rewrite (series_try_block_present md5 round files _ _ _ _ _ _ _ _ _ Ef Et) in *.
    cbv zeta in *.
    destruct (Http.cache_read files _ now1 _) eqn:Hread; [done|].
    destruct up1 as [| | |rates]; try done. cbn [fst snd] in *.
    rewrite (series_try_block_present md5 round _ _ _ _ _ _ _ _ _ _ Ef Et). cbv zeta.
    rewrite cache_read_write, (proj2 (Z.ltb_lt _ _) Hlt).
    injection Hd as <-. reflexivity.
Qed.

Lemma timeseries_php_serves_stored_series_witness :
  let served1 := TimeseriesPhp.timeseries_php (fun s => s) (fun x _ => x) ∅ 0 1 100 "first" (fun _ => 0)
                   (TimeseriesPhp.ApiOk (Some [(99, [("EUR", Double.lit 9 10)])]))
                   Http.GET "USD" "EUR" (Some 7) in
  (TimeseriesPhp.timeseries_php (fun s => s) (fun x _ => x) served1.1.2 1000 1001 101 "second"
     (fun _ => 0) TimeseriesPhp.FetchFailed Http.GET "USD" "EUR" (Some 7)).2 = false.
Proof.
  cbv zeta.
  pose proof (timeseries_php_serves_stored_series (fun s => s) (fun x _ => x) ∅ 0 1 100 1000 1001 101
                "first" "second" (fun _ => 0) (fun _ => 0)
                (TimeseriesPhp.ApiOk (Some [(99, [("EUR", Double.lit 9 10)])]))
                TimeseriesPhp.FetchFailed "USD" "EUR" (Some 7)) as H.
  cbv zeta in H. erewrite H; [reflexivity | reflexivity | reflexivity | by vm_compute].
Defined.

(** ** The chart drawn from a series *)

Section SeriesOrderFacts.
Import Wire.

Lemma obj_get_elem (k : Z) (o : list (Z * Double.number)) :
  k ∈ o.*1 -> exists v, ChartPage.obj_get k o = Some v /\ (k, v) ∈ o.
Proof.
  induction o as [|[k' v'] o IH]; cbn [ChartPage.obj_get].
  - intros H. by apply not_elem_of_nil in H.
  - rewrite fmap_cons. cbn [fst]. destruct (bool_decide (k = k')) eqn:E.
    + apply bool_decide_eq_true_1 in E. subst. intros _. eexists. split; [done|].
      apply list_elem_of_here.
    + apply bool_decide_eq_false_1 in E.
      intros [? | Hin]%elem_of_cons; [done|].
      destruct (IH Hin) as (v & Hv & Hel). exists v. split; [done|].
      by apply list_elem_of_further.
Qed.

Lemma merge_sort_ascending (l : list Z) : ascending l -> merge_sort Z.le l = l.
Proof.
  intros H.
  assert (Hs : StronglySorted Z.le l).
  { induction l as [|x l IH]; [constructor|].
    destruct l as [|y l]; [repeat constructor|].
    destruct H as [Hxy Hrest]. specialize (IH Hrest).
    constructor; [done|]. constructor; [lia|].
    apply StronglySorted_inv in IH as [_ IH].
    eapply Forall_impl; [exact IH|]. simpl. intros. lia. }
  apply (StronglySorted_unique Z.le).
  - apply StronglySorted_merge_sort; apply _.
  - done.
  - apply merge_sort_Permutation.
Qed.

End SeriesOrderFacts.

Section ChartFacts.

Lemma ascending_bounds (k : Z) (l : list Z) :
  Wire.ascending (k :: l) -> Forall (fun k' => k < k') l.
Proof.
  revert k. induction l as [|y l IH]; intros k [Hk Hrest]; constructor; [done|].
  eapply Forall_impl; [by apply IH|]. simpl. intros. lia.
Qed.

Lemma values_of_ascending (rates : list (Z * Double.number)) :
  Wire.ascending rates.*1 ->
  (fun date => ChartPage.obj_get date rates) <$> rates.*1 = Some <$> rates.*2.
Proof.
  induction rates as [|[k v] rates IH]; [done|].
  rewrite !fmap_cons. cbn [fst snd]. intros Hasc.
  cbn [ChartPage.obj_get]. rewrite bool_decide_eq_true_2 by done. f_equal.
  rewrite <- IH by apply Hasc. apply Forall_fmap_ext.
  eapply Forall_impl; [by apply ascending_bounds|]. simpl. intros k' Hk'.
  cbn [ChartPage.obj_get]. rewrite bool_decide_eq_false_2 by lia. done.
Qed.

End ChartFacts.

(** X19.  The chart plots the series it is given and nothing else
    ([updateChart] of [main.js], [loadChartData] of [Chart.jsx]): its labels
    are the dates of the series in ascending order, and every point is the
    rate the series holds for its label, never [undefined].  For a series
    whose dates already ascend, as the synthesized ones do, labels and points
    are the dates and rates of the series as they stand. *)
Theorem chart_points_follow_the_series (rates : list (Z * Double.number)) :
  Sorted Z.le (ChartPage.labels rates) /\
  ChartPage.labels rates ≡ₚ rates.*1 /\
  Forall2 (fun date point => exists v, point = Some v /\ (date, v) ∈ rates)
    (ChartPage.labels rates) (ChartPage.values rates) /\
  (Wire.ascending rates.*1 ->
   ChartPage.labels rates = rates.*1 /\ ChartPage.values rates = Some <$> rates.*2).
Proof.
  assert (Hperm : ChartPage.labels rates ≡ₚ rates.*1) by apply merge_sort_Permutation.
  split; [apply Sorted_merge_sort; apply _|]. split; [done|]. split.
  - unfold ChartPage.values. apply Forall2_fmap_r, Forall_Forall2_diag, Forall_forall.
    intros date Hdate. rewrite Hperm in Hdate.
    destruct (obj_get_elem date rates Hdate) as (v & Hv & Hel). eauto.
  - intros Hasc. unfold ChartPage.values, ChartPage.labels.
    rewrite merge_sort_ascending by done. split; [done|]. by apply values_of_ascending.
Qed.

Lemma chart_points_follow_the_series_witness :
  ChartPage.values [(98, Double.lit 9 10); (99, Double.lit 91 100); (100, Double.lit 92 100)]
  = [Some (Double.lit 9 10); Some (Double.lit 91 100); Some (Double.lit 92 100)].
Proof.
  destruct (chart_points_follow_the_series
              [(98, Double.lit 9 10); (99, Double.lit 91 100); (100, Double.lit 92 100)])
    as (_ & _ & _ & H).
  apply H. cbn. lia.
Defined.

(** ** What the offline client offers, and what the form sends *)

Section OfflineFacts.
Import Wire.

Lemma assoc_of_key {A} (k : string) (l : list (string * A)) :
  k ∈ l.*1 -> is_Some (Table.assoc k l).
Proof.
  induction l as [|[k' v'] l IH]; simpl.
  - intros H. by apply not_elem_of_nil in H.
  - case_bool_decide as E; [by eexists|].
    intros [? | Hin]%elem_of_cons; [done|]. by apply IH.
Qed.

Lemma symbol_keys_are_rate_keys : Table.fallbackSymbols.*1 = Table.fallbackRates.*1.
Proof. reflexivity. Qed.

Lemma client_series_fallback_ok (api : Client.CurrencyAPI) now later isoDay random
    (from to : string) days_arg (rf rt : Double.number) :
  Table.assoc (Str.toUpperCase from) Table.fallbackRates = Some rf ->
  Table.assoc (Str.toUpperCase to) Table.fallbackRates = Some rt ->
  exists v, (Client.getTimeSeries None now later isoDay random from to days_arg api).1
            = inr v.
Proof.
  intros Hrf Hrt. unfold Client.getTimeSeries. cbv zeta.
  destruct (Client.cache_fresh _ now api); [by eexists|].
  rewrite Hrf, Hrt, (rates_truthy _ _ Hrf), (rates_truthy _ _ Hrt). by eexists.
Qed.

End OfflineFacts.

(** X20.  Offline, the client offers only what it can serve.  When the
    backend is down, every pair of codes of the list [getSymbols] falls back
    to converts, for every positive amount, and has a series: neither
    [convert] nor [getTimeSeries] throws for them. *)
Theorem offline_offer_is_served
    (api : Client.CurrencyAPI) (now later : Z) (iso : string) :
  Client.cache_fresh "symbols" now api = None ->
  exists s,
    (Client.getSymbols None now later iso api).1 = inr (Client.VSymbols s) /\
    Wire.s_fallback s = Some true /\
    forall (from to : string) (amount : Double.number) (api' : Client.CurrencyAPI)
           (iso' : string) (now' later' : Z) (isoDay : Z -> Z)
           (random : Z -> Double.number) (days_arg : option Z),
      from ∈ (Wire.s_symbols s).*1 -> to ∈ (Wire.s_symbols s).*1 ->
      Double.above_zero amount ->
      (exists c, (Client.convert None iso' from to amount api').1
                 = inr (Client.VConvert c) /\
                 Wire.c_from c = from /\ Wire.c_to c = to) /\
      (exists v, (Client.getTimeSeries None now' later' isoDay random from to
                    days_arg api').1 = inr v).
Proof.
  intros Hfresh. unfold Client.getSymbols. cbv zeta. rewrite Hfresh.
  eexists. split; [reflexivity|]. split; [reflexivity|].
  cbn [Wire.s_symbols]. rewrite symbol_keys_are_rate_keys.
  intros from to amount api' iso' now' later' isoDay random days_arg Hf Ht Ha.
  destruct (assoc_of_key _ _ Hf) as [rf Hrf]. destruct (assoc_of_key _ _ Ht) as [rt Hrt].
  destruct (table_key_normal _ _ Hrf) as [Uf _].
  destruct (table_key_normal _ _ Hrt) as [Ut _].
  destruct (table_key_not_empty _ _ Hrf) as [Ef _].
  destruct (table_key_not_empty _ _ Hrt) as [Et _].
  split.
  - eexists.
    rewrite (client_convert_fallback api' iso' from to amount rf rt)
      by (rewrite ?Uf, ?Ut; done).
    cbn [fst Wire.c_from Wire.c_to]. by rewrite Uf, Ut.
  - apply (client_series_fallback_ok api' now' later' isoDay random from to days_arg rf rt);
      by rewrite ?Uf, ?Ut.
Qed.

Lemma offline_offer_is_served_witness :
  exists s,
    (Client.getSymbols None 0 0 "t" {| Client.cache := ∅; Client.requests := [] |}).1
      = inr (Client.VSymbols s) /\
    Wire.s_fallback s = Some true.
Proof.
  destruct (offline_offer_is_served {| Client.cache := ∅; Client.requests := [] |} 0 0 "t")
    as (s & Hs & Hf & _); [reflexivity|].
  exists s. by split.
Defined.

(** X21.  The two server fallbacks disagree on two codes.  Of the 22 codes
    the [catch] block of [symbols.php] lists, the [catch] block of
    [convert.php] converts a pair exactly when neither code is [TL] or
    [UA]; for a pair with one of these two it answers 400. *)
Theorem server_fallback_offer_and_rates
    (round : Double.number -> Z -> Double.number)
    (times : string -> Double.number -> option Double.number)
    (date_s date_c : string) (from to : string) (amount : Double.number) :
  exists s,
    SymbolsPhp.catch_block date_s
      = {| SymbolsPhp.status := 200; SymbolsPhp.body := SymbolsPhp.Payload s |} /\
    length (Wire.s_symbols s) = 22%nat /\
    (from ∈ (Wire.s_symbols s).*1 -> to ∈ (Wire.s_symbols s).*1 ->
     (ConvertPhp.status
        (ConvertPhp.catch_block round times date_c from to (Wire.ANumber amount)) = 200
      <-> (from ∉ ["TL"; "UA"]) /\ (to ∉ ["TL"; "UA"])) /\
     (ConvertPhp.status
        (ConvertPhp.catch_block round times date_c from to (Wire.ANumber amount)) = 400
      <-> (from ∈ ["TL"; "UA"]) \/ (to ∈ ["TL"; "UA"]))).
Proof.
  eexists. split; [reflexivity|]. split; [reflexivity|].
  cbn [Wire.s_symbols]. intros Hf Ht.
  assert (Hkeys : Table.fallbackSymbols_php.*1 = Table.fallbackRates.*1 ++ ["TL"; "UA"])
    by reflexivity.
  rewrite Hkeys in Hf, Ht. apply elem_of_app in Hf, Ht.
  assert (Hout : forall k, k ∈ ["TL"; "UA"] -> Table.assoc k Table.fallbackRates = None).
  { intros k Hk. apply elem_of_cons in Hk as [-> | Hk]; [reflexivity|].
    apply list_elem_of_singleton in Hk as ->. reflexivity. }
  assert (Hin : forall k, k ∈ Table.fallbackRates.*1 -> k ∉ ["TL"; "UA"]).
  { intros k Hk Hk'. apply assoc_of_key in Hk as [r Hr].
    rewrite (Hout k Hk') in Hr. discriminate. }
  unfold ConvertPhp.catch_block.
  destruct Hf as [Hf | Hf], Ht as [Ht | Ht].
  - destruct (assoc_of_key _ _ Hf) as [rf ->]. destruct (assoc_of_key _ _ Ht) as [rt ->].
    cbn [ConvertPhp.product ConvertPhp.status]. split; split; try done.
    + intros _. split; by apply Hin.
    + intros [H | H]; by apply Hin in H.
  - destruct (assoc_of_key _ _ Hf) as [rf ->]. rewrite (Hout to Ht).
    cbn [ConvertPhp.status]. split; split; try done.
    + by intros [_ H].
    + intros _. by right.
  - rewrite (Hout from Hf). cbn [ConvertPhp.status]. split; split; try done.
    + by intros [H _].
    + intros _. by left.
  - rewrite (Hout from Hf). cbn [ConvertPhp.status]. split; split; try done.
    + by intros [H _].
    + intros _. by left.
Qed.

Lemma server_fallback_offer_and_rates_witness :
  ConvertPhp.status
    (ConvertPhp.catch_block (fun x _ => x) (fun _ _ => None) "t" "USD" "UA"
       (Wire.ANumber (Double.of_int 1))) = 400.
Proof.
  destruct (server_fallback_offer_and_rates (fun x _ => x) (fun _ _ => None)
              "t" "t" "USD" "UA" (Double.of_int 1)) as (s & Hs & _ & H).
  unfold SymbolsPhp.catch_block in Hs. injection Hs as <-.
  apply H; [| | right]; apply (bool_decide_unpack _); by vm_compute.
Defined.

(** X22.  What the converter form submits, [convert] of the client accepts.
    When [handleSubmit] goes on to convert, it passes on the two selected
    codes and the parsed amount, which is a number, the codes differ, and
    the client's own guard lets the call through: [convert] does not throw
    its parameter error and issues exactly one request to [convert.php],
    with the codes in upper case. *)
Theorem submitted_conversion_reaches_backend
    (isLoading : bool) (from to : string) (amount : Double.number) (f t : string)
    (a : Double.number)
    (backend : option Client.js_value) (iso : string) (api : Client.CurrencyAPI) :
  ConverterPage.handleSubmit isLoading from to amount = ConverterPage.Converts f t a ->
  isLoading = false /\ f = from /\ t = to /\ (a = amount /\ a <> S754_nan) /\ f <> t /\
  (Client.convert backend iso f t a api).1 <> inl Client.InvalidParameters /\
  Client.requests (Client.convert backend iso f t a api).2
    = Client.ReqConvert (Str.toUpperCase f) (Str.toUpperCase t) a :: Client.requests api.
Proof.
  unfold ConverterPage.handleSubmit. destruct isLoading; [done|].
  destruct (Str.js_falsy from || Str.js_falsy to) eqn:Hcodes; [done|].
  destruct (Double.falsy amount || Double.nonpositive amount) eqn:Hamount; [done|].
  case_bool_decide as Hsame; [done|]. intros [= <- <- <-].
  do 3 (split; [done|]).
  split; [split; [done|]; intros ->; discriminate|]. split; [done|].
  unfold Client.convert. rewrite <- orb_assoc, Hcodes, Hamount. cbn [orb].
  destruct backend as [d|]; [done|].
  destruct (Table.assoc (Str.toUpperCase from) Table.fallbackRates) as [rf|]; [|done].
  destruct (Table.assoc (Str.toUpperCase to) Table.fallbackRates) as [rt|]; [|done].
  by destruct (negb (Double.falsy rf) && negb (Double.falsy rt)).
Qed.

Lemma submitted_conversion_reaches_backend_witness :
  (Client.convert None "t" "usd" "eur" (Double.of_int 10)
     {| Client.cache := ∅; Client.requests := [] |}).1 <> inl Client.InvalidParameters.
Proof.
  apply (submitted_conversion_reaches_backend false "usd" "eur" (Double.of_int 10)
           "usd" "eur" (Double.of_int 10) None "t"
           {| Client.cache := ∅; Client.requests := [] |}).
  reflexivity.
Defined.

(** X23.  An offline conversion is found again in the offline history.  With
    the backend down, a conversion of a positive amount between two codes of
    the table succeeds, and the record [saveToHistory] builds from it and
    stores through [saveHistory] is the first of the list [getHistory] reads
    back from the local store, before what was there, 50 records at most;
    after [clearHistory] the list read back is empty. *)
Theorem offline_conversion_is_logged
    (api : Client.CurrencyAPI) (iso from to : string) (amount rf rt : Double.number)
    (storage : option (list ConverterPage.HistoryEntry)) :
  Table.assoc from Table.fallbackRates = Some rf ->
  Table.assoc to Table.fallbackRates = Some rt ->
  Double.above_zero amount ->
  exists d,
    (Client.convert None iso from to amount api).1 = inr (Client.VConvert d) /\
    let record := ConverterPage.historyRecord d in
    let stored := Client.saveHistory false record storage in
    ConverterPage.h_from record = from /\ ConverterPage.h_to record = to /\
    ConverterPage.h_amount record = Wire.ANumber amount /\
    ConverterPage.h_date record = iso /\
    Client.getHistory None stored = take 50 (record :: Client.getHistory None storage) /\
    (length (Client.getHistory None stored) <= 50)%nat /\
    Client.getHistory None (ClientOps.clearHistory false stored) = [].
Proof.
  intros Hf Ht Ha.
  destruct (table_key_normal _ _ Hf) as [Uf _].
  destruct (table_key_normal _ _ Ht) as [Ut _].
  destruct (table_key_not_empty _ _ Hf) as [Ef _].
  destruct (table_key_not_empty _ _ Ht) as [Et _].
  eexists.
  rewrite (client_convert_fallback api iso from to amount rf rt) by (rewrite ?Uf, ?Ut; done).
  split; [reflexivity|]. cbv zeta.
  cbn [ConverterPage.historyRecord ConverterPage.h_from ConverterPage.h_to
       ConverterPage.h_amount ConverterPage.h_date
       Wire.c_from Wire.c_to Wire.c_amount Wire.c_date].
  do 4 (split; [done|]).
  unfold Client.saveHistory. rewrite saveHistoryToStorage_take.
  cbn [Client.getHistory Client.getHistoryFromStorage]. split; [done|].
  split; [rewrite length_take; lia | done].
Qed.

Lemma offline_conversion_is_logged_witness :
  exists d,
    (Client.convert None "t" "USD" "EUR" (Double.of_int 10)
       {| Client.cache := ∅; Client.requests := [] |}).1 = inr (Client.VConvert d) /\
    Client.getHistory None
      (Client.saveHistory false (ConverterPage.historyRecord d) None)
    = [ConverterPage.historyRecord d].
Proof.
  destruct (offline_conversion_is_logged {| Client.cache := ∅; Client.requests := [] |}
              "t" "USD" "EUR" (Double.of_int 10) (Double.lit 10 10) (Double.lit 85 100)
              None)
    as (d & Hd & H); [reflexivity | reflexivity | reflexivity |].
  cbv zeta in H. destruct H as (_ & _ & _ & _ & H & _).
  exists d. split; [exact Hd | exact H].
Defined.

(** ** The list of currencies served by [symbols.php] *)

(** X24.  [symbols.php] answers every GET with status 200 and a list, and
    its [cached] flag never turns true: as long as the cache file holds what
    the script wrote (a provider's list, [cached: false], no [fallback]
    key), the answer carries [cached: false] also when it is the cache file
    served again; an answer marked [fallback] is the built-in list, given
    without touching the cache; and the cache file still holds a provider's
    list afterwards. *)
Theorem symbols_php_always_lists
    (files : gmap string (Http.CacheFile Wire.SymbolsData)) (now written : Z)
    (date_c : string) (upstream : SymbolsPhp.upstream_reply) :
  let script_written (fs : gmap string (Http.CacheFile Wire.SymbolsData)) :=
    forall f, fs !! SymbolsPhp.cacheFile = Some f ->
      Wire.s_cached (Http.content f) = false /\ Wire.s_fallback (Http.content f) = None in
  let out := SymbolsPhp.symbols_php files now written date_c upstream Http.GET in
  script_written files ->
  exists d,
    out.1 = {| SymbolsPhp.status := 200; SymbolsPhp.body := SymbolsPhp.Payload d |} /\
    Wire.s_cached d = false /\
    (Wire.s_fallback d = Some true ->
     Wire.s_symbols d = Table.fallbackSymbols_php /\ out.2 = files) /\
    script_written out.2.
Proof.
  intros script_written out Hfiles. subst out.
  unfold SymbolsPhp.symbols_php, SymbolsPhp.try_block, Http.cache_read.
  destruct (files !! SymbolsPhp.cacheFile) as [f|] eqn:Hf.
  - destruct (Hfiles f Hf) as [Hc Hfb].
    destruct (now - Http.mtime f <? SymbolsPhp.cacheTime).
    { exists (Http.content f). cbn [fst snd]. rewrite Hfb. done. }
    destruct upstream; eexists; (split; [reflexivity|]); cbn [fst snd];
      (split; [reflexivity|]); (split; [done|]); try done.
    intros f'. unfold Http.cache_write. rewrite lookup_insert_eq. by intros [= <-].
  - destruct upstream; eexists; (split; [reflexivity|]); cbn [fst snd];
      (split; [reflexivity|]); (split; [done|]); try done.
    intros f'. unfold Http.cache_write. rewrite lookup_insert_eq. by intros [= <-].
Qed.

Lemma symbols_php_always_lists_witness :
  exists d,
    (SymbolsPhp.symbols_php ∅ 0 0 "t" SymbolsPhp.FetchFailed Http.GET).1
      = {| SymbolsPhp.status := 200; SymbolsPhp.body := SymbolsPhp.Payload d |} /\
    Wire.s_cached d = false.
Proof.
  destruct (symbols_php_always_lists ∅ 0 0 "t" SymbolsPhp.FetchFailed)
    as (d & Hd & Hc & _).
  - intros f Hf. vm_compute in Hf. discriminate.
  - exists d. by split.
Defined.

(** ** The local history of the second client and the rows of the history page *)

Section ViewFacts.
Context {A : Type}.

Lemma react_save_all (saved : list A) (local : option (list A)) :
  Client.getHistoryFromStorage
    (foldl (fun st r => ClientReact.saveHistory false r st) local saved)
  = foldl (fun h r => take 10 (r :: h)) (Client.getHistoryFromStorage local) saved /\
  (saved <> [] ->
   is_Some (foldl (fun st r => ClientReact.saveHistory false r st) local saved)).
Proof.
  revert local. induction saved as [|r saved IH]; intros local; [done|].
  cbn [foldl]. destruct (IH (ClientReact.saveHistory false r local)) as [IH1 IH2].
  split.
  - rewrite IH1. by rewrite react_saveHistory_take.
  - intros _. destruct saved as [|r' saved']; [|by apply IH2].
    rewrite react_saveHistory_take. by eexists.
Qed.

Lemma page_add_all (recs : list A) (history : list A) :
  foldl (fun h r => HistoryView.addNewRecord r h) history recs
  = foldl (fun h r => take 50 (r :: h)) history recs.
Proof.
  revert history. induction recs as [|r recs IH]; intros history; [done|].
  cbn [foldl]. by rewrite IH, addNewRecord_take.
Qed.

End ViewFacts.

(** X25.  The second client variant keeps ten records locally.  With the
    backend down, after ten or more calls of its [saveHistory] the local
    store holds exactly the ten records saved last, newest first, whatever
    it held before. *)
Theorem react_local_history_keeps_ten
    (A : Type) (local : option (list A)) (saved : list A) :
  (10 <= length saved)%nat ->
  foldl (fun st r => ClientReact.saveHistory false r st) local saved
    = Some (reverse (drop (length saved - 10) saved)) /\
  length (reverse (drop (length saved - 10) saved)) = 10%nat.
Proof.
  intros Hlen.
  assert (Hne : saved <> []) by (intros ->; simpl in Hlen; lia).
  destruct (react_save_all saved local) as [Hload Hsome].
  destruct (Hsome Hne) as [h Hh]. rewrite Hh in Hload |- *.
  cbn [Client.getHistoryFromStorage] in Hload.
  rewrite Hload, bounded_log_after by (done || lia).
  split; [done|]. rewrite length_reverse, length_drop. lia.
Qed.

Lemma react_local_history_keeps_ten_witness :
  foldl (fun st r => ClientReact.saveHistory false r st) (Some [0%nat])
    (seq 1 12)
  = Some [12; 11; 10; 9; 8; 7; 6; 5; 4; 3]%nat.
Proof.
  destruct (react_local_history_keeps_ten nat (Some [0%nat]) (seq 1 12)) as [H _].
  - vm_compute. lia.
  - exact H.
Defined.

(** X26.  The history page shows the newest records on top.  After any run
    of [addNewRecord], the table rendered by [renderHistoryTable] holds the
    added records from the last one back, followed by the rows that were
    there, ten rows at most. *)
Theorem history_page_shows_newest_first
    (A : Type) (history : list A) (recs : list A) :
  let shown := HistoryView.renderHistoryTable
                 (foldl (fun h r => HistoryView.addNewRecord r h) history recs) in
  shown = take 10 (reverse recs ++ history) /\ (length shown <= 10)%nat.
Proof.
  cbv zeta. unfold HistoryView.renderHistoryTable, HistoryView.maxRecords.
  rewrite page_add_all. split; [|rewrite length_take; lia].
  destruct recs as [|r recs]; [done|].
  cbn [foldl]. rewrite foldl_bounded_prepend, take_take.
  rewrite reverse_cons, <- app_assoc. done.
Qed.
